(** * TimeEdit CSV to Canvas: the event pipeline of [timeedit_csv_to_canvas.py]

    A shallow embedding of the script: the row parser ([parse_csv_file]), the
    formatters ([format_event_title], [format_event_description],
    [format_location]), the submission step ([create_canvas_event]) and the
    driver ([main]), followed by the properties of the specification.

    Conventions of the embedding.
    - A Python [str] is a list of Unicode code points ([str := list N]), so
      that slicing, [len], [strip] and [split] count what Python counts.
    - Exceptions are values: a function that can raise returns [result A].
    - The module-level configuration constants are the fields of [Config];
      [shipped] holds the values the script is distributed with.
    - The outside world (file system, CSV reader, console input, HTTP
      transport) is passed in explicitly. A keyboard interrupt is met where
      the script waits for the world: at the prompt and in a request. *)

From Stdlib Require Import ZArith NArith List String Ascii Bool Lia.
From stdpp Require Import base option list countable gmap.
Import ListNotations.

Local Open Scope Z_scope.

(** ** Python strings *)

Definition char := N.
Definition str := list N.

(** An ASCII literal of the script as a string of code points. *)
Definition lit (s : string) : str :=
  List.map N_of_ascii (list_ascii_of_string s).

Definition str_eqb (a b : str) : bool := bool_decide (a = b).

(** [str.isspace] for one character: the code points Python treats as
    whitespace, which are also those the regular-expression class [\s]
    matches in a [str] pattern. *)
Definition isspace (c : char) : bool :=
  ((9 <=? c) && (c <=? 13) || (28 <=? c) && (c <=? 32)
   || (c =? 133) || (c =? 160) || (c =? 5760)
   || (8192 <=? c) && (c <=? 8202)
   || (c =? 8232) || (c =? 8233) || (c =? 8239) || (c =? 8287)
   || (c =? 12288))%N.

Fixpoint lstrip (s : str) : str :=
  match s with
  | c :: s' => if isspace c then lstrip s' else s
  | [] => []
  end.

Definition rstrip (s : str) : str := rev (lstrip (rev s)).

(** [s.strip()] *)
Definition strip (s : str) : str := rstrip (lstrip s).

(** [s.split(sep)] for a one-character separator: every occurrence of the
    separator ends a segment; the empty string splits into one empty
    segment. *)
Fixpoint split (sep : char) (s : str) : list str :=
  match s with
  | [] => [[]]
  | c :: s' =>
      if (c =? sep)%N then [] :: split sep s'
      else match split sep s' with
           | seg :: segs => (c :: seg) :: segs
           | [] => [[c]]
           end
  end.

Definition comma : char := 44%N.

(** [sep.join(parts)] *)
Fixpoint join (sep : str) (parts : list str) : str :=
  match parts with
  | [] => []
  | [p] => p
  | p :: ps => p ++ sep ++ join sep ps
  end.

(** [s[:n]] for [0 <= n] *)
Definition slice_to (n : nat) (s : str) : str := firstn n s.

(** Truthiness of a string or of a list: non-empty. *)
Definition nonempty {A} (l : list A) : bool :=
  match l with [] => false | _ :: _ => true end.

(** [s.lower()] restricted to the letters A-Z; enough to decide
    [s.lower() in ['yes', 'y']], since no other character lowers to an
    ASCII letter of these words. *)
Definition lower (s : str) : str :=
  List.map (fun c => if ((65 <=? c) && (c <=? 90))%N then (c + 32)%N else c) s.

(** ** Exceptions *)

Inductive exn :=
| FileNotFoundError
| StopIteration
| KeyError
| AttributeError
| ValueError
| OverflowError
| URLError
| EOFError.

Inductive result (A : Type) :=
| Ok (a : A)
| Raise (e : exn).
Arguments Ok {A} a.
Arguments Raise {A} e.

Definition bind {A B} (r : result A) (k : A -> result B) : result B :=
  match r with
  | Ok a => k a
  | Raise e => Raise e
  end.

Notation "'let*' x ':=' r 'in' k" := (bind r (fun x => k))
  (at level 10, x pattern, r at level 100, k at level 200,
   format "'let*'  x  ':='  r  'in' '//' k").

Definition is_ok {A} (r : result A) : bool :=
  match r with Ok _ => true | Raise _ => false end.

(** ** Rows of the CSV reader

    [csv.DictReader] yields one dictionary per record; a field of a record
    shorter than the header has the value [None]. *)

Inductive pyval :=
| PyNone
| PyStr (s : str).

Abbreviation Row := (gmap str pyval).

(** Truthiness of what [row.get(key)] returns. *)
Definition truthy (v : pyval) : bool :=
  match v with
  | PyNone => false
  | PyStr s => nonempty s
  end.

(** [row.get(key)] *)
Definition row_get (row : Row) (key : str) : pyval :=
  default PyNone (row !! key).

(** [row.get(key, '')] *)
Definition row_get_default (row : Row) (key : str) : pyval :=
  default (PyStr []) (row !! key).

(** [row[key]] *)
Definition row_getitem (row : Row) (key : str) : result pyval :=
  match row !! key with
  | Some v => Ok v
  | None => Raise KeyError
  end.

(** [v.strip()] on what a row holds: [None] has no such attribute. *)
Definition py_strip (v : pyval) : result str :=
  match v with
  | PyStr s => Ok (strip s)
  | PyNone => Raise AttributeError
  end.

(** ** Dates and times: the part of [datetime] the script uses

    The definitions follow the reference implementation of the [datetime]
    module. The microsecond field is left out: [strptime] with the format of
    the script sets it to 0 and whole-hour offsets keep it 0. *)

Record datetime := {
  year : Z;
  month : Z;
  day : Z;
  hour : Z;
  minute : Z;
  second : Z
}.

Definition MAXYEAR : Z := 9999.
Definition MAXORDINAL : Z := 3652059.

Definition is_leap (y : Z) : bool :=
  (y mod 4 =? 0) && (negb (y mod 100 =? 0) || (y mod 400 =? 0)).

Definition days_before_year (y : Z) : Z :=
  let y1 := y - 1 in
  y1 * 365 + y1 / 4 - y1 / 100 + y1 / 400.

(** [_DAYS_IN_MONTH[m]] *)
Definition DAYS_IN_MONTH (m : Z) : Z :=
  match m with
  | 1 => 31 | 2 => 28 | 3 => 31 | 4 => 30 | 5 => 31 | 6 => 30
  | 7 => 31 | 8 => 31 | 9 => 30 | 10 => 31 | 11 => 30 | 12 => 31
  | _ => -1
  end.

(** [_DAYS_BEFORE_MONTH[m]] *)
Definition DAYS_BEFORE_MONTH (m : Z) : Z :=
  match m with
  | 1 => 0 | 2 => 31 | 3 => 59 | 4 => 90 | 5 => 120 | 6 => 151
  | 7 => 181 | 8 => 212 | 9 => 243 | 10 => 273 | 11 => 304 | 12 => 334
  | _ => -1
  end.

Definition days_in_month (y m : Z) : Z :=
  if (m =? 2) && is_leap y then 29 else DAYS_IN_MONTH m.

Definition days_before_month (y m : Z) : Z :=
  DAYS_BEFORE_MONTH m + (if (2 <? m) && is_leap y then 1 else 0).

Definition ymd2ord (y m d : Z) : Z :=
  days_before_year y + days_before_month y m + d.

Definition DI400Y : Z := 146097.
Definition DI100Y : Z := 36524.
Definition DI4Y : Z := 1461.

Definition ord2ymd (n : Z) : Z * Z * Z :=
  let n := n - 1 in
  let n400 := n / DI400Y in
  let n := n mod DI400Y in
  let y := n400 * 400 + 1 in
  let n100 := n / DI100Y in
  let n := n mod DI100Y in
  let n4 := n / DI4Y in
  let n := n mod DI4Y in
  let n1 := n / 365 in
  let n := n mod 365 in
  let y := y + n100 * 100 + n4 * 4 + n1 in
  if (n1 =? 4) || (n100 =? 4) then (y - 1, 12, 31)
  else
    let leapyear := (n1 =? 3) && (negb (n4 =? 24) || (n100 =? 3)) in
    let m := Z.shiftr (n + 50) 5 in
    let preceding := DAYS_BEFORE_MONTH m + (if (2 <? m) && leapyear then 1 else 0) in
    let '(m, preceding) :=
      if n <? preceding
      then (m - 1,
            preceding - (DAYS_IN_MONTH (m - 1)
                         + (if (m - 1 =? 2) && leapyear then 1 else 0)))
      else (m, preceding) in
    (y, m, n - preceding + 1).

(** The checks of the [datetime] constructor. *)
Definition valid_datetime (dt : datetime) : bool :=
  (1 <=? year dt) && (year dt <=? MAXYEAR)
  && (1 <=? month dt) && (month dt <=? 12)
  && (1 <=? day dt) && (day dt <=? days_in_month (year dt) (month dt))
  && (0 <=? hour dt) && (hour dt <=? 23)
  && (0 <=? minute dt) && (minute dt <=? 59)
  && (0 <=? second dt) && (second dt <=? 59).

Definition datetime_new (y m d H M S : Z) : result datetime :=
  let dt := {| year := y; month := m; day := d;
               hour := H; minute := M; second := S |} in
  if valid_datetime dt then Ok dt else Raise ValueError.

Definition toordinal (dt : datetime) : Z :=
  ymd2ord (year dt) (month dt) (day dt).

(** Comparison of two naive datetimes: the field tuples, lexicographically. *)
Definition datetime_cmp (a b : datetime) : comparison :=
  match year a ?= year b with
  | Eq => match month a ?= month b with
          | Eq => match day a ?= day b with
                  | Eq => match hour a ?= hour b with
                          | Eq => match minute a ?= minute b with
                                  | Eq => second a ?= second b
                                  | c => c
                                  end
                          | c => c
                          end
                  | c => c
                  end
          | c => c
          end
  | c => c
  end.


(** A [timedelta], normalised to days and seconds of the day. *)
Record timedelta := {
  td_days : Z;
  td_seconds : Z
}.

Definition timedelta_new (days seconds : Z) : result timedelta :=
  let total := days * 86400 + seconds in
  let d := total / 86400 in
  if Z.abs d <=? 999999999
  then Ok {| td_days := d; td_seconds := total mod 86400 |}
  else Raise OverflowError.

(** [timedelta(hours=h)] *)
Definition timedelta_hours (h : Z) : result timedelta :=
  timedelta_new 0 (h * 3600).

(** [-td] *)
Definition timedelta_neg (td : timedelta) : result timedelta :=
  timedelta_new (- td_days td) (- td_seconds td).

(** [td1 + td2] *)
Definition timedelta_add (a b : timedelta) : result timedelta :=
  timedelta_new (td_days a + td_days b) (td_seconds a + td_seconds b).

(** [dt + td] *)
Definition datetime_add (dt : datetime) (td : timedelta) : result datetime :=
  let* delta :=
    timedelta_new (toordinal dt)
                  (hour dt * 3600 + minute dt * 60 + second dt) in
  let* delta := timedelta_add delta td in
  let H := td_seconds delta / 3600 in
  let rem := td_seconds delta mod 3600 in
  let M := rem / 60 in
  let S := rem mod 60 in
  if (0 <? td_days delta) && (td_days delta <=? MAXORDINAL)
  then let '(y, m, d) := ord2ymd (td_days delta) in
       Ok {| year := y; month := m; day := d;
             hour := H; minute := M; second := S |}
  else Raise OverflowError.

(** [dt - td], which Python computes as [dt + (-td)] *)
Definition datetime_sub (dt : datetime) (td : timedelta) : result datetime :=
  let* ntd := timedelta_neg td in
  datetime_add dt ntd.

(** *** [strptime] with the format [%Y-%m-%d %H:%M]

    [strptime] turns the format into the regular expression
    [(\d\d\d\d)-(1[0-2]|0[1-9]|[1-9])-(3[0-1]|[1-2]\d|0[1-9]|[1-9]| [1-9])\s+(2[0-3]|[0-1]\d|\d):([0-5]\d|\d)],
    matches it at the start of the text, requires the match to end where
    the text ends, converts the groups with [int] and builds the datetime.
    A matcher returns the ways to match a prefix in the order the
    backtracking engine tries them; the first is the match the engine
    reports. *)

(** First code point of every run of ten decimal digits (Unicode category
    Nd, Unicode 14.0): [\d] matches them all and [int] converts them. *)
Definition decimal_zeros : list N :=
  [48; 1632; 1776; 1984; 2406; 2534; 2662; 2790; 2918; 3046; 3174; 3302;
   3430; 3558; 3664; 3792; 3872; 4160; 4240; 6112; 6160; 6470; 6608; 6784;
   6800; 6992; 7088; 7232; 7248; 42528; 43216; 43264; 43472; 43504; 43600;
   44016; 65296; 66720; 68912; 69734; 69872; 69942; 70096; 70384; 70736;
   70864; 71248; 71360; 71472; 71904; 72016; 72784; 73040; 73120; 92768;
   92864; 93008; 120782; 120792; 120802; 120812; 120822; 123200; 123632;
   125264; 130032]%N.

(** [unicodedata.decimal(c)], when [c] is a decimal digit *)
Definition decimal (c : char) : option Z :=
  match List.find (fun z => (z <=? c) && (c <? z + 10))%N decimal_zeros with
  | Some z => Some (Z.of_N (c - z))
  | None => None
  end.

Definition matcher (A : Type) := str -> list (A * str).

Definition m_ret {A} (a : A) : matcher A := fun s => [(a, s)].

Definition m_bind {A B} (m : matcher A) (k : A -> matcher B) : matcher B :=
  fun s => flat_map (fun p => k (fst p) (snd p)) (m s).

Definition m_alt {A} (m1 m2 : matcher A) : matcher A :=
  fun s => m1 s ++ m2 s.

Notation "'match*' x ':=' m 'in' k" := (m_bind m (fun x => k))
  (at level 10, x pattern, m at level 100, k at level 200,
   format "'match*'  x  ':='  m  'in' '//' k").

(** One given character. *)
Definition m_char (c : char) : matcher unit :=
  fun s => match s with
           | c' :: s' => if (c' =? c)%N then [(tt, s')] else []
           | [] => []
           end.

(** [[lo-hi]] for two ASCII digits [lo] and [hi]; the value of the digit. *)
Definition m_range (lo hi : Z) : matcher Z :=
  fun s => match s with
           | c :: s' =>
               let v := Z.of_N c - 48 in
               if (lo <=? v) && (v <=? hi) then [(v, s')] else []
           | [] => []
           end.

(** [\d] *)
Definition m_digit : matcher Z :=
  fun s => match s with
           | c :: s' => match decimal c with
                        | Some v => [(v, s')]
                        | None => []
                        end
           | [] => []
           end.

(** [\s*], greedy: the longest run first. *)
Fixpoint m_space_star (s : str) : list (unit * str) :=
  match s with
  | c :: s' => if isspace c then m_space_star s' ++ [(tt, s)] else [(tt, s)]
  | [] => [(tt, [])]
  end.

(** [\s+] *)
Definition m_space_plus : matcher unit :=
  fun s => match s with
           | c :: s' => if isspace c then m_space_star s' else []
           | [] => []
           end.

(** Two digits read as a number. *)
Definition m_pair (m1 m2 : matcher Z) : matcher Z :=
  match* a := m1 in
  match* b := m2 in
  m_ret (10 * a + b).

Definition re_Y : matcher Z :=
  match* a := m_digit in
  match* b := m_digit in
  match* c := m_digit in
  match* d := m_digit in
  m_ret (1000 * a + 100 * b + 10 * c + d).

Definition re_m : matcher Z :=
  m_alt (m_pair (m_range 1 1) (m_range 0 2))
    (m_alt (m_pair (m_range 0 0) (m_range 1 9))
       (m_range 1 9)).

Definition re_d : matcher Z :=
  m_alt (m_pair (m_range 3 3) (m_range 0 1))
    (m_alt (m_pair (m_range 1 2) m_digit)
       (m_alt (m_pair (m_range 0 0) (m_range 1 9))
          (m_alt (m_range 1 9)
             (match* _ := m_char 32%N in m_range 1 9)))).

Definition re_H : matcher Z :=
  m_alt (m_pair (m_range 2 2) (m_range 0 3))
    (m_alt (m_pair (m_range 0 1) m_digit)
       m_digit).

Definition re_M : matcher Z :=
  m_alt (m_pair (m_range 0 5) m_digit) m_digit.

Definition re_timestamp : matcher (Z * Z * Z * Z * Z) :=
  match* y := re_Y in
  match* _ := m_char 45%N in
  match* m := re_m in
  match* _ := m_char 45%N in
  match* d := re_d in
  match* _ := m_space_plus in
  match* H := re_H in
  match* _ := m_char 58%N in
  match* M := re_M in
  m_ret (y, m, d, H, M).

(** [datetime.strptime(text, "%Y-%m-%d %H:%M")] *)
Definition strptime (text : str) : result datetime :=
  match re_timestamp text with
  | [] => Raise ValueError
  | (y, m, d, H, M, rest) :: _ =>
      if nonempty rest then Raise ValueError
      else datetime_new y m d H M 0
  end.

(** *** [strftime] with the format [%Y-%m-%dT%H:%M:%SZ]

    [datetime.strftime] hands the format to [strftime] of the C library.
    The month, the day, the hour, the minute and the second are written in
    two digits. [%Y] is the year as a decimal number, and the GNU C library
    writes it without padding: a year before 1000 has fewer than four digits
    ([999] for the year 999). From 1000 on there is one way to write it. *)

Fixpoint fixed_width (w : nat) (n : Z) : str :=
  match w with
  | O => []
  | S w' => fixed_width w' (n / 10) ++ [Z.to_N (48 + n mod 10)]
  end.

(** The decimal digits of [n], no more than [fuel] of them. *)
Fixpoint decimal_digits (fuel : nat) (n : Z) : str :=
  match fuel with
  | O => []
  | S fuel' =>
      (if n <? 10 then [] else decimal_digits fuel' (n / 10))
      ++ [Z.to_N (48 + n mod 10)]
  end.

(** [%Y]: a year of a datetime has at most four digits. *)
Definition year_text (y : Z) : str := decimal_digits 4 y.

Definition strftime_iso (dt : datetime) : str :=
  year_text (year dt) ++ lit "-" ++ fixed_width 2 (month dt) ++ lit "-"
  ++ fixed_width 2 (day dt) ++ lit "T" ++ fixed_width 2 (hour dt) ++ lit ":"
  ++ fixed_width 2 (minute dt) ++ lit ":" ++ fixed_width 2 (second dt)
  ++ lit "Z".

(** ** Configuration

    The constants of the configuration section of the script. *)

Record Config := {
  CANVAS_DOMAIN : str;
  API_TOKEN : str;
  COURSE_ID : str;
  CSV_FILE : str;
  LANGUAGE : str;
  TIMEZONE_OFFSET : Z
}.

(** The values the script is distributed with. *)
Definition shipped : Config := {|
  CANVAS_DOMAIN := lit "chalmers.instructure.com";
  API_TOKEN := lit "ADD YOUR API TOKEN HERE";
  COURSE_ID := lit "ADD YOUR COURSE ID HERE";
  CSV_FILE := lit "ADD YOUR CSV FILE PATH HERE";
  LANGUAGE := lit "en";
  TIMEZONE_OFFSET := 1
|}.

Definition BASE_URL (cfg : Config) : str :=
  lit "https://" ++ CANVAS_DOMAIN cfg ++ lit "/api/v1".

Definition TRANSLATIONS : gmap str (gmap str str) :=
  list_to_map [
    (lit "en", list_to_map [
       (lit "course", lit "Course");
       (lit "courses", lit "Courses");
       (lit "activity", lit "Activity");
       (lit "title", lit "Title");
       (lit "location", lit "Location");
       (lit "room", lit "Room");
       (lit "campus", lit "Campus");
       (lit "classes", lit "Classes")]);
    (lit "sv", list_to_map [
       (lit "course", lit "Kurs");
       (lit "courses", lit "Kurser");
       (lit "activity", lit "Aktivitet");
       (lit "title", lit "Titel");
       (lit "location", lit "Plats");
       (lit "room", lit "Rum");
       (lit "campus", lit "Campus");
       (lit "classes", lit "Klasser")])].

(** [t(key)]: [TRANSLATIONS[LANGUAGE].get(key, key)] *)
Definition t (cfg : Config) (key : str) : result str :=
  match TRANSLATIONS !! LANGUAGE cfg with
  | Some table => Ok (default key (table !! key))
  | None => Raise KeyError
  end.

(** ** Events *)

Record Event := {
  start : datetime;
  end_ : datetime;
  course_codes : list str;
  course_names : list str;
  activities : list str;
  title : str;
  room : str;
  class_codes : list str;
  class_names : list str
}.

(** ** The parser: the body of the row loop of [parse_csv_file] *)

(** [[x.strip() for x in raw.split(',') if x.strip()]] *)
Definition split_field (raw : str) : list str :=
  List.map strip
    (List.filter (fun x => nonempty (strip x)) (split comma raw)).

(** [[code[:6] for code in raw.split(',') if code.strip()]] *)
Definition split_codes (raw : str) : list str :=
  List.map (slice_to 6)
    (List.filter (fun code => nonempty (strip code)) (split comma raw)).

(** The test of the [continue] at the head of the loop body. *)
Definition skipped (row : Row) : bool :=
  negb (truthy (row_get row (lit "Begin date")))
  || negb (truthy (row_get row (lit "Begin time"))).

(** One pass through the loop body for a row that is not skipped. *)
Definition parse_event (cfg : Config) (row : Row) : result Event :=
  let* begin_date := bind (row_getitem row (lit "Begin date")) py_strip in
  let* begin_time := bind (row_getitem row (lit "Begin time")) py_strip in
  let* end_date := bind (row_getitem row (lit "End date")) py_strip in
  let* end_time := bind (row_getitem row (lit "End time")) py_strip in
  let* start_dt_local := strptime (begin_date ++ lit " " ++ begin_time) in
  let* end_dt_local := strptime (end_date ++ lit " " ++ end_time) in
  let* start_dt :=
    bind (timedelta_hours (TIMEZONE_OFFSET cfg)) (datetime_sub start_dt_local) in
  let* end_dt :=
    bind (timedelta_hours (TIMEZONE_OFFSET cfg)) (datetime_sub end_dt_local) in
  let* course_codes_raw := py_strip (row_get_default row (lit "Course code")) in
  let course_codes := split_codes course_codes_raw in
  let* course_names_raw := py_strip (row_get_default row (lit "Course name")) in
  let course_names := split_field course_names_raw in
  let* activity_raw := py_strip (row_get_default row (lit "Activity")) in
  let activities := split_field activity_raw in
  let* title := py_strip (row_get_default row (lit "Title")) in
  let* room := py_strip (row_get_default row (lit "Room")) in
  let* class_codes_raw := py_strip (row_get_default row (lit "class code")) in
  let class_codes := split_field class_codes_raw in
  let* class_names_raw := py_strip (row_get_default row (lit "Name")) in
  let class_names := split_field class_names_raw in
  Ok {| start := start_dt;
        end_ := end_dt;
        course_codes := course_codes;
        course_names := course_names;
        activities := activities;
        title := title;
        room := room;
        class_codes := class_codes;
        class_names := class_names |}.

(** The loop body: [None] when the row is skipped. *)
Definition parse_row (cfg : Config) (row : Row) : result (option Event) :=
  if skipped row then Ok None
  else let* event := parse_event cfg row in Ok (Some event).

(** The row loop: [events] is the list built so far. *)
Fixpoint parse_rows (cfg : Config) (rows : list Row) (events : list Event)
  : result (list Event) :=
  match rows with
  | [] => Ok events
  | row :: rest =>
      let* parsed := parse_row cfg row in
      parse_rows cfg rest
        (match parsed with
         | Some event => events ++ [event]
         | None => events
         end)
  end.

(** ** Title, description and location *)

Definition format_event_title (event : Event) : str :=
  if nonempty (activities event) then join (lit ", ") (activities event)
  else if nonempty (title event) then title event
  else match course_names event with
       | course :: _ =>
           if (40 <? length course)%nat
           then slice_to 37 course ++ lit "..."
           else course
       | [] => lit "Event"
       end.

Definition CLIPBOARD : char := 128203%N.
Definition PUSHPIN : char := 128204%N.
Definition ROUND_PUSHPIN : char := 128205%N.

(** The lines of the course block: one per course code, with the name at
    the same index when there is a non-empty one. *)
Fixpoint course_lines (codes names : list str) (i : nat) : list str :=
  match codes with
  | [] => []
  | code :: rest =>
      let name := default [] (names !! i) in
      (if nonempty name
       then lit "   " ++ code ++ lit " - " ++ name ++ lit "<br>"
       else lit "   " ++ code ++ lit "<br>")
      :: course_lines rest names (S i)
  end.

Definition course_block (cfg : Config) (event : Event) : result (list str) :=
  if nonempty (course_codes event) then
    let* label :=
      if (1 <? length (course_codes event))%nat
      then t cfg (lit "courses") else t cfg (lit "course") in
    Ok ([label ++ lit ":<br>"]
        ++ course_lines (course_codes event) (course_names event) 0
        ++ [lit "<br>"])
  else Ok [].

Definition activity_block (cfg : Config) (event : Event) : result (list str) :=
  if nonempty (activities event) then
    let* label := t cfg (lit "activity") in
    Ok [CLIPBOARD :: lit " " ++ label ++ lit ": "
          ++ join (lit ", ") (activities event) ++ lit "<br>";
        lit "<br>"]
  else Ok [].

(** The line of the title block. *)
Definition title_line (label : str) (event : Event) : str :=
  PUSHPIN :: lit " " ++ label ++ lit ": " ++ title event ++ lit "<br>".

Definition title_block (cfg : Config) (event : Event) : result (list str) :=
  if nonempty (title event)
     && negb (bool_decide (title event ∈ activities event)) then
    let* label := t cfg (lit "title") in
    Ok [title_line label event; lit "<br>"]
  else Ok [].

Definition location_block (cfg : Config) (event : Event) : result (list str) :=
  if nonempty (room event) then
    let* label := t cfg (lit "location") in
    Ok [ROUND_PUSHPIN :: lit " " ++ label ++ lit ": " ++ room event
          ++ lit "<br>";
        lit "<br>"]
  else Ok [].

(** The list [parts] at the end of [format_event_description]. *)
Definition description_parts (cfg : Config) (event : Event)
  : result (list str) :=
  let* courses := course_block cfg event in
  let* activity := activity_block cfg event in
  let* title := title_block cfg event in
  let* location := location_block cfg event in
  Ok (courses ++ activity ++ title ++ location).

Definition format_event_description (cfg : Config) (event : Event)
  : result str :=
  let* parts := description_parts cfg event in
  Ok (strip (concat parts)).

Definition format_location (event : Event) : str :=
  if nonempty (room event) then room event else [].

(** ** The outside world and the effects of a run *)

Definition bytes := list N.

(** The request [create_canvas_event] builds; the body is the JSON text of
    [calendar_event]. *)
Record CalendarEvent := {
  context_code : str;
  ce_title : str;
  start_at : str;
  end_at : str;
  location_name : str;
  description : str
}.

Record Request := {
  url : str;
  authorization : str;
  content_type : str;
  calendar_event : CalendarEvent
}.

(** What one call of [urllib.request.urlopen] does: it returns a response,
    raises [HTTPError] for a status it does not accept, fails before any
    status was received ([URLError]: no route, refused connection, name not
    resolved), or is interrupted from the keyboard while it waits
    ([KeyboardInterrupt]). *)
Inductive http_outcome :=
| Response (status : Z) (body : bytes)
| HTTPError (code : Z) (body : bytes)
| TransportFailure
| Interrupted.

(** What [input] does at the prompt: it returns the line typed, raises
    [EOFError] when the input has ended, or is interrupted from the keyboard
    ([KeyboardInterrupt]). *)
Inductive prompt_outcome :=
| Answer (line : str)
| EndOfInput
| InterruptAtPrompt.

Record World := {
  (** [open(path)]: the lines of the file, when there is one *)
  files : str -> option (list str);
  (** [csv.DictReader] on the lines left in the file *)
  DictReader : list str -> list Row;
  (** the call of [input] *)
  stdin : prompt_outcome;
  (** the [n]-th call of [urlopen], counted from 0 *)
  urlopen : nat -> Request -> http_outcome
}.

(** What a run does to the world, in order: an attempt to open a file, the
    question put to the user, a request handed to [urlopen], the two
    counters printed by the final summary. The rest of the console output
    is left out. *)
Inductive effect :=
| Opened (path : str)
| Asked
| Sent (req : Request)
| Summary (success_count error_count : Z).

(** How control leaves a computation: an exception of class [Exception],
    or one of the two others the script meets, [KeyboardInterrupt] and
    [SystemExit] from [sys.exit], which [except Exception] does not catch. *)
Inductive abort :=
| Exception (e : exn)
| KeyboardInterrupt
| SystemExit (code : Z).

(** Computations with effects: the effects so far go in, the effects so far
    come out with a value or with what aborted the computation. *)
Definition IO (A : Type) := list effect -> list effect * (A + abort).

Definition io_ret {A} (a : A) : IO A := fun log => (log, inl a).

Definition io_bind {A B} (m : IO A) (k : A -> IO B) : IO B :=
  fun log => match m log with
             | (log', inl a) => k a log'
             | (log', inr ab) => (log', inr ab)
             end.

Notation "'do*' x ':=' m 'in' k" := (io_bind m (fun x => k))
  (at level 10, x pattern, m at level 100, k at level 200,
   format "'do*'  x  ':='  m  'in' '//' k").

Definition io_emit (e : effect) : IO unit := fun log => (log ++ [e], inl tt).

Definition io_abort {A} (ab : abort) : IO A := fun log => (log, inr ab).

(** A pure computation that can raise, run inside [IO]. *)
Definition io_lift {A} (r : result A) : IO A :=
  match r with
  | Ok a => io_ret a
  | Raise e => io_abort (Exception e)
  end.

(** [sys.exit(code)] *)
Definition sys_exit {A} (code : Z) : IO A := io_abort (SystemExit code).

(** The number of requests sent so far. *)
Definition sent_count (log : list effect) : nat :=
  length (List.filter (fun e => match e with Sent _ => true | _ => false end) log).

(** ** [parse_csv_file] *)

Definition parse_csv_file (cfg : Config) (w : World) (file_path : str)
  : IO (list Event) :=
  do* _ := io_emit (Opened file_path) in
  match files w file_path with
  | None => io_abort (Exception FileNotFoundError)
  | Some lines =>
      (* for _ in range(3): next(f) *)
      if (length lines <? 3)%nat then io_abort (Exception StopIteration)
      else io_lift (parse_rows cfg (DictReader w (skipn 3 lines)) [])
  end.

(** ** [create_canvas_event] *)

Definition build_request (cfg : Config) (event : Event) : result Request :=
  let start_at := strftime_iso (start event) in
  let end_at := strftime_iso (end_ event) in
  let title := format_event_title event in
  let* description := format_event_description cfg event in
  let location := format_location event in
  Ok {| url := BASE_URL cfg ++ lit "/calendar_events";
        authorization := lit "Bearer " ++ API_TOKEN cfg;
        content_type := lit "application/json";
        calendar_event :=
          {| context_code := lit "course_" ++ COURSE_ID cfg;
             ce_title := title;
             start_at := start_at;
             end_at := end_at;
             location_name := location;
             description := description |} |}.

Definition create_canvas_event (cfg : Config) (w : World) (event : Event)
  : IO (Z * bytes) :=
  do* req := io_lift (build_request cfg event) in
  fun log =>
    let log' := log ++ [Sent req] in
    (* try: urlopen(req) ... except urllib.error.HTTPError *)
    match urlopen w (sent_count log) req with
    | Response status body => (log', inl (status, body))
    | HTTPError code body => (log', inl (code, body))
    | TransportFailure => (log', inr (Exception URLError))
    | Interrupted => (log', inr KeyboardInterrupt)
    end.

(** [input(prompt)] *)
Definition input (w : World) : IO str :=
  do* _ := io_emit Asked in
  match stdin w with
  | Answer line => io_ret line
  | EndOfInput => io_abort (Exception EOFError)
  | InterruptAtPrompt => io_abort KeyboardInterrupt
  end.

(** ** [main] *)

(** The two counters after one event: the [if status == 201] of the loop. *)
Definition count (counters : Z * Z) (status : Z) : Z * Z :=
  let '(success_count, error_count) := counters in
  if status =? 201 then (success_count + 1, error_count)
  else (success_count, error_count + 1).

(** The loop that creates the events. *)
Fixpoint create_events (cfg : Config) (w : World) (events : list Event)
    (counters : Z * Z) : IO (Z * Z) :=
  match events with
  | [] => io_ret counters
  | event :: rest =>
      do* (status, response) := create_canvas_event cfg w event in
      create_events cfg w rest (count counters status)
  end.

Definition main (cfg : Config) (w : World) : IO unit :=
  if str_eqb (API_TOKEN cfg) (lit "YOUR_API_TOKEN_HERE") then sys_exit 1
  else
    (* try: events = parse_csv_file(CSV_FILE)
       except FileNotFoundError: sys.exit(1)
       except Exception: sys.exit(1) *)
    do* events := (fun log =>
      match parse_csv_file cfg w (CSV_FILE cfg) log with
      | (log', inr (Exception FileNotFoundError)) => sys_exit 1 log'
      | (log', inr (Exception _)) => sys_exit 1 log'
      | r => r
      end) in
    do* confirm := input w in
    if negb (bool_decide (lower confirm ∈ [lit "yes"; lit "y"]))
    then io_ret tt
    else
      do* (success_count, error_count) := create_events cfg w events (0, 0) in
      io_emit (Summary success_count error_count).

(** The script run as a program: the effects and the exit status.
    [sys.exit] in [main] sets the status; a [KeyboardInterrupt] that leaves
    [main] is answered with [sys.exit(0)], any exception of class [Exception]
    with [sys.exit(1)]. *)
Definition script (cfg : Config) (w : World) : list effect * Z :=
  match main cfg w [] with
  | (log, inl tt) => (log, 0)
  | (log, inr (SystemExit code)) => (log, code)
  | (log, inr KeyboardInterrupt) => (log, 0)
  | (log, inr (Exception _)) => (log, 1)
  end.

(** ** Sample data *)

(** A row with the given fields, all of them text. *)
Definition row_of (fields : list (string * string)) : Row :=
  list_to_map (List.map (fun p => (lit (fst p), PyStr (lit (snd p)))) fields).

(** The timetable entry of the specification: 15 January 2024, 10:00-11:00. *)
Definition lecture_row : Row :=
  row_of [("Begin date", "2024-01-15"); ("Begin time", "10:00");
          ("End date", "2024-01-15"); ("End time", "11:00");
          ("Course code", "TDA357_40, DIT621_40");
          ("Course name", "Databases, Databases");
          ("Activity", "Lecture"); ("Title", "Intro"); ("Room", "HB1");
          ("class code", "TKDAT-2"); ("Name", "Computer science")]%string.

(** A separator row: every field present and empty. *)
Definition blank_row : Row :=
  row_of [("Begin date", ""); ("Begin time", ""); ("End date", "");
          ("End time", ""); ("Course code", ""); ("Course name", "");
          ("Activity", ""); ("Title", ""); ("Room", "")]%string.

(** A row with a date and no begin time at all. *)
Definition no_time_row : Row :=
  row_of [("Begin date", "2024-01-15"); ("End date", "2024-01-15");
          ("End time", "11:00"); ("Activity", "Lecture")]%string.

Definition no_event : Event := {|
  start := {| year := 2024; month := 1; day := 15;
              hour := 9; minute := 0; second := 0 |};
  end_ := {| year := 2024; month := 1; day := 15;
             hour := 10; minute := 0; second := 0 |};
  course_codes := []; course_names := []; activities := [];
  title := []; room := []; class_codes := []; class_names := []
|}.

Definition with_activities (acts : list str) (e : Event) : Event :=
  {| start := start e; end_ := end_ e; course_codes := course_codes e;
     course_names := course_names e; activities := acts; title := title e;
     room := room e; class_codes := class_codes e;
     class_names := class_names e |}.

Definition with_title (s : str) (e : Event) : Event :=
  {| start := start e; end_ := end_ e; course_codes := course_codes e;
     course_names := course_names e; activities := activities e; title := s;
     room := room e; class_codes := class_codes e;
     class_names := class_names e |}.

Definition with_course_names (names : list str) (e : Event) : Event :=
  {| start := start e; end_ := end_ e; course_codes := course_codes e;
     course_names := names; activities := activities e; title := title e;
     room := room e; class_codes := class_codes e;
     class_names := class_names e |}.

(** ** Predicates of the statements *)

(** The field is absent from the row, or is [None], or is the empty string. *)
Definition field_blank (row : Row) (key : str) : Prop :=
  row !! key = None \/ row !! key = Some PyNone \/ row !! key = Some (PyStr []).

Definition begin_missing (row : Row) : Prop :=
  field_blank row (lit "Begin date") \/ field_blank row (lit "Begin time").

(** The event of the specification with only a long course name. *)
Definition long_name_event : Event :=
  with_course_names
    [lit "A very long course name exceeding forty characters total"] no_event.

(** A configuration filled in by a user. *)
Definition configured : Config := {|
  CANVAS_DOMAIN := lit "chalmers.instructure.com";
  API_TOKEN := lit "7~secret";
  COURSE_ID := lit "12345";
  CSV_FILE := lit "TimeEdit.csv";
  LANGUAGE := lit "en";
  TIMEZONE_OFFSET := 1
|}.

(** A world in which the CSV file holds three header lines and the given
    rows, the user answers "yes", and the [n]-th request meets
    [outcomes n]. *)
Definition world_of (rows : list Row) (outcomes : nat -> http_outcome)
  : World := {|
  files := fun _ => Some [lit "TimeEdit"; lit "Schedule"; lit ""; lit "rows"];
  DictReader := fun _ => rows;
  stdin := Answer (lit "yes");
  urlopen := fun n _ => outcomes n
|}.

(** The server creates the first event and rejects the others. *)
Definition created_then_rejected (n : nat) : http_outcome :=
  match n with
  | O => Response 201 (lit "{}")
  | S _ => HTTPError 401 (lit "{}")
  end.

(** The server creates the first event, then the network is down. *)
Definition created_then_unreachable (n : nat) : http_outcome :=
  match n with
  | O => Response 201 (lit "{}")
  | S _ => TransportFailure
  end.

(** The server creates the first event, then the user presses Ctrl-C. *)
Definition created_then_interrupted (n : nat) : http_outcome :=
  match n with
  | O => Response 201 (lit "{}")
  | S _ => Interrupted
  end.

(** The network is down for the first request. *)
Definition unreachable_then_created (n : nat) : http_outcome :=
  match n with
  | O => TransportFailure
  | S _ => Response 201 (lit "{}")
  end.

(** The event parsed from [lecture_row] with an offset of one hour. *)
Definition lecture_event : Event := {|
  start := {| year := 2024; month := 1; day := 15;
              hour := 9; minute := 0; second := 0 |};
  end_ := {| year := 2024; month := 1; day := 15;
             hour := 10; minute := 0; second := 0 |};
  course_codes := [lit "TDA357"; lit " DIT62"];
  course_names := [lit "Databases"; lit "Databases"];
  activities := [lit "Lecture"];
  title := lit "Intro";
  room := lit "HB1";
  class_codes := [lit "TKDAT-2"];
  class_names := [lit "Computer science"]
|}.

(** [LANGUAGE] is one of the keys of [TRANSLATIONS]. *)
Definition language_supported (cfg : Config) : Prop :=
  is_Some (TRANSLATIONS !! LANGUAGE cfg).

(** The status of an outcome that has one. *)
Definition status_of (o : http_outcome) : option Z :=
  match o with
  | Response status _ => Some status
  | HTTPError code _ => Some code
  | TransportFailure => None
  | Interrupted => None
  end.

Definition is_sent (e : effect) : bool :=
  match e with Sent _ => true | _ => false end.

(** The text handed to [strptime] for a pair of fields of a row, when both
    hold text. *)
Definition timestamp_text (row : Row) (date_key time_key : str) : option str :=
  match row !! date_key, row !! time_key with
  | Some (PyStr d), Some (PyStr tm) => Some (strip d ++ lit " " ++ strip tm)
  | _, _ => None
  end.

(** The begin or the end of the row is text that [strptime] rejects. *)
Definition malformed_timestamp (row : Row) : Prop :=
  exists text,
    (timestamp_text row (lit "Begin date") (lit "Begin time") = Some text
     \/ timestamp_text row (lit "End date") (lit "End time") = Some text)
    /\ strptime text = Raise ValueError.

(** A row whose begin time is not a time. *)
Definition noon_row : Row :=
  row_of [("Begin date", "2024-01-15"); ("Begin time", "noon");
          ("End date", "2024-01-15"); ("End time", "13:00");
          ("Activity", "Lunch seminar")]%string.


(** The fields of the row schema that are read with [row.get]. *)
Definition fields_read_with_get : list str :=
  [lit "Begin date"; lit "Begin time"; lit "Course code"; lit "Course name";
   lit "Activity"; lit "Title"; lit "Room"; lit "class code"; lit "Name"].

(** The text is empty or begins with a character that is not whitespace. *)
Definition no_leading_space (s : str) : Prop :=
  match s with
  | [] => True
  | c :: _ => isspace c = false
  end.

(** The text neither begins nor ends with whitespace: [strip] leaves it as
    it is. *)
Definition tidy (s : str) : Prop :=
  no_leading_space s /\ no_leading_space (rev s).

(** [b] occurs in [s]. *)
Definition occurs_in (b s : str) : Prop :=
  exists before after, s = before ++ b ++ after.

(** A month and a day that exist in year [y]. *)
Definition date_ok (y m d : Z) : bool :=
  (1 <=? m) && (m <=? 12) && (1 <=? d) && (d <=? days_in_month y m).

(** [f] holds of the [fuel] integers from [r] on. *)
Fixpoint holds_from (fuel : nat) (r : Z) (f : Z -> bool) : bool :=
  match fuel with
  | O => true
  | S fuel' => f r && holds_from fuel' (r + 1) f
  end.

(** The day of ordinal [r + 1] of the first cycle of 400 years is a date of
    that cycle and [ymd2ord] takes it back to its ordinal. *)
Definition cycle_day_ok (r : Z) : bool :=
  let '(y, m, d) := ord2ymd (r + 1) in
  (1 <=? y) && (y <=? 400) && date_ok y m d && (ymd2ord y m d =? r + 1).

(** Seconds from the midnight that ends ordinal 0 to the datetime. *)
Definition instant (dt : datetime) : Z :=
  toordinal dt * 86400 + hour dt * 3600 + minute dt * 60 + second dt.




(** ** Tactics *)

(** Lookups in a row after an insertion at another key. *)
Ltac lookup_other :=
  rewrite ?lookup_insert_ne by (vm_compute; discriminate).

(** The twelve cases of a month number known to lie between 1 and 12. *)
Ltac month_cases m :=
  assert (m = 1 \/ m = 2 \/ m = 3 \/ m = 4 \/ m = 5 \/ m = 6 \/ m = 7
          \/ m = 8 \/ m = 9 \/ m = 10 \/ m = 11 \/ m = 12) as Hcases by lia;
  repeat (destruct Hcases as [->|Hcases]); [..|subst m].

(** ** Further definitions of the statements *)

(** [datetime.min] and [datetime.max], to the second. *)
Definition datetime_min : datetime :=
  {| year := 1; month := 1; day := 1; hour := 0; minute := 0; second := 0 |}.

Definition datetime_max : datetime :=
  {| year := 9999; month := 12; day := 31;
     hour := 23; minute := 59; second := 59 |}.

(** [dt - timedelta(hours=h)], as the parser computes it. *)
Definition minus_hours (dt : datetime) (h : Z) : result datetime :=
  bind (timedelta_hours h) (datetime_sub dt).

(** The configuration of [configured] during summer time. *)
Definition summer_time : Config := {|
  CANVAS_DOMAIN := CANVAS_DOMAIN configured;
  API_TOKEN := API_TOKEN configured;
  COURSE_ID := COURSE_ID configured;
  CSV_FILE := CSV_FILE configured;
  LANGUAGE := LANGUAGE configured;
  TIMEZONE_OFFSET := 2
|}.

(** The event parsed from [lecture_row] with an offset of two hours. *)
Definition summer_lecture_event : Event := {|
  start := {| year := 2024; month := 1; day := 15;
              hour := 8; minute := 0; second := 0 |};
  end_ := {| year := 2024; month := 1; day := 15;
             hour := 9; minute := 0; second := 0 |};
  course_codes := course_codes lecture_event;
  course_names := course_names lecture_event;
  activities := activities lecture_event;
  title := title lecture_event;
  room := room lecture_event;
  class_codes := class_codes lecture_event;
  class_names := class_names lecture_event
|}.

(** The keys of the translation tables. *)
Definition translated_keys : list str :=
  [lit "course"; lit "courses"; lit "activity"; lit "title"; lit "location";
   lit "room"; lit "campus"; lit "classes"].

(** The line of the course block for a code and the name at its index, if
    there is one. *)
Definition course_line (code : str) (name : option str) : str :=
  match name with
  | Some (c :: name') =>
      lit "   " ++ code ++ lit " - " ++ (c :: name') ++ lit "<br>"
  | _ => lit "   " ++ code ++ lit "<br>"
  end.

(** The event has nothing to describe. *)
Definition nothing_to_describe (event : Event) : Prop :=
  course_codes event = [] /\ activities event = []
  /\ title event = [] /\ room event = [].

(** The text is empty or ends with the two line breaks that close a block. *)
Definition closed_by_breaks (s : str) : Prop :=
  s = [] \/ exists before, s = before ++ lit "<br><br>".

(** A configuration with a language the script has no table for. *)
Definition german : Config := {|
  CANVAS_DOMAIN := lit "chalmers.instructure.com";
  API_TOKEN := lit "7~secret";
  COURSE_ID := lit "12345";
  CSV_FILE := lit "TimeEdit.csv";
  LANGUAGE := lit "de";
  TIMEZONE_OFFSET := 1
|}.

(** The user answers the prompt, and the answer starts the import. *)
Definition confirmed (w : World) : Prop :=
  match stdin w with
  | Answer line => lower line ∈ [lit "yes"; lit "y"]
  | _ => False
  end.

(** The requests among the effects, in order. *)
Fixpoint requests_of (log : list effect) : list Request :=
  match log with
  | [] => []
  | Sent req :: log' => req :: requests_of log'
  | _ :: log' => requests_of log'
  end.

(** The request carries what the configuration says. *)
Definition addressed_as_configured (cfg : Config) (req : Request) : Prop :=
  url req = BASE_URL cfg ++ lit "/calendar_events"
  /\ authorization req = lit "Bearer " ++ API_TOKEN cfg
  /\ content_type req = lit "application/json"
  /\ context_code (calendar_event req) = lit "course_" ++ COURSE_ID cfg.

(** The statuses the loop receives for [events] when the first of them is
    the [n]-th request of the run. *)
Fixpoint statuses (cfg : Config) (w : World) (events : list Event) (n : nat)
  : list (option Z) :=
  match events with
  | [] => []
  | event :: rest =>
      match build_request cfg event with
      | Ok req => status_of (urlopen w n req)
      | Raise _ => None
      end :: statuses cfg w rest (S n)
  end.

(** The status is the one the loop counts as a success. *)
Definition created (status : option Z) : bool :=
  match status with
  | Some status => status =? 201
  | None => false
  end.

(** The world of [world_of] with another answer at the prompt. *)
Definition answering (answer : str) (w : World) : World :=
  {| files := files w; DictReader := DictReader w;
     stdin := Answer answer; urlopen := urlopen w |}.

(** The world of [world_of] with another content of the file. *)
Definition holding (lines : list str) (w : World) : World :=
  {| files := fun _ => Some lines; DictReader := DictReader w;
     stdin := stdin w; urlopen := urlopen w |}.

(** ** Properties *)

(** *** Basic facts about the monads and the row loop *)

Lemma nonempty_true {A} (l : list A) : nonempty l = true <-> l <> [].
Proof. destruct l; simpl; split; congruence. Qed.

Lemma parse_rows_app (cfg : Config) (rows1 rows2 : list Row) events :
  parse_rows cfg (rows1 ++ rows2) events
  = bind (parse_rows cfg rows1 events) (parse_rows cfg rows2).
Proof.
  revert events; induction rows1 as [|row rows1 IH]; intros events; simpl.
  - reflexivity.
  - destruct (parse_row cfg row) as [parsed|e]; simpl; [apply IH | reflexivity].
Qed.

(** *** Rows without a begin date or a begin time *)

Lemma truthy_get_false (row : Row) (key : str) :
  truthy (row_get row key) = false <-> field_blank row key.
Proof.
  unfold row_get, field_blank.
  destruct (row !! key) as [[|[|c s]]|]; simpl; split; intros H;
    try discriminate; auto;
    destruct H as [H|[H|H]]; discriminate.
Qed.

Lemma skipped_iff (row : Row) : skipped row = true <-> begin_missing row.
Proof.
  unfold skipped, begin_missing.
  rewrite orb_true_iff, !negb_true_iff, !truthy_get_false. reflexivity.
Qed.

Lemma parse_rows_skipped (cfg : Config) (rows : list Row) events :
  Forall begin_missing rows -> parse_rows cfg rows events = Ok events.
Proof.
  intros H; revert events; induction H as [|row rows Hrow _ IH]; intros events.
  - reflexivity.
  - simpl. unfold parse_row.
    apply skipped_iff in Hrow. rewrite Hrow. simpl. apply IH.
Qed.

(** C8. A row whose "Begin date" or "Begin time" is absent or empty emits
    no event and raises no error: a source made of such rows only parses to
    no event at all, and wherever such rows stand among other rows, the
    result of parsing is the one without them. *)
Theorem rows_without_begin_are_skipped (cfg : Config) (rows : list Row) :
  Forall begin_missing rows ->
  Forall (fun row => parse_row cfg row = Ok None) rows
  /\ parse_rows cfg rows [] = Ok []
  /\ forall before after events,
       parse_rows cfg (before ++ rows ++ after) events
       = parse_rows cfg (before ++ after) events.
Proof.
  intros H. split; [|split].
  - eapply Forall_impl; [exact H|].
    intros row Hrow. unfold parse_row.
    apply skipped_iff in Hrow. rewrite Hrow. reflexivity.
  - apply parse_rows_skipped, H.
  - intros before after events.
    rewrite !parse_rows_app.
    destruct (parse_rows cfg before events) as [events'|e]; simpl; [|reflexivity].
    rewrite parse_rows_app, parse_rows_skipped by exact H. reflexivity.
Qed.

Lemma rows_without_begin_are_skipped_witness :
  parse_rows shipped [blank_row; no_time_row] [] = Ok []
  /\ parse_rows shipped ([lecture_row] ++ [blank_row; no_time_row] ++ [lecture_row]) []
     = parse_rows shipped ([lecture_row] ++ [lecture_row]) [].
Proof.
  assert (H : Forall begin_missing [blank_row; no_time_row]).
  { apply List.Forall_cons; [|apply List.Forall_cons; [|apply List.Forall_nil]].
    - left. right. right. vm_compute. reflexivity.
    - right. left. vm_compute. reflexivity. }
  destruct (rows_without_begin_are_skipped shipped _ H) as (_ & H1 & H2).
  split; [exact H1 | apply H2].
Defined.

(** *** The title of an event *)

Lemma join_cons (sep first : str) (others : list str) :
  join sep (first :: others)
  = first ++ concat (List.map (fun part => sep ++ part) others).
Proof.
  revert first. induction others as [|part parts IH]; intros first.
  - cbn. rewrite app_nil_r. reflexivity.
  - change (join sep (first :: part :: parts))
      with (first ++ sep ++ join sep (part :: parts)).
    rewrite IH. cbn [List.map concat]. rewrite <- app_assoc. reflexivity.
Qed.

(** C6. The title is decided by the first rule that applies: the
    activities with ", " between each two of them, in their order, when
    there are any (the first activity followed by ", " and the next, for
    every further one); else the title field when it is not empty; else the
    first course name, cut to its first 37 characters followed by "..."
    exactly when it has more than 40 characters; else the word "Event". *)
Theorem title_precedence (event : Event) :
  (forall first others,
     activities event = first :: others ->
     format_event_title event
     = first ++ concat (List.map (fun activity => lit ", " ++ activity) others))
  /\ (activities event = [] -> title event <> [] ->
      format_event_title event = title event)
  /\ (activities event = [] -> title event = [] ->
      forall course others, course_names event = course :: others ->
        ((40 < length course)%nat ->
         format_event_title event = firstn 37 course ++ lit "..."
         /\ length (format_event_title event) = 40%nat)
        /\ ((length course <= 40)%nat -> format_event_title event = course))
  /\ (activities event = [] -> title event = [] -> course_names event = [] ->
      format_event_title event = lit "Event").
Proof.
  unfold format_event_title. split; [|split; [|split]].
  - intros first others H. rewrite H. cbn [nonempty]. apply join_cons.
  - intros Ha Ht. apply nonempty_true in Ht. rewrite Ha, Ht. reflexivity.
  - intros Ha Ht course others Hc. rewrite Ha, Ht, Hc. cbn [nonempty].
    destruct (Nat.ltb_spec 40 (length course)) as [Hlt|Hle].
    + split; [intros _|lia]. split; [reflexivity|].
      unfold slice_to. rewrite length_app, List.length_firstn.
      change (length (lit "...")) with 3%nat. lia.
    + split; [lia | reflexivity].
  - intros Ha Ht Hc. rewrite Ha, Ht, Hc. reflexivity.
Qed.

Lemma title_precedence_witness :
  format_event_title
    (with_title (lit "Intro") (with_activities [lit "Lecture"] no_event))
  = lit "Lecture"
  /\ format_event_title
       (with_title (lit "Intro")
          (with_activities [lit "Lecture"; lit "Exercise"; lit "Lab"]
             no_event))
     = lit "Lecture, Exercise, Lab"
  /\ format_event_title (with_title (lit "Seminar X") no_event)
     = lit "Seminar X"
  /\ format_event_title long_name_event
     = lit "A very long course name exceeding for..."
  /\ format_event_title no_event = lit "Event".
Proof.
  split; [|split; [|split; [|split]]].
  - exact (proj1 (title_precedence
                    (with_title (lit "Intro")
                       (with_activities [lit "Lecture"] no_event)))
             (lit "Lecture") [] eq_refl).
  - exact (proj1 (title_precedence
                    (with_title (lit "Intro")
                       (with_activities
                          [lit "Lecture"; lit "Exercise"; lit "Lab"]
                          no_event)))
             (lit "Lecture") [lit "Exercise"; lit "Lab"] eq_refl).
  - refine (proj1 (proj2 (title_precedence
                             (with_title (lit "Seminar X") no_event)))
              eq_refl _).
    discriminate.
  - refine (proj1 (proj1 (proj1 (proj2 (proj2
              (title_precedence long_name_event)))
              eq_refl eq_refl _ [] eq_refl) _)).
    vm_compute. lia.
  - exact (proj2 (proj2 (proj2 (title_precedence no_event)))
             eq_refl eq_refl eq_refl).
Defined.

(** *** Course codes *)

(** C2 (the code departs from the claim here). The second course code of a
    field written "TDA357_40, DIT621_40" is cut from the segment with its
    leading blank: the parsed code is " DIT62", where trimming first, as is
    done for the course names of the same row, gives "DIT621". *)
Theorem course_code_cut_before_trimming :
  exists event,
    parse_row shipped lecture_row = Ok (Some event)
    /\ course_codes event = [lit "TDA357"; lit " DIT62"]
    /\ course_names event = [lit "Databases"; lit "Databases"]
    /\ List.map (fun code => slice_to 6 (strip code))
         (split comma (lit "TDA357_40, DIT621_40"))
       = [lit "TDA357"; lit "DIT621"].
Proof.
  eexists. split; [vm_compute; reflexivity|].
  repeat split; vm_compute; reflexivity.
Qed.

(** *** The submission step and the loop of [main] *)

Lemma sent_count_app log1 log2 :
  sent_count (log1 ++ log2) = (sent_count log1 + sent_count log2)%nat.
Proof. unfold sent_count. rewrite List.filter_app, length_app. reflexivity. Qed.

Lemma create_canvas_event_eq cfg w event log req :
  build_request cfg event = Ok req ->
  create_canvas_event cfg w event log
  = (log ++ [Sent req],
     match urlopen w (sent_count log) req with
     | Response status body => inl (status, body)
     | HTTPError code body => inl (code, body)
     | TransportFailure => inr (Exception URLError)
     | Interrupted => inr KeyboardInterrupt
     end).
Proof.
  intros H. unfold create_canvas_event, io_bind, io_lift. rewrite H.
  unfold io_ret. destruct (urlopen w (sent_count log) req); reflexivity.
Qed.

Lemma t_supported cfg key :
  language_supported cfg -> exists label, t cfg key = Ok label.
Proof.
  intros [table H]. unfold t. rewrite H. eexists. reflexivity.
Qed.

Lemma description_parts_supported cfg event :
  language_supported cfg -> exists parts, description_parts cfg event = Ok parts.
Proof.
  intros H. unfold description_parts.
  unfold course_block, activity_block, title_block, location_block.
  destruct (t_supported cfg (lit "courses") H) as [l1 E1].
  destruct (t_supported cfg (lit "course") H) as [l2 E2].
  destruct (t_supported cfg (lit "activity") H) as [l3 E3].
  destruct (t_supported cfg (lit "title") H) as [l4 E4].
  destruct (t_supported cfg (lit "location") H) as [l5 E5].
  rewrite E1, E2, E3, E4, E5.
  destruct (nonempty (course_codes event)), (nonempty (activities event)),
    (nonempty (title event) && negb (bool_decide (title event ∈ activities event))),
    (nonempty (room event)), (1 <? length (course_codes event))%nat;
    simpl; eexists; reflexivity.
Qed.

Lemma build_request_supported cfg event :
  language_supported cfg -> exists req, build_request cfg event = Ok req.
Proof.
  intros H. unfold build_request, format_event_description.
  destruct (description_parts_supported cfg event H) as [parts E].
  rewrite E. simpl. eexists. reflexivity.
Qed.

Lemma create_events_answered cfg w events :
  forall s e log,
    Forall (fun status => status <> None)
      (statuses cfg w events (sent_count log)) ->
    exists log' s' e',
      create_events cfg w events (s, e) log = (log', inl (s', e'))
      /\ s' + e' = s + e + Z.of_nat (length events)
      /\ s <= s' /\ e <= e'
      /\ sent_count log' = (sent_count log + length events)%nat.
Proof.
  induction events as [|event rest IH]; intros s e log Hall.
  - exists log, s, e. cbn. unfold io_ret. repeat split; lia.
  - cbn [statuses] in Hall. inversion Hall as [|? ? Hhd Htl]; subst.
    destruct (build_request cfg event) as [req|ex] eqn:Hreq; [|contradiction].
    cbn [create_events]. unfold io_bind.
    rewrite (create_canvas_event_eq _ _ _ _ _ Hreq).
    replace (S (sent_count log)) with (sent_count (log ++ [Sent req])) in Htl
      by (rewrite sent_count_app; cbn; lia).
    destruct (urlopen w (sent_count log) req) as [status body|status body| |];
      cbn [status_of] in Hhd; [| |contradiction..].
    all: destruct (IH (fst (count (s, e) status)) (snd (count (s, e) status))
                      (log ++ [Sent req]) Htl)
           as (log' & s' & e' & Hrun & Hsum & Hs & He & Hsent).
    all: rewrite <- surjective_pairing in Hrun.
    all: exists log', s', e'; rewrite Hrun.
    all: rewrite sent_count_app in Hsent.
    all: unfold count in Hsum, Hs, He; destruct (status =? 201);
      cbn [fst snd] in Hsum, Hs, He.
    all: repeat split; try lia.
    all: cbn [length sent_count List.filter] in *; lia.
Qed.

(** What [main] does once the token check is passed. *)
Lemma main_eq cfg w :
  API_TOKEN cfg <> lit "YOUR_API_TOKEN_HERE" ->
  main cfg w []
  = match files w (CSV_FILE cfg) with
    | None => ([Opened (CSV_FILE cfg)], inr (SystemExit 1))
    | Some lines =>
        if (length lines <? 3)%nat
        then ([Opened (CSV_FILE cfg)], inr (SystemExit 1))
        else
          match parse_rows cfg (DictReader w (skipn 3 lines)) [] with
          | Raise _ => ([Opened (CSV_FILE cfg)], inr (SystemExit 1))
          | Ok events =>
              match stdin w with
              | Answer confirm =>
                  if bool_decide (lower confirm ∈ [lit "yes"; lit "y"])
                  then
                    match create_events cfg w events (0, 0)
                            [Opened (CSV_FILE cfg); Asked] with
                    | (log, inl (s, e)) => (log ++ [Summary s e], inl tt)
                    | (log, inr ab) => (log, inr ab)
                    end
                  else ([Opened (CSV_FILE cfg); Asked], inl tt)
              | EndOfInput =>
                  ([Opened (CSV_FILE cfg); Asked], inr (Exception EOFError))
              | InterruptAtPrompt =>
                  ([Opened (CSV_FILE cfg); Asked], inr KeyboardInterrupt)
              end
          end
    end.
Proof.
  intros Htoken. unfold main, str_eqb.
  rewrite bool_decide_eq_false_2 by exact Htoken.
  unfold io_bind at 1. unfold parse_csv_file, io_bind at 1, io_emit at 1.
  cbn [app].
  destruct (files w (CSV_FILE cfg)) as [lines|]; [|reflexivity].
  destruct (length lines <? 3)%nat; [reflexivity|].
  destruct (parse_rows cfg (DictReader w (skipn 3 lines)) []) as [events|e];
    cbn [io_lift io_abort io_ret sys_exit].
  - unfold io_bind at 1, input, io_bind at 1, io_emit at 1. cbn [app].
    destruct (stdin w) as [confirm| |];
      cbn [io_ret io_abort]; [|reflexivity..].
    destruct (bool_decide (lower confirm ∈ [lit "yes"; lit "y"]));
      cbn [negb]; [|reflexivity].
    unfold io_bind.
    destruct (create_events cfg w events (0, 0) [Opened (CSV_FILE cfg); Asked])
      as [log [[s e]|ab]]; reflexivity.
  - destruct e; reflexivity.
Qed.

Lemma create_events_log cfg w events counters log :
  exists more,
    fst (create_events cfg w events counters log) = log ++ more
    /\ Forall (fun ef => is_sent ef = true) more.
Proof.
  revert counters log.
  induction events as [|event rest IH]; intros counters log.
  - exists []. simpl. rewrite app_nil_r. split; [reflexivity | constructor].
  - cbn [create_events]. unfold io_bind.
    unfold create_canvas_event, io_bind, io_lift.
    destruct (build_request cfg event) as [req|e].
    + unfold io_ret.
      destruct (urlopen w (sent_count log) req) as [status body|status body| |].
      * destruct (IH (count counters status) (log ++ [Sent req]))
          as (more & Hfst & Hall).
        exists (Sent req :: more). rewrite Hfst, <- app_assoc.
        split; [reflexivity | constructor; [reflexivity | exact Hall]].
      * destruct (IH (count counters status) (log ++ [Sent req]))
          as (more & Hfst & Hall).
        exists (Sent req :: more). rewrite Hfst, <- app_assoc.
        split; [reflexivity | constructor; [reflexivity | exact Hall]].
      * exists [Sent req]. split; [reflexivity|].
        constructor; [reflexivity | constructor].
      * exists [Sent req]. split; [reflexivity|].
        constructor; [reflexivity | constructor].
    + exists []. unfold io_abort. simpl. rewrite app_nil_r.
      split; [reflexivity | constructor].
Qed.

(** *** The token check *)

(** C3 (the code departs from the claim here). With the API token left at
    the text the script is distributed with, [main] does not stop at the
    token check, whatever the world: it goes on to open and parse the CSV
    file. The check compares the token with another text. *)
Theorem shipped_token_passes_the_check (w : World) :
  API_TOKEN shipped = lit "ADD YOUR API TOKEN HERE"
  /\ exists rest ending,
       main shipped w [] = (Opened (CSV_FILE shipped) :: rest, ending).
Proof.
  split; [reflexivity|].
  rewrite main_eq by (vm_compute; discriminate).
  destruct (files w (CSV_FILE shipped)) as [lines|]; [|eauto].
  destruct (length lines <? 3)%nat; [eauto|].
  destruct (parse_rows shipped (DictReader w (skipn 3 lines)) [])
    as [events|e]; [|eauto].
  destruct (stdin w) as [confirm| |]; [|eauto..].
  destruct (bool_decide (lower confirm ∈ [lit "yes"; lit "y"])); [|eauto].
  destruct (create_events_log shipped w events (0, 0)
              [Opened (CSV_FILE shipped); Asked]) as (more & Hfst & _).
  destruct (create_events shipped w events (0, 0)
              [Opened (CSV_FILE shipped); Asked]) as [log [[s e]|ab]];
    cbn [fst] in Hfst; subst log; cbn [app]; eauto.
Qed.

(** C5, the claim as it stands, fails: the loop does not go on after every
    outcome. With three events, the first created and the network down for
    the second, the run ends in the loop after two requests: the third event
    is not sent, the counters are lost without a summary and the exit status
    is 1. *)
Lemma unanswered_submission_ends_the_count :
  parse_rows configured [lecture_row; lecture_row; lecture_row] []
  = Ok [lecture_event; lecture_event; lecture_event]
  /\ (exists req,
        build_request configured lecture_event = Ok req
        /\ script configured
             (world_of [lecture_row; lecture_row; lecture_row]
                created_then_unreachable)
           = ([Opened (CSV_FILE configured); Asked; Sent req; Sent req], 1))
  /\ (forall log s e,
        create_events configured
          (world_of [lecture_row; lecture_row; lecture_row]
             created_then_unreachable)
          [lecture_event; lecture_event; lecture_event] (0, 0) []
        <> (log, inl (s, e))).
Proof.
  split; [vm_compute; reflexivity|]. split.
  - eexists. split; vm_compute; reflexivity.
  - intros log s e H. vm_compute in H. discriminate.
Qed.

(** C5, amended. For every event the loop receives a status for, exactly
    one of the two counters goes up by one, the success counter for status
    201 and the error counter for any other status, and the loop goes on
    with the next event. An event that gets no status ends the loop: no
    counter moves and no later event is sent. When every event gets a
    status the loop visits them all and the two counters add up to the
    number of parsed events, which is what the summary of [main] reports. *)
Theorem counters_account_for_every_event (cfg : Config) (w : World) :
  (forall s e status,
     (status = 201 -> count (s, e) status = (s + 1, e))
     /\ (status <> 201 -> count (s, e) status = (s, e + 1)))
  /\ (forall event rest counters log req status,
        build_request cfg event = Ok req ->
        status_of (urlopen w (sent_count log) req) = Some status ->
        create_events cfg w (event :: rest) counters log
        = create_events cfg w rest (count counters status)
            (log ++ [Sent req]))
  /\ (forall event rest counters log,
        statuses cfg w [event] (sent_count log) = [None] ->
        exists sent ab,
          create_events cfg w (event :: rest) counters log
          = (log ++ sent, inr ab)
          /\ (length sent <= 1)%nat)
  /\ (forall events s e log,
        Forall (fun status => status <> None)
          (statuses cfg w events (sent_count log)) ->
        exists log' s' e',
          create_events cfg w events (s, e) log = (log', inl (s', e'))
          /\ s' + e' = s + e + Z.of_nat (length events)
          /\ s <= s' /\ e <= e')
  /\ (forall lines events,
        API_TOKEN cfg <> lit "YOUR_API_TOKEN_HERE" ->
        files w (CSV_FILE cfg) = Some lines -> (3 <= length lines)%nat ->
        parse_rows cfg (DictReader w (skipn 3 lines)) [] = Ok events ->
        confirmed w ->
        Forall (fun status => status <> None) (statuses cfg w events 0) ->
        exists log s e,
          main cfg w [] = (log ++ [Summary s e], inl tt)
          /\ s + e = Z.of_nat (length events)
          /\ sent_count log = length events).
Proof.
  split; [|split; [|split; [|split]]].
  - intros s e status. unfold count. split; intros H.
    + subst status. reflexivity.
    + destruct (Z.eqb_spec status 201); [contradiction | reflexivity].
  - intros event rest counters log req status Hreq Hst.
    cbn [create_events]. unfold io_bind.
    rewrite (create_canvas_event_eq _ _ _ _ _ Hreq).
    destruct (urlopen w (sent_count log) req) as [st body|st body| |];
      cbn [status_of] in Hst; [| |discriminate..];
      injection Hst as ->; reflexivity.
  - intros event rest counters log Hnone. cbn [statuses] in Hnone.
    cbn [create_events]. unfold io_bind.
    destruct (build_request cfg event) as [req|ex] eqn:Hreq.
    + rewrite (create_canvas_event_eq _ _ _ _ _ Hreq).
      destruct (urlopen w (sent_count log) req) as [st body|st body| |];
        cbn [status_of] in Hnone; [discriminate..| |];
        eexists [Sent req], _; (split; [reflexivity | cbn; lia]).
    + unfold create_canvas_event, io_bind, io_lift. rewrite Hreq.
      exists [], (Exception ex). rewrite app_nil_r.
      split; [reflexivity | cbn; lia].
  - intros events s e log Hall.
    destruct (create_events_answered cfg w events s e log Hall)
      as (log' & s' & e' & Hrun & Hsum & Hs & He & _).
    exists log', s', e'. auto.
  - intros lines events Htoken Hfile Hlen Hparse Hyes Hall.
    rewrite main_eq by exact Htoken. rewrite Hfile.
    destruct (Nat.ltb_spec (length lines) 3) as [Hlt|_]; [lia|].
    rewrite Hparse. unfold confirmed in Hyes.
    destruct (stdin w) as [confirm| |]; [|contradiction..].
    rewrite bool_decide_eq_true_2 by exact Hyes.
    destruct (create_events_answered cfg w events 0 0
                [Opened (CSV_FILE cfg); Asked] Hall)
      as (log' & s' & e' & Hrun & Hsum & _ & _ & Hsent).
    rewrite Hrun. exists log', s', e'.
    repeat split; [lia | exact Hsent].
Qed.

Lemma counters_account_for_every_event_witness :
  exists log s e,
    main configured
      (world_of [lecture_row; blank_row; lecture_row] created_then_rejected) []
    = (log ++ [Summary s e], inl tt)
    /\ s + e = 2 /\ sent_count log = 2%nat.
Proof.
  refine (proj2 (proj2 (proj2 (proj2
            (counters_account_for_every_event configured
               (world_of [lecture_row; blank_row; lecture_row]
                  created_then_rejected)))))
            [lit "TimeEdit"; lit "Schedule"; lit ""; lit "rows"]
            [lecture_event; lecture_event] _ eq_refl _ _ _ _).
  - vm_compute. discriminate.
  - vm_compute. lia.
  - vm_compute. reflexivity.
  - unfold confirmed. vm_compute. apply list_elem_of_here.
  - vm_compute. constructor; [discriminate|].
    constructor; [discriminate | constructor].
Defined.

(** *** Failures of a submission *)

(** C1, the claim as it stands, fails: with the network down for the first
    of two events, the submission step ends with the exception, the second
    event is never sent, no summary is reached and the exit status is 1. *)
Lemma transport_failure_leaves_the_loop :
  create_canvas_event configured
    (world_of [lecture_row; lecture_row] unreachable_then_created)
    lecture_event []
  = (match build_request configured lecture_event with
     | Ok req => [Sent req]
     | Raise _ => []
     end, inr (Exception URLError))
  /\ script configured
       (world_of [lecture_row; lecture_row] unreachable_then_created)
     = (match build_request configured lecture_event with
        | Ok req => [Opened (CSV_FILE configured); Asked; Sent req]
        | Raise _ => []
        end, 1)
  /\ is_ok (build_request configured lecture_event) = true.
Proof. vm_compute. repeat split; reflexivity. Qed.

(** C1, amended. A submission that ends with an HTTP error status is turned
    into the pair of that status and the response body, and the loop goes on
    with the next event. A failure below HTTP is not caught by the
    submission step: the exception leaves the step and the loop with it, no
    later event is sent, and an exception that leaves [main] ends the run
    with exit status 1. *)
Theorem http_error_is_a_result_transport_failure_is_not
    (cfg : Config) (w : World) (event : Event) (req : Request)
    (log : list effect) :
  build_request cfg event = Ok req ->
  (forall code body,
     urlopen w (sent_count log) req = HTTPError code body ->
     create_canvas_event cfg w event log
     = (log ++ [Sent req], inl (code, body))
     /\ forall rest counters,
          create_events cfg w (event :: rest) counters log
          = create_events cfg w rest (count counters code)
              (log ++ [Sent req]))
  /\ (urlopen w (sent_count log) req = TransportFailure ->
      create_canvas_event cfg w event log
      = (log ++ [Sent req], inr (Exception URLError))
      /\ (forall rest counters,
            create_events cfg w (event :: rest) counters log
            = (log ++ [Sent req], inr (Exception URLError)))
      /\ (forall log' e,
            main cfg w [] = (log', inr (Exception e)) ->
            script cfg w = (log', 1))).
Proof.
  intros Hreq. split.
  - intros code body Hout. split.
    + rewrite (create_canvas_event_eq _ _ _ _ _ Hreq), Hout. reflexivity.
    + intros rest counters. cbn [create_events]. unfold io_bind.
      rewrite (create_canvas_event_eq _ _ _ _ _ Hreq), Hout. reflexivity.
  - intros Hout. split; [|split].
    + rewrite (create_canvas_event_eq _ _ _ _ _ Hreq), Hout. reflexivity.
    + intros rest counters. cbn [create_events]. unfold io_bind.
      rewrite (create_canvas_event_eq _ _ _ _ _ Hreq), Hout. reflexivity.
    + intros log' e Hmain. unfold script. rewrite Hmain. reflexivity.
Qed.

Lemma http_error_is_a_result_transport_failure_is_not_witness :
  exists req,
    build_request configured lecture_event = Ok req
    /\ create_canvas_event configured
         (world_of [lecture_row] (fun _ => HTTPError 401 (lit "{}")))
         lecture_event []
       = ([Sent req], inl (401, lit "{}"))
    /\ create_canvas_event configured
         (world_of [lecture_row] unreachable_then_created) lecture_event []
       = ([Sent req], inr (Exception URLError)).
Proof.
  destruct (build_request configured lecture_event) as [req|e] eqn:Hreq;
    [|vm_compute in Hreq; discriminate].
  exists req. split; [reflexivity|]. split.
  - exact (proj1 (proj1 (http_error_is_a_result_transport_failure_is_not
                          configured
                          (world_of [lecture_row]
                             (fun _ => HTTPError 401 (lit "{}")))
                          lecture_event req [] Hreq) 401 (lit "{}") eq_refl)).
  - exact (proj1 (proj2 (http_error_is_a_result_transport_failure_is_not
                          configured
                          (world_of [lecture_row] unreachable_then_created)
                          lecture_event req [] Hreq) eq_refl)).
Defined.

(** *** Timestamps that do not parse *)

Lemma strptime_error text e : strptime text = Raise e -> e = ValueError.
Proof.
  unfold strptime.
  destruct (re_timestamp text) as [|[[[[[y m] d] H] M] rest] ?].
  - congruence.
  - destruct (nonempty rest); [congruence|].
    unfold datetime_new. destruct (valid_datetime _); congruence.
Qed.

Lemma parse_row_malformed (cfg : Config) (row : Row) :
  skipped row = false -> malformed_timestamp row ->
  exists e, parse_row cfg row = Raise e.
Proof.
  intros Hskip (text & Htext & Hbad).
  unfold parse_row. rewrite Hskip.
  unfold parse_event, row_getitem.
  unfold timestamp_text in Htext.
  destruct (row !! lit "Begin date") as [[|bd]|]; cbn [bind py_strip]; eauto.
  destruct (row !! lit "Begin time") as [[|bt]|]; cbn [bind py_strip]; eauto.
  destruct (row !! lit "End date") as [[|ed]|]; cbn [bind py_strip]; eauto.
  destruct (row !! lit "End time") as [[|et]|]; cbn [bind py_strip]; eauto.
  destruct Htext as [Htext|Htext].
  - assert (E : strip bd ++ lit " " ++ strip bt = text) by congruence.
    rewrite E, Hbad. cbn [bind]. eauto.
  - assert (E : strip ed ++ lit " " ++ strip et = text) by congruence.
    destruct (strptime (strip bd ++ lit " " ++ strip bt)); cbn [bind]; eauto.
    rewrite E, Hbad. cbn [bind]. eauto.
Qed.

Lemma parse_rows_raises (cfg : Config) (rows : list Row) (row : Row) events e :
  In row rows -> parse_row cfg row = Raise e ->
  exists e', parse_rows cfg rows events = Raise e'.
Proof.
  intros Hin Hrow. revert events.
  induction rows as [|r rows IH]; intros events; [destruct Hin|].
  cbn [parse_rows].
  destruct Hin as [->|Hin].
  - rewrite Hrow. cbn [bind]. eauto.
  - destruct (parse_row cfg r) as [parsed|e']; cbn [bind]; eauto.
Qed.

(** C10. When a row that is not skipped holds begin or end text that
    [strptime] rejects, parsing that row raises, the exception ends the
    parsing of the whole source, which returns no event, and the run stops
    with exit status 1 before any request is sent. The error is the
    [ValueError] of [strptime] as soon as the four date and time fields of
    the row are text. *)
Theorem malformed_timestamp_aborts_the_run
    (cfg : Config) (w : World) (lines : list str) (row : Row) :
  files w (CSV_FILE cfg) = Some lines -> (3 <= length lines)%nat ->
  In row (DictReader w (skipn 3 lines)) ->
  skipped row = false -> malformed_timestamp row ->
  (exists e, parse_row cfg row = Raise e)
  /\ (is_Some (timestamp_text row (lit "Begin date") (lit "Begin time")) ->
      is_Some (timestamp_text row (lit "End date") (lit "End time")) ->
      parse_row cfg row = Raise ValueError)
  /\ (exists e, parse_rows cfg (DictReader w (skipn 3 lines)) [] = Raise e)
  /\ (exists e,
        parse_csv_file cfg w (CSV_FILE cfg) []
        = ([Opened (CSV_FILE cfg)], inr (Exception e)))
  /\ snd (script cfg w) = 1
  /\ Forall (fun ef => is_sent ef = false) (fst (script cfg w)).
Proof.
  intros Hfile Hlen Hin Hskip Hbad.
  destruct (parse_row_malformed cfg row Hskip Hbad) as [e Hrow].
  destruct (parse_rows_raises cfg _ row [] e Hin Hrow) as [e' Hrows].
  assert (Hlt : (length lines <? 3)%nat = false)
    by (apply Nat.ltb_ge; exact Hlen).
  split; [eauto|]. split; [|split; [eauto|split; [|split]]].
  - intros [t1 H1] [t2 H2]. clear Hrow Hrows.
    destruct Hbad as (text & Htext & Hval).
    unfold parse_row. rewrite Hskip.
    unfold parse_event, row_getitem. unfold timestamp_text in *.
    destruct (row !! lit "Begin date") as [[|bd]|]; try discriminate.
    destruct (row !! lit "Begin time") as [[|bt]|]; try discriminate.
    destruct (row !! lit "End date") as [[|ed]|]; try discriminate.
    destruct (row !! lit "End time") as [[|et]|]; try discriminate.
    cbn [bind py_strip].
    destruct Htext as [Htext|Htext].
    + assert (E : strip bd ++ lit " " ++ strip bt = text) by congruence.
      rewrite E, Hval. reflexivity.
    + assert (E : strip ed ++ lit " " ++ strip et = text) by congruence.
      destruct (strptime (strip bd ++ lit " " ++ strip bt)) as [dt|e0] eqn:Hb;
        cbn [bind].
      * rewrite E, Hval. reflexivity.
      * apply strptime_error in Hb. subst e0. reflexivity.
  - exists e'. unfold parse_csv_file, io_bind, io_emit. cbn [app].
    rewrite Hfile, Hlt, Hrows. reflexivity.
  - unfold script, main, str_eqb.
    destruct (bool_decide (API_TOKEN cfg = lit "YOUR_API_TOKEN_HERE")) eqn:Htok.
    + reflexivity.
    + apply bool_decide_eq_false in Htok.
      pose proof (main_eq cfg w Htok) as Hmain.
      unfold main, str_eqb in Hmain.
      rewrite bool_decide_eq_false_2 in Hmain by exact Htok.
      rewrite Hmain, Hfile, Hlt, Hrows. reflexivity.
  - unfold script, main, str_eqb.
    destruct (bool_decide (API_TOKEN cfg = lit "YOUR_API_TOKEN_HERE")) eqn:Htok.
    + constructor.
    + apply bool_decide_eq_false in Htok.
      pose proof (main_eq cfg w Htok) as Hmain.
      unfold main, str_eqb in Hmain.
      rewrite bool_decide_eq_false_2 in Hmain by exact Htok.
      rewrite Hmain, Hfile, Hlt, Hrows. cbn [fst].
      constructor; [reflexivity | constructor].
Qed.

Lemma malformed_timestamp_aborts_the_run_witness :
  parse_row configured noon_row = Raise ValueError
  /\ snd (script configured
            (world_of [lecture_row; noon_row; lecture_row]
               created_then_rejected)) = 1
  /\ Forall (fun ef => is_sent ef = false)
       (fst (script configured
               (world_of [lecture_row; noon_row; lecture_row]
                  created_then_rejected))).
Proof.
  assert (Hbad : malformed_timestamp noon_row).
  { exists (lit "2024-01-15 noon"). split; [left|]; vm_compute; reflexivity. }
  pose proof (malformed_timestamp_aborts_the_run configured
                (world_of [lecture_row; noon_row; lecture_row]
                   created_then_rejected)
                [lit "TimeEdit"; lit "Schedule"; lit ""; lit "rows"] noon_row
                eq_refl) as H.
  specialize (H ltac:(vm_compute; lia)
                (or_intror (or_introl eq_refl)) eq_refl Hbad).
  destruct H as (_ & Hrow & _ & _ & Hexit & Hsent).
  split; [|split; [exact Hexit | exact Hsent]].
  apply Hrow; eexists; vm_compute; reflexivity.
Defined.

(** *** Fields that are absent from a row *)

Lemma parse_row_absent_get (cfg : Config) (row : Row) (key : str) :
  In key fields_read_with_get -> row !! key = None ->
  parse_row cfg (<[key := PyStr []]> row) = parse_row cfg row.
Proof.
  intros Hkey Habsent.
  unfold parse_row, skipped, parse_event, row_get, row_get_default, row_getitem.
  unfold fields_read_with_get in Hkey. cbn [In] in Hkey.
  repeat (destruct Hkey as [<-|Hkey]); [..|destruct Hkey].
  all: rewrite ?lookup_insert_eq, ?Habsent.
  all: lookup_other.
  all: try reflexivity.
  all: cbn [default truthy nonempty negb orb]; rewrite ?orb_true_r; reflexivity.
Qed.

Lemma not_skipped_begin (row : Row) :
  skipped row = false ->
  exists bd bt,
    row !! lit "Begin date" = Some (PyStr bd)
    /\ row !! lit "Begin time" = Some (PyStr bt).
Proof.
  unfold skipped, row_get. intros H.
  apply orb_false_iff in H. destruct H as [H1 H2].
  apply negb_false_iff in H1, H2.
  destruct (row !! lit "Begin date") as [[|bd]|]; try discriminate.
  destruct (row !! lit "Begin time") as [[|bt]|]; try discriminate.
  eauto.
Qed.

(** C4, the claim as it stands, fails: the lecture row parses, the same row
    without its "End date" makes parsing fail with [KeyError], and this is
    not what the row does with an empty "End date", which [strptime]
    rejects. *)
Lemma absent_end_date_fails :
  parse_row configured lecture_row = Ok (Some lecture_event)
  /\ parse_row configured (delete (lit "End date") lecture_row) = Raise KeyError
  /\ parse_row configured (<[lit "End date" := PyStr []]> lecture_row)
     = Raise ValueError
  /\ parse_rows configured [delete (lit "End date") lecture_row] []
     = Raise KeyError.
Proof. vm_compute. repeat split; reflexivity. Qed.

(** C4, amended. A field read with [row.get] ("Begin date", "Begin time",
    "Course code", "Course name", "Activity", "Title", "Room", "class code",
    "Name") that is absent from a row is treated as the empty string:
    parsing gives what it gives for the row with that field present and
    empty, so it never fails merely because such a field is missing.
    "End date" and "End time" are read by indexing the row: when one of them
    is absent from a row that is not skipped, parsing fails. *)
Theorem absent_field_reads_as_empty (cfg : Config) (row : Row) (key : str) :
  row !! key = None ->
  (In key fields_read_with_get ->
   parse_row cfg row = parse_row cfg (<[key := PyStr []]> row)
   /\ forall before after events,
        parse_rows cfg (before ++ row :: after) events
        = parse_rows cfg (before ++ <[key := PyStr []]> row :: after) events)
  /\ (key = lit "End date" -> skipped row = false ->
      parse_row cfg row = Raise KeyError
      /\ forall after events,
           parse_rows cfg (row :: after) events = Raise KeyError)
  /\ (key = lit "End time" -> skipped row = false ->
      exists e, parse_row cfg row = Raise e).
Proof.
  intros Habsent. split; [|split].
  - intros Hkey.
    pose proof (parse_row_absent_get cfg row key Hkey Habsent) as E.
    split; [symmetry; exact E|].
    intros before after events. rewrite !parse_rows_app.
    destruct (parse_rows cfg before events) as [events'|e]; [|reflexivity].
    cbn [bind parse_rows]. rewrite E. reflexivity.
  - intros -> Hskip.
    destruct (not_skipped_begin row Hskip) as (bd & bt & Hbd & Hbt).
    assert (E : parse_row cfg row = Raise KeyError).
    { unfold parse_row. rewrite Hskip.
      unfold parse_event, row_getitem. rewrite Hbd, Hbt, Habsent.
      reflexivity. }
    split; [exact E|].
    intros after events. cbn [parse_rows]. rewrite E. reflexivity.
  - intros -> Hskip.
    destruct (not_skipped_begin row Hskip) as (bd & bt & Hbd & Hbt).
    unfold parse_row. rewrite Hskip.
    unfold parse_event, row_getitem. rewrite Hbd, Hbt, Habsent.
    destruct (row !! lit "End date") as [[|ed]|]; cbn [bind py_strip]; eauto.
Qed.

Lemma absent_field_reads_as_empty_witness :
  parse_row configured (delete (lit "Room") lecture_row)
  = parse_row configured
      (<[lit "Room" := PyStr []]> (delete (lit "Room") lecture_row))
  /\ parse_row configured (delete (lit "End date") lecture_row)
     = Raise KeyError.
Proof.
  split.
  - refine (proj1 (proj1 (absent_field_reads_as_empty configured
                            (delete (lit "Room") lecture_row) (lit "Room")
                            _) _)).
    + vm_compute. reflexivity.
    + vm_compute. tauto.
  - refine (proj1 (proj1 (proj2 (absent_field_reads_as_empty configured
                            (delete (lit "End date") lecture_row)
                            (lit "End date") _)) eq_refl _)).
    + vm_compute. reflexivity.
    + vm_compute. reflexivity.
Defined.

(** *** The description of an event *)

Lemma supported_languages (cfg : Config) :
  language_supported cfg ->
  LANGUAGE cfg = lit "en" \/ LANGUAGE cfg = lit "sv".
Proof.
  intros [table H]. unfold TRANSLATIONS in H.
  cbn [list_to_map foldr fst snd] in H.
  apply lookup_insert_Some in H. destruct H as [[H _]|[_ H]]; [auto|].
  apply lookup_insert_Some in H. destruct H as [[H _]|[_ H]]; [auto|].
  rewrite lookup_empty in H. discriminate.
Qed.

Lemma course_labels (cfg : Config) (key : str) :
  language_supported cfg ->
  key = lit "courses" \/ key = lit "course" ->
  exists c rest,
    t cfg key = Ok (c :: rest) /\ isspace c = false /\ c <> PUSHPIN.
Proof.
  intros Hlang Hkey. unfold t.
  destruct (supported_languages cfg Hlang) as [-> | ->];
    destruct Hkey as [-> | ->]; vm_compute; eexists _, _;
    (split; [reflexivity|]); (split; [reflexivity | discriminate]).
Qed.

Lemma lstrip_no_leading_space s : no_leading_space s -> lstrip s = s.
Proof. destruct s as [|c s]; cbn; intros H; [|rewrite H]; reflexivity. Qed.

Lemma strip_tidy s : tidy s -> strip s = s.
Proof.
  intros [H1 H2]. unfold strip, rstrip.
  rewrite (lstrip_no_leading_space _ H1), (lstrip_no_leading_space _ H2).
  apply rev_involutive.
Qed.

Lemma no_leading_space_app a b :
  no_leading_space a -> no_leading_space b -> no_leading_space (a ++ b).
Proof. destruct a; cbn; auto. Qed.

Lemma tidy_app a b : tidy a -> tidy b -> tidy (a ++ b).
Proof.
  intros [Ha1 Ha2] [Hb1 Hb2]. split.
  - apply no_leading_space_app; assumption.
  - rewrite rev_app_distr. apply no_leading_space_app; assumption.
Qed.

Lemma tidy_nil : tidy [].
Proof. split; exact I. Qed.

Lemma course_lines_hd codes names i p :
  In p (course_lines codes names i) -> hd 0%N p = 32%N.
Proof.
  revert i. induction codes as [|code codes IH]; intros i; cbn [course_lines In].
  - tauto.
  - intros [<-|H]; [|eapply IH; exact H].
    destruct (nonempty (default [] (names !! i))); reflexivity.
Qed.

Lemma course_block_facts (cfg : Config) (event : Event) :
  language_supported cfg ->
  exists parts,
    course_block cfg event = Ok parts
    /\ tidy (concat parts)
    /\ forall p, In p parts -> hd 0%N p <> PUSHPIN.
Proof.
  intros Hlang. unfold course_block.
  destruct (nonempty (course_codes event)).
  2:{ exists []. split; [reflexivity|]. split; [apply tidy_nil|]. intros p []. }
  assert (Hlabel : exists c rest,
            (if (1 <? length (course_codes event))%nat
             then t cfg (lit "courses") else t cfg (lit "course"))
            = Ok (c :: rest) /\ isspace c = false /\ c <> PUSHPIN).
  { destruct (1 <? length (course_codes event))%nat;
      apply course_labels; auto. }
  destruct Hlabel as (c & rest & -> & Hc & Hpin). cbn [bind].
  eexists. split; [reflexivity|]. split.
  - rewrite !concat_app. cbn [concat]. rewrite !app_nil_r. split.
    + exact Hc.
    + rewrite !rev_app_distr. reflexivity.
  - intros p Hp. apply in_app_or in Hp. destruct Hp as [[<-|[]]|Hp].
    + exact Hpin.
    + apply in_app_or in Hp. destruct Hp as [Hp|[<-|[]]].
      * rewrite (course_lines_hd _ _ _ _ Hp). discriminate.
      * discriminate.
Qed.

Lemma activity_block_facts (cfg : Config) (event : Event) :
  language_supported cfg ->
  exists parts,
    activity_block cfg event = Ok parts
    /\ tidy (concat parts)
    /\ forall p, In p parts -> hd 0%N p <> PUSHPIN.
Proof.
  intros Hlang. unfold activity_block.
  destruct (nonempty (activities event)).
  2:{ exists []. split; [reflexivity|]. split; [apply tidy_nil|]. intros p []. }
  destruct (t_supported cfg (lit "activity") Hlang) as [label ->]. cbn [bind].
  eexists. split; [reflexivity|]. split.
  - cbn [concat]. rewrite !app_nil_r. split.
    + reflexivity.
    + rewrite !rev_app_distr. reflexivity.
  - intros p [<-|[<-|[]]]; discriminate.
Qed.

Lemma location_block_facts (cfg : Config) (event : Event) :
  language_supported cfg ->
  exists parts,
    location_block cfg event = Ok parts
    /\ tidy (concat parts)
    /\ forall p, In p parts -> hd 0%N p <> PUSHPIN.
Proof.
  intros Hlang. unfold location_block.
  destruct (nonempty (room event)).
  2:{ exists []. split; [reflexivity|]. split; [apply tidy_nil|]. intros p []. }
  destruct (t_supported cfg (lit "location") Hlang) as [label ->]. cbn [bind].
  eexists. split; [reflexivity|]. split.
  - cbn [concat]. rewrite !app_nil_r. split.
    + reflexivity.
    + rewrite !rev_app_distr. reflexivity.
  - intros p [<-|[<-|[]]]; discriminate.
Qed.

Lemma title_guard (event : Event) :
  nonempty (title event)
  && negb (bool_decide (title event ∈ activities event)) = true
  <-> title event <> [] /\ ~ In (title event) (activities event).
Proof.
  rewrite andb_true_iff, negb_true_iff, nonempty_true.
  rewrite bool_decide_eq_false, list_elem_of_In. reflexivity.
Qed.

Lemma title_block_facts (cfg : Config) (event : Event) (label : str) :
  t cfg (lit "title") = Ok label ->
  exists parts,
    title_block cfg event = Ok parts
    /\ tidy (concat parts)
    /\ (In (title_line label event) parts
        <-> title event <> [] /\ ~ In (title event) (activities event))
    /\ (In (title_line label event) parts ->
        parts = [title_line label event; lit "<br>"]).
Proof.
  intros Hlabel. unfold title_block.
  pose proof (title_guard event) as Hguard.
  destruct (nonempty (title event)
            && negb (bool_decide (title event ∈ activities event))).
  - rewrite Hlabel. cbn [bind]. eexists. split; [reflexivity|]. split.
    + cbn [concat]. rewrite !app_nil_r. unfold title_line. split.
      * reflexivity.
      * cbn [rev]. rewrite !rev_app_distr. reflexivity.
    + split; [|reflexivity].
      split; [intros _; apply Hguard; reflexivity | intros _; left; reflexivity].
  - exists []. split; [reflexivity|]. split; [apply tidy_nil|].
    split; [|intros []].
    split; [intros [] | intros H; apply Hguard in H; discriminate].
Qed.

(** C9. With a supported language, the description is the concatenation
    of its parts and the line of the title block is among the parts if and
    only if the title is not empty and is not, verbatim, one of the
    activities: a title that equals an activity gives no title block, and a
    title block that is emitted stands in the text of the description. *)
Theorem title_block_iff_title_is_new (cfg : Config) (event : Event) :
  language_supported cfg ->
  exists label parts,
    t cfg (lit "title") = Ok label
    /\ description_parts cfg event = Ok parts
    /\ format_event_description cfg event = Ok (concat parts)
    /\ (In (title_line label event) parts
        <-> title event <> [] /\ ~ In (title event) (activities event))
    /\ (In (title event) (activities event) ->
        ~ In (title_line label event) parts)
    /\ (title event <> [] -> ~ In (title event) (activities event) ->
        occurs_in (title_line label event ++ lit "<br>") (concat parts)).
Proof.
  intros Hlang.
  destruct (t_supported cfg (lit "title") Hlang) as [label Hlabel].
  destruct (course_block_facts cfg event Hlang) as (pc & Ec & Tc & Hc).
  destruct (activity_block_facts cfg event Hlang) as (pa & Ea & Ta & Ha).
  destruct (title_block_facts cfg event label Hlabel)
    as (pt & Et & Tt & Ht & Hshape).
  destruct (location_block_facts cfg event Hlang) as (pl & El & Tl & Hl).
  assert (Hin : In (title_line label event) (pc ++ pa ++ pt ++ pl)
                <-> In (title_line label event) pt).
  { rewrite !in_app_iff. split; [|tauto].
    intros [H|[H|[H|H]]]; [| |exact H|].
    - exfalso. apply (Hc _ H). reflexivity.
    - exfalso. apply (Ha _ H). reflexivity.
    - exfalso. apply (Hl _ H). reflexivity. }
  exists label, (pc ++ pa ++ pt ++ pl).
  split; [exact Hlabel|]. split; [|split; [|split; [|split]]].
  - unfold description_parts. rewrite Ec, Ea, Et, El. reflexivity.
  - unfold format_event_description, description_parts.
    rewrite Ec, Ea, Et, El. cbn [bind]. f_equal. apply strip_tidy.
    rewrite !concat_app. repeat apply tidy_app; assumption.
  - rewrite Hin. exact Ht.
  - intros Hdup H. apply Hin, Ht in H. tauto.
  - intros Hne Hnew.
    assert (Hpt : In (title_line label event) pt) by (apply Ht; auto).
    rewrite (Hshape Hpt), !concat_app. cbn [concat]. rewrite app_nil_r.
    exists (concat pc ++ concat pa), (concat pl).
    rewrite <- !app_assoc. reflexivity.
Qed.

Lemma title_block_iff_title_is_new_witness :
  (exists label parts,
     t configured (lit "title") = Ok label
     /\ description_parts configured lecture_event = Ok parts
     /\ In (title_line label lecture_event) parts
     /\ occurs_in (PUSHPIN :: lit " Title: Intro<br><br>") (concat parts))
  /\ (exists label parts,
        t configured (lit "title") = Ok label
        /\ description_parts configured
             (with_title (lit "Lecture") lecture_event) = Ok parts
        /\ ~ In (title_line label (with_title (lit "Lecture") lecture_event))
               parts).
Proof.
  assert (Hlang : language_supported configured).
  { eexists. vm_compute. reflexivity. }
  split.
  - destruct (title_block_iff_title_is_new configured lecture_event Hlang)
      as (label & parts & Hlabel & Hparts & _ & Hiff & _ & Hocc).
    assert (Hne : title lecture_event <> []) by discriminate.
    assert (Hnew : ~ In (title lecture_event) (activities lecture_event)).
    { intros [H|[]]. vm_compute in H. discriminate. }
    exists label, parts. split; [exact Hlabel|]. split; [exact Hparts|].
    split; [apply Hiff; auto|].
    specialize (Hocc Hne Hnew).
    assert (E : label = lit "Title").
    { vm_compute in Hlabel. injection Hlabel as <-. reflexivity. }
    rewrite E in Hocc. exact Hocc.
  - destruct (title_block_iff_title_is_new configured
                (with_title (lit "Lecture") lecture_event) Hlang)
      as (label & parts & Hlabel & Hparts & _ & _ & Hdup & _).
    exists label, parts. split; [exact Hlabel|]. split; [exact Hparts|].
    apply Hdup. left. reflexivity.
Defined.

(** *** The calendar: ordinals, instants and the order of datetimes *)

Lemma days_before_year_succ y :
  days_before_year (y + 1)
  = days_before_year y + (if is_leap y then 366 else 365).
Proof.
  unfold days_before_year, is_leap.
  replace (y + 1 - 1) with y by lia.
  destruct (Z.eqb_spec (y mod 4) 0), (Z.eqb_spec (y mod 100) 0),
    (Z.eqb_spec (y mod 400) 0); cbn [andb orb negb];
    Z.div_mod_to_equations; lia.
Qed.

Lemma is_leap_period y q : is_leap (y + 400 * q) = is_leap y.
Proof.
  unfold is_leap.
  replace ((y + 400 * q) mod 4) with (y mod 4)
    by (Z.div_mod_to_equations; lia).
  replace ((y + 400 * q) mod 100) with (y mod 100)
    by (Z.div_mod_to_equations; lia).
  replace ((y + 400 * q) mod 400) with (y mod 400)
    by (Z.div_mod_to_equations; lia).
  reflexivity.
Qed.

Lemma days_before_year_period y q :
  days_before_year (y + 400 * q) = days_before_year y + DI400Y * q.
Proof.
  unfold days_before_year, DI400Y. Z.div_mod_to_equations. lia.
Qed.

Lemma ymd2ord_period y m d q :
  ymd2ord (y + 400 * q) m d = ymd2ord y m d + DI400Y * q.
Proof.
  unfold ymd2ord, days_before_month.
  rewrite is_leap_period, days_before_year_period. lia.
Qed.

Lemma days_in_month_period y m q :
  days_in_month (y + 400 * q) m = days_in_month y m.
Proof. unfold days_in_month. rewrite is_leap_period. reflexivity. Qed.

Lemma ord2ymd_period r q :
  0 <= r < DI400Y -> 
  ord2ymd (DI400Y * q + r + 1)
  = let '(y, m, d) := ord2ymd (r + 1) in (y + 400 * q, m, d).
Proof.
  intros Hr. unfold ord2ymd.
  replace (DI400Y * q + r + 1 - 1) with (r + q * DI400Y) by lia.
  replace (r + 1 - 1) with r by lia.
  assert (HD : 0 < DI400Y) by (unfold DI400Y; lia).
  rewrite Z.div_add, Z.mod_add by lia.
  rewrite (Z.div_small r DI400Y), (Z.mod_small r DI400Y) by lia.
  cbv zeta.
  set (n100 := r / DI100Y). set (n := r mod DI100Y).
  set (n4 := n / DI4Y). set (n' := n mod DI4Y).
  set (n1 := n' / 365). set (n'' := n' mod 365).
  destruct ((n1 =? 4) || (n100 =? 4)).
  - f_equal. f_equal. lia.
  - set (leapyear := (n1 =? 3) && (negb (n4 =? 24) || (n100 =? 3))).
    set (m := Z.shiftr (n'' + 50) 5).
    destruct (n'' <? DAYS_BEFORE_MONTH m + (if (2 <? m) && leapyear then 1 else 0));
      f_equal; f_equal; lia.
Qed.

Lemma holds_from_spec fuel f : forall r0,
  holds_from fuel r0 f = true ->
  forall r, r0 <= r < r0 + Z.of_nat fuel -> f r = true.
Proof.
  induction fuel as [|fuel IH]; intros r0 H r Hr; [lia|].
  cbn [holds_from] in H. apply andb_true_iff in H. destruct H as [H0 H].
  destruct (Z.eq_dec r r0) as [->|Hne]; [exact H0|].
  apply (IH (r0 + 1) H). lia.
Qed.

Lemma first_cycle_checked : holds_from (Z.to_nat DI400Y) 0 cycle_day_ok = true.
Proof. vm_cast_no_check (eq_refl true). Qed.

Lemma ord2ymd_spec n :
  1 <= n ->
  exists y m d,
    ord2ymd n = (y, m, d)
    /\ 1 <= y /\ date_ok y m d = true /\ ymd2ord y m d = n.
Proof.
  intros Hn.
  assert (HD : DI400Y = 146097) by reflexivity.
  pose (q := (n - 1) / DI400Y). pose (r := (n - 1) mod DI400Y).
  assert (Hr : 0 <= r < DI400Y) by (apply Z.mod_pos_bound; lia).
  assert (Hq : 0 <= q) by (apply Z.div_pos; lia).
  assert (En : n = DI400Y * q + r + 1).
  { pose proof (Z.div_mod (n - 1) DI400Y) as E. fold q r in E. lia. }
  pose proof (holds_from_spec _ _ _ first_cycle_checked r) as Hc.
  rewrite Z2Nat.id in Hc by lia. specialize (Hc ltac:(lia)).
  rewrite En, (ord2ymd_period r q Hr).
  unfold cycle_day_ok in Hc.
  destruct (ord2ymd (r + 1)) as [[y m] d].
  apply andb_true_iff in Hc. destruct Hc as [Hc E].
  apply andb_true_iff in Hc. destruct Hc as [Hc Hd].
  apply andb_true_iff in Hc. destruct Hc as [Hy1 Hy2].
  apply Z.leb_le in Hy1. apply Z.eqb_eq in E.
  exists (y + 400 * q), m, d. split; [reflexivity|]. split; [lia|]. split.
  - unfold date_ok in *. rewrite days_in_month_period. exact Hd.
  - rewrite ymd2ord_period, E. lia.
Qed.

Lemma days_before_year_add y k :
  0 <= k -> days_before_year y + 365 * k <= days_before_year (y + k).
Proof.
  intros Hk. revert k Hk. apply natlike_ind.
  - replace (y + 0) with y by lia. lia.
  - intros k Hk IH. replace (y + Z.succ k) with (y + k + 1) by lia.
    rewrite days_before_year_succ. destruct (is_leap (y + k)); lia.
Qed.

Lemma date_ok_bounds y m d :
  date_ok y m d = true ->
  1 <= m <= 12 /\ 1 <= d <= days_in_month y m.
Proof.
  unfold date_ok. rewrite !andb_true_iff, !Z.leb_le. lia.
Qed.

(** A date of year [y] lies after the last day of year [y - 1] and no later
    than the last day of year [y]. *)
Lemma ymd2ord_in_year y m d :
  date_ok y m d = true ->
  days_before_year y < ymd2ord y m d <= days_before_year (y + 1).
Proof.
  intros H. apply date_ok_bounds in H. destruct H as [Hm Hd].
  rewrite days_before_year_succ. unfold ymd2ord.
  unfold days_in_month in Hd. unfold days_before_month.
  month_cases m; destruct (is_leap y); cbn in Hd |- *; lia.
Qed.

Lemma ymd2ord_months y m1 d1 m2 d2 :
  date_ok y m1 d1 = true -> date_ok y m2 d2 = true -> m1 < m2 ->
  ymd2ord y m1 d1 < ymd2ord y m2 d2.
Proof.
  intros H1 H2 Hlt.
  apply date_ok_bounds in H1, H2. destruct H1 as [Hm1 Hd1], H2 as [Hm2 Hd2].
  unfold ymd2ord. unfold days_in_month in Hd1, Hd2. unfold days_before_month.
  assert (Hstep : DAYS_BEFORE_MONTH m1
                  + (if (2 <? m1) && is_leap y then 1 else 0)
                  + (if (m1 =? 2) && is_leap y then 29 else DAYS_IN_MONTH m1)
                  <= DAYS_BEFORE_MONTH (m1 + 1)
                     + (if (2 <? m1 + 1) && is_leap y then 1 else 0)).
  { clear Hd1 Hd2. month_cases m1; destruct (is_leap y); simpl; lia. }
  assert (Hmono : forall a b, 1 <= a -> a <= b -> b <= 12 ->
            DAYS_BEFORE_MONTH a + (if (2 <? a) && is_leap y then 1 else 0)
            <= DAYS_BEFORE_MONTH b + (if (2 <? b) && is_leap y then 1 else 0)).
  { clear. intros a b Ha Hab Hb.
    assert (Hb' : 1 <= b <= 12) by lia. assert (Ha' : 1 <= a <= 12) by lia.
    clear Ha Hb.
    destruct (is_leap y).
    - month_cases b; cbn; month_cases a; cbn; lia.
    - month_cases b; cbn; month_cases a; cbn; lia. }
  specialize (Hmono (m1 + 1) m2 ltac:(lia) ltac:(lia) ltac:(lia)).
  lia.
Qed.

Lemma valid_datetime_bounds dt :
  valid_datetime dt = true ->
  1 <= year dt <= MAXYEAR
  /\ date_ok (year dt) (month dt) (day dt) = true
  /\ 0 <= hour dt <= 23 /\ 0 <= minute dt <= 59 /\ 0 <= second dt <= 59.
Proof.
  unfold valid_datetime, date_ok.
  rewrite !andb_true_iff, !Z.leb_le. tauto.
Qed.

Lemma ymd2ord_years y1 m1 d1 y2 m2 d2 :
  date_ok y1 m1 d1 = true -> date_ok y2 m2 d2 = true -> y1 < y2 ->
  ymd2ord y1 m1 d1 < ymd2ord y2 m2 d2.
Proof.
  intros H1 H2 Hlt.
  pose proof (ymd2ord_in_year _ _ _ H1) as B1.
  pose proof (ymd2ord_in_year _ _ _ H2) as B2.
  pose proof (days_before_year_add (y1 + 1) (y2 - (y1 + 1)) ltac:(lia)) as Hadd.
  replace (y1 + 1 + (y2 - (y1 + 1))) with y2 in Hadd by lia. lia.
Qed.

(** The order of two valid datetimes is the order of their instants. *)
Lemma datetime_cmp_instant a b :
  valid_datetime a = true -> valid_datetime b = true ->
  datetime_cmp a b = (instant a ?= instant b).
Proof.
  intros Ha Hb.
  apply valid_datetime_bounds in Ha, Hb.
  destruct Ha as (_ & Da & Ha), Hb as (_ & Db & Hb).
  unfold datetime_cmp, instant, toordinal.
  destruct a as [ya ma da ha na sa], b as [yb mb db hb nb sb];
    cbn [year month day hour minute second] in *.
  symmetry.
  destruct (Z.compare_spec ya yb) as [->|Hy|Hy].
  2:{ pose proof (ymd2ord_years _ _ _ _ _ _ Da Db Hy). apply Z.compare_lt_iff. lia. }
  2:{ pose proof (ymd2ord_years _ _ _ _ _ _ Db Da Hy). apply Z.compare_gt_iff. lia. }
  destruct (Z.compare_spec ma mb) as [->|Hm|Hm].
  2:{ pose proof (ymd2ord_months _ _ _ _ _ Da Db Hm). apply Z.compare_lt_iff. lia. }
  2:{ pose proof (ymd2ord_months _ _ _ _ _ Db Da Hm). apply Z.compare_gt_iff. lia. }
  unfold ymd2ord.
  destruct (Z.compare_spec da db) as [->|Hd|Hd].
  2:{ apply Z.compare_lt_iff. lia. }
  2:{ apply Z.compare_gt_iff. lia. }
  destruct (Z.compare_spec ha hb) as [->|Hh|Hh].
  2:{ apply Z.compare_lt_iff. lia. }
  2:{ apply Z.compare_gt_iff. lia. }
  destruct (Z.compare_spec na nb) as [->|Hn|Hn].
  2:{ apply Z.compare_lt_iff. lia. }
  2:{ apply Z.compare_gt_iff. lia. }
  destruct (Z.compare_spec sa sb) as [->|Hs|Hs].
  - apply Z.compare_eq_iff. reflexivity.
  - apply Z.compare_lt_iff. lia.
  - apply Z.compare_gt_iff. lia.
Qed.


(** Subtracting whole hours moves the instant by as many seconds and gives
    a valid datetime. *)
Lemma datetime_sub_hours dt h td dt' :
  valid_datetime dt = true ->
  timedelta_hours h = Ok td ->
  datetime_sub dt td = Ok dt' ->
  valid_datetime dt' = true /\ instant dt' = instant dt - 3600 * h.
Proof.
  intros Hdt Htd Hsub.
  apply valid_datetime_bounds in Hdt.
  destruct Hdt as (Hy & Dok & Hh & Hm & Hs).
  pose proof (ymd2ord_in_year _ _ _ Dok) as Hord.
  unfold timedelta_hours, timedelta_new in Htd.
  destruct (Z.abs ((0 * 86400 + h * 3600) / 86400) <=? 999999999); [|discriminate].
  injection Htd as <-.
  unfold datetime_sub, timedelta_neg, timedelta_new in Hsub.
  cbn [td_days td_seconds] in Hsub.
  match type of Hsub with
  | context [if ?c then _ else _] => destruct c; [|discriminate]
  end.
  cbn [bind] in Hsub.
  unfold datetime_add, timedelta_new in Hsub.
  match type of Hsub with
  | context [if ?c then _ else _] => destruct c; [|discriminate]
  end.
  cbn [bind] in Hsub.
  unfold timedelta_add, timedelta_new in Hsub.
  cbn [td_days td_seconds] in Hsub.
  match type of Hsub with
  | context [if ?c then _ else _] => destruct c; [|discriminate]
  end.
  cbn [bind td_days td_seconds] in Hsub.
  fold (toordinal dt) in Hord.
  set (tod := hour dt * 3600 + minute dt * 60 + second dt) in *.
  assert (Htod : 0 <= tod < 86400) by (unfold tod; lia).
  assert (Hdays0 : days_before_year (year dt) >= 0).
  { pose proof (days_before_year_add 1 (year dt - 1) ltac:(lia)) as H0.
    replace (1 + (year dt - 1)) with (year dt) in H0 by lia.
    change (days_before_year 1) with 0 in H0. lia. }
  assert (E1 : (toordinal dt * 86400 + tod) / 86400 = toordinal dt)
    by (Z.div_mod_to_equations; lia).
  assert (E2 : (toordinal dt * 86400 + tod) mod 86400 = tod)
    by (Z.div_mod_to_equations; lia).
  rewrite E1, E2 in Hsub.
  set (total := (toordinal dt
                 + (- ((0 * 86400 + h * 3600) / 86400) * 86400
                    + - ((0 * 86400 + h * 3600) mod 86400)) / 86400) * 86400
                + (tod + (- ((0 * 86400 + h * 3600) / 86400) * 86400
                          + - ((0 * 86400 + h * 3600) mod 86400)) mod 86400))
    in *.
  assert (Etotal : total = instant dt - 3600 * h).
  { unfold total, instant. fold tod. Z.div_mod_to_equations. lia. }
  destruct ((0 <? total / 86400) && (total / 86400 <=? MAXORDINAL)) eqn:Hrange;
    [|discriminate].
  apply andb_true_iff in Hrange. destruct Hrange as [Hlo Hhi].
  apply Z.ltb_lt in Hlo. apply Z.leb_le in Hhi.
  destruct (ord2ymd_spec (total / 86400) ltac:(lia))
    as (y & m & d & Eord & Hy1 & Dok' & Einv).
  rewrite Eord in Hsub. injection Hsub as <-.
  assert (Hsec : 0 <= total mod 86400 < 86400) by (apply Z.mod_pos_bound; lia).
  split.
  - unfold valid_datetime. cbn [year month day hour minute second].
    unfold date_ok in Dok'.
    assert (Hymax : y <= MAXYEAR).
    { destruct (Z_le_gt_dec y MAXYEAR) as [?|Hgt]; [assumption|exfalso].
      assert (D9 : date_ok 9999 12 31 = true) by reflexivity.
      pose proof (ymd2ord_years 9999 12 31 y m d D9 Dok' ltac:(unfold MAXYEAR in Hgt; lia)) as Hbig.
      change (ymd2ord 9999 12 31) with MAXORDINAL in Hbig. lia. }
    rewrite !andb_true_iff, !Z.leb_le.
    apply date_ok_bounds in Dok'.
    repeat split; try lia; Z.div_mod_to_equations; lia.
  - rewrite <- Etotal. clearbody total.
    unfold instant, toordinal. cbn [year month day hour minute second].
    rewrite Einv. Z.div_mod_to_equations. lia.
Qed.

Lemma strptime_valid text dt :
  strptime text = Ok dt -> valid_datetime dt = true /\ second dt = 0.
Proof.
  unfold strptime.
  destruct (re_timestamp text) as [|[[[[[y m] d] H] M] rest] ?]; [discriminate|].
  destruct (nonempty rest); [discriminate|].
  unfold datetime_new.
  destruct (valid_datetime _) eqn:Hv; [|discriminate].
  intros E. injection E as <-. split; [exact Hv | reflexivity].
Qed.








Lemma bind_ok {A B} (r : result A) (k : A -> result B) b :
  bind r k = Ok b -> exists a, r = Ok a /\ k a = Ok b.
Proof. destruct r as [a|e]; cbn [bind]; [eauto | discriminate]. Qed.

Lemma parse_event_times (cfg : Config) (row : Row) (event : Event) :
  parse_event cfg row = Ok event ->
  exists begin_text end_text local_start local_end td,
    timestamp_text row (lit "Begin date") (lit "Begin time") = Some begin_text
    /\ timestamp_text row (lit "End date") (lit "End time") = Some end_text
    /\ strptime begin_text = Ok local_start
    /\ strptime end_text = Ok local_end
    /\ timedelta_hours (TIMEZONE_OFFSET cfg) = Ok td
    /\ datetime_sub local_start td = Ok (start event)
    /\ datetime_sub local_end td = Ok (end_ event).
Proof.
  unfold parse_event, row_getitem, timestamp_text. intros H.
  destruct (row !! lit "Begin date") as [[|bd]|]; try discriminate.
  destruct (row !! lit "Begin time") as [[|bt]|]; try discriminate.
  destruct (row !! lit "End date") as [[|ed]|]; try discriminate.
  destruct (row !! lit "End time") as [[|et]|]; try discriminate.
  cbn [bind py_strip] in H.
  apply bind_ok in H. destruct H as (ls & Hls & H).
  apply bind_ok in H. destruct H as (le & Hle & H).
  apply bind_ok in H. destruct H as (s & Hs & H).
  apply bind_ok in H. destruct H as (e & He & H).
  apply bind_ok in Hs. destruct Hs as (td & Htd & Hs).
  rewrite Htd in He. cbn [bind] in He.
  repeat (apply bind_ok in H; destruct H as (? & _ & H)).
  injection H as <-. cbn [start end_].
  exists (strip bd ++ lit " " ++ strip bt), (strip ed ++ lit " " ++ strip et),
    ls, le, td.
  repeat split; assumption.
Qed.


(** *** Local times and instants *)




(** *** The models at work *)

(** What [strptime] accepts: the padded form, fields without their zeros,
    any run of whitespace between date and time; and what it rejects: a day
    the month does not have, text after the minutes, an hour of 24. *)
Example strptime_examples :
  strptime (lit "2024-01-15 10:00")
  = Ok {| year := 2024; month := 1; day := 15;
          hour := 10; minute := 0; second := 0 |}
  /\ strptime (lit "2024-1-5 9:05")
     = Ok {| year := 2024; month := 1; day := 5;
             hour := 9; minute := 5; second := 0 |}
  /\ is_ok (strptime (lit "2024-01-15   10:00")) = true
  /\ strptime (lit "2024-02-30 10:00") = Raise ValueError
  /\ strptime (lit "2024-01-15 10:00:00") = Raise ValueError
  /\ strptime (lit "2024-01-15 24:00") = Raise ValueError
  /\ strptime (lit "15/01/2024 10:00") = Raise ValueError.
Proof. vm_compute. repeat split; reflexivity. Qed.

(** An offset that crosses midnight, a month and a year. *)
Example offset_across_new_year :
  bind (timedelta_hours 2)
    (datetime_sub {| year := 2025; month := 1; day := 1;
                     hour := 1; minute := 30; second := 0 |})
  = Ok {| year := 2024; month := 12; day := 31;
          hour := 23; minute := 30; second := 0 |}.
Proof. vm_compute. reflexivity. Qed.

(** The scenario of the specification: a valid row and a row with an empty
    begin time give one event, and one created event gives the summary
    [(1, 0)]. *)
Example one_event_one_success :
  parse_rows configured [lecture_row; blank_row] [] = Ok [lecture_event]
  /\ exists req,
       script configured
         (world_of [lecture_row; blank_row] created_then_rejected)
       = ([Opened (CSV_FILE configured); Asked; Sent req; Summary 1 0], 0).
Proof. split; [vm_compute; reflexivity|]. eexists. vm_compute. reflexivity. Qed.

(** *** Trimming and splitting *)

Lemma lstrip_no_leading (s : str) : no_leading_space (lstrip s).
Proof.
  induction s as [|c s IH]; cbn [lstrip]; [exact I|].
  destruct (isspace c) eqn:Hc; [exact IH | exact Hc].
Qed.

Lemma lstrip_suffix (s : str) : exists spaces, s = spaces ++ lstrip s
  /\ Forall (fun c => isspace c = true) spaces.
Proof.
  induction s as [|c s (sp & E & Hsp)]; cbn [lstrip].
  - exists []. split; [reflexivity | constructor].
  - destruct (isspace c) eqn:Hc.
    + exists (c :: sp). split; [cbn; congruence | constructor; assumption].
    + exists []. split; [reflexivity | constructor].
Qed.

Lemma no_leading_space_rev_lstrip (s : str) :
  no_leading_space s -> no_leading_space (rev (lstrip (rev s))).
Proof.
  intros Hs. destruct (lstrip_suffix (rev s)) as (sp & E & Hsp).
  apply (f_equal (@rev N)) in E. rewrite rev_involutive, rev_app_distr in E.
  destruct (rev (lstrip (rev s))) as [|c r]; [exact I|].
  rewrite E in Hs. exact Hs.
Qed.

Lemma strip_tidy_result (s : str) : tidy (strip s).
Proof.
  unfold strip, rstrip. split.
  - apply no_leading_space_rev_lstrip, lstrip_no_leading.
  - rewrite rev_involutive. apply lstrip_no_leading.
Qed.

Lemma strip_parts (s : str) :
  exists before after,
    s = before ++ strip s ++ after
    /\ Forall (fun c => isspace c = true) before
    /\ Forall (fun c => isspace c = true) after.
Proof.
  destruct (lstrip_suffix s) as (sp1 & E1 & H1).
  destruct (lstrip_suffix (rev (lstrip s))) as (sp2 & E2 & H2).
  exists sp1, (rev sp2). unfold strip, rstrip.
  apply (f_equal (@rev N)) in E2. rewrite rev_involutive, rev_app_distr in E2.
  rewrite <- E2. split; [exact E1|]. split; [exact H1|].
  apply List.Forall_forall. intros c Hc. apply in_rev in Hc.
  rewrite List.Forall_forall in H2. apply H2. exact Hc.
Qed.

Lemma split_no_separator (sep : char) (s : str) (seg : str) :
  In seg (split sep s) -> ~ In sep seg.
Proof.
  revert seg. induction s as [|c s IH]; intros seg; cbn [split].
  - intros [<-|[]] [].
  - destruct (N.eqb_spec c sep) as [->|Hne].
    + intros [<-|H]; [intros [] | apply IH, H].
    + destruct (split sep s) as [|seg0 segs] eqn:E.
      * intros [<-|[]] [H|[]]. congruence.
      * intros [<-|H].
        -- intros [H|H]; [congruence|]. apply (IH seg0); [left; reflexivity | exact H].
        -- apply IH. right. exact H.
Qed.

Lemma split_chars (sep : char) (s : str) (c : char) :
  In c s <-> (c = sep /\ In sep s) \/ exists seg, In seg (split sep s) /\ In c seg.
Proof.
  induction s as [|c0 s IH]; cbn [split].
  - split; [intros [] | intros [[_ []]|(seg & [<-|[]] & [])]].
  - destruct (N.eqb_spec c0 sep) as [->|Hne].
    + split.
      * intros [<-|H]; [left; split; [reflexivity | left; reflexivity]|].
        apply IH in H. destruct H as [[-> H]|(seg & Hs & Hc)].
        -- left. split; [reflexivity | right; exact H].
        -- right. exists seg. split; [right; exact Hs | exact Hc].
      * intros [[-> _]|(seg & [<-|Hs] & Hc)]; [left; reflexivity | destruct Hc |].
        right. apply IH. right. eauto.
    + destruct (split sep s) as [|seg0 segs] eqn:E.
      * split.
        -- intros [<-|H]; [right; exists [c0]; split; left; reflexivity|].
           apply IH in H. destruct H as [[-> H]|(seg & [] & _)].
           left. split; [reflexivity | right; exact H].
        -- intros [[-> [H|H]]|(seg & [<-|[]] & [<-|[]])];
             [congruence | right; exact H | left; reflexivity].
      * split.
        -- intros [<-|H].
           ++ right. exists (c0 :: seg0). split; left; reflexivity.
           ++ apply IH in H. destruct H as [[-> H]|(seg & [<-|Hs] & Hc)].
              ** left. split; [reflexivity | right; exact H].
              ** right. exists (c0 :: seg0). split; [left; reflexivity | right; exact Hc].
              ** right. exists seg. split; [right; exact Hs | exact Hc].
        -- intros [[-> [H|H]]|(seg & [<-|Hs] & Hc)].
           ++ congruence.
           ++ right. apply IH. left. split; [reflexivity | exact H].
           ++ destruct Hc as [<-|Hc]; [left; reflexivity|].
              right. apply IH. right. exists seg0. split; [left; reflexivity | exact Hc].
           ++ right. apply IH. right. exists seg. split; [right; exact Hs | exact Hc].
Qed.

Lemma lstrip_all_space (s : str) :
  Forall (fun c => isspace c = true) s -> lstrip s = [].
Proof.
  induction 1 as [|c s Hc _ IH]; cbn [lstrip]; [reflexivity|].
  rewrite Hc. exact IH.
Qed.

Lemma strip_empty_iff (s : str) :
  strip s = [] <-> Forall (fun c => isspace c = true) s.
Proof.
  split.
  - intros E. destruct (strip_parts s) as (b & a & Es & Hb & Ha).
    rewrite E in Es. rewrite Es. cbn [app]. apply Forall_app. split; assumption.
  - intros H. unfold strip. rewrite (lstrip_all_space s H). reflexivity.
Qed.

Lemma strip_chars (s : str) (c : char) : In c (strip s) -> In c s.
Proof.
  intros H. destruct (strip_parts s) as (b & a & Es & _ & _).
  rewrite Es. rewrite !in_app_iff. tauto.
Qed.

Lemma split_field_clean (raw : str) :
  Forall (fun x => x <> [] /\ strip x = x /\ tidy x /\ ~ In comma x)
    (split_field raw).
Proof.
  unfold split_field. apply List.Forall_forall. intros x Hx.
  apply in_map_iff in Hx. destruct Hx as (seg & <- & Hseg).
  apply filter_In in Hseg. destruct Hseg as [Hseg Hne].
  apply nonempty_true in Hne.
  pose proof (strip_tidy_result seg) as Ht.
  split; [exact Hne|]. split; [apply strip_tidy, Ht|]. split; [exact Ht|].
  intros Hc. apply strip_chars in Hc.
  exact (split_no_separator comma raw seg Hseg Hc).
Qed.

(** X1. Every element of a field split on commas is non-empty, is left as
    it is by [strip] (it neither begins nor ends with whitespace) and holds
    no comma; the split gives no element exactly when the field is made of
    commas and whitespace only. *)
Theorem split_field_elements (raw : str) :
  Forall (fun x => x <> [] /\ strip x = x /\ tidy x /\ ~ In comma x)
    (split_field raw)
  /\ (split_field raw = []
      <-> Forall (fun c => c = comma \/ isspace c = true) raw).
Proof.
  split; [apply split_field_clean|]. unfold split_field. split.
  - intros E. apply List.Forall_forall. intros c Hc.
    apply (split_chars comma) in Hc.
    destruct Hc as [[-> _]|(seg & Hseg & Hc)]; [left; reflexivity|].
    right.
    destruct (nonempty (strip seg)) eqn:Hne.
    + apply map_eq_nil in E.
      assert (Hin : In seg (List.filter (fun x => nonempty (strip x))
                              (split comma raw)))
        by (apply filter_In; split; assumption).
      rewrite E in Hin. destruct Hin.
    + destruct (strip seg) eqn:Es; [|discriminate].
      apply strip_empty_iff in Es.
      rewrite List.Forall_forall in Es. apply Es, Hc.
  - intros H.
    assert (Hall : forall seg, In seg (split comma raw) ->
              nonempty (strip seg) = false).
    { intros seg Hseg.
      assert (Es : strip seg = []).
      { apply strip_empty_iff. apply List.Forall_forall. intros c Hc.
        rewrite List.Forall_forall in H.
        assert (Hraw : In c raw).
        { apply (split_chars comma). right. eauto. }
        destruct (H c Hraw) as [->|Hsp]; [exfalso | exact Hsp].
        exact (split_no_separator comma raw seg Hseg Hc). }
      rewrite Es. reflexivity. }
    induction (split comma raw) as [|seg segs IH]; [reflexivity|].
    cbn [List.filter]. rewrite (Hall seg (or_introl eq_refl)).
    apply IH. intros seg' Hs. apply Hall. right. exact Hs.
Qed.

(** *** The fields of a parsed event *)

Lemma parse_event_fields (cfg : Config) (row : Row) (event : Event) :
  parse_event cfg row = Ok event ->
  exists cc cn ac clc cln,
    py_strip (row_get_default row (lit "Course code")) = Ok cc
    /\ py_strip (row_get_default row (lit "Course name")) = Ok cn
    /\ py_strip (row_get_default row (lit "Activity")) = Ok ac
    /\ py_strip (row_get_default row (lit "Title")) = Ok (title event)
    /\ py_strip (row_get_default row (lit "Room")) = Ok (room event)
    /\ py_strip (row_get_default row (lit "class code")) = Ok clc
    /\ py_strip (row_get_default row (lit "Name")) = Ok cln
    /\ course_codes event = split_codes cc
    /\ course_names event = split_field cn
    /\ activities event = split_field ac
    /\ class_codes event = split_field clc
    /\ class_names event = split_field cln.
Proof.
  unfold parse_event. intros H.
  do 8 (apply bind_ok in H; destruct H as (? & _ & H)).
  apply bind_ok in H. destruct H as (cc & Hcc & H).
  apply bind_ok in H. destruct H as (cn & Hcn & H).
  apply bind_ok in H. destruct H as (ac & Hac & H).
  apply bind_ok in H. destruct H as (ti & Hti & H).
  apply bind_ok in H. destruct H as (ro & Hro & H).
  apply bind_ok in H. destruct H as (clc & Hclc & H).
  apply bind_ok in H. destruct H as (cln & Hcln & H).
  injection H as <-. cbn.
  exists cc, cn, ac, clc, cln. repeat split; assumption.
Qed.

Lemma split_without_separator (sep : char) (s : str) :
  ~ In sep s -> split sep s = [s].
Proof.
  induction s as [|c s IH]; intros H; cbn [split]; [reflexivity|].
  destruct (N.eqb_spec c sep) as [->|Hne]; [exfalso; apply H; left; reflexivity|].
  rewrite IH; [reflexivity|]. intros Hs. apply H. right. exact Hs.
Qed.

(** X2. Every course code of a parsed event has at most six characters and
    no comma. A row without a "Course code" field has no course code, and a
    field without a comma gives one code, the first six characters of the
    trimmed field, or none when the field is blank. *)
Theorem course_codes_of_a_row (cfg : Config) (row : Row) (event : Event) :
  parse_row cfg row = Ok (Some event) ->
  Forall (fun code => (length code <= 6)%nat /\ ~ In comma code)
    (course_codes event)
  /\ (row !! lit "Course code" = None -> course_codes event = [])
  /\ (forall field,
        row !! lit "Course code" = Some (PyStr field) -> ~ In comma field ->
        course_codes event
        = if nonempty (strip field) then [firstn 6 (strip field)] else []).
Proof.
  intros Hrow.
  assert (Hev : parse_event cfg row = Ok event).
  { unfold parse_row in Hrow. destruct (skipped row); [discriminate|].
    destruct (parse_event cfg row); cbn [bind] in Hrow; congruence. }
  destruct (parse_event_fields cfg row event Hev)
    as (cc & cn & ac & clc & cln & Hcc & _ & _ & _ & _ & _ & _ & Ecc & _).
  rewrite Ecc. split; [|split].
  - unfold split_codes. apply List.Forall_forall. intros code Hcode.
    apply in_map_iff in Hcode. destruct Hcode as (seg & <- & Hseg).
    apply filter_In in Hseg. destruct Hseg as [Hseg _]. unfold slice_to.
    split.
    + rewrite List.length_firstn. lia.
    + intros Hc. apply (split_no_separator comma cc seg Hseg).
      rewrite <- (firstn_skipn 6 seg). apply in_or_app. left. exact Hc.
  - intros Habsent. unfold row_get_default in Hcc. rewrite Habsent in Hcc.
    cbn in Hcc. injection Hcc as <-. reflexivity.
  - intros field Hfield Hnc. unfold row_get_default in Hcc.
    rewrite Hfield in Hcc. cbn [default py_strip] in Hcc. injection Hcc as <-.
    unfold split_codes.
    rewrite split_without_separator
      by (intros Hc; apply Hnc; apply strip_chars; exact Hc).
    cbn [List.filter].
    rewrite (strip_tidy _ (strip_tidy_result field)).
    destruct (nonempty (strip field)); reflexivity.
Qed.

Lemma course_codes_of_a_row_witness :
  exists event,
    parse_row configured
      (<[lit "Course code" := PyStr (lit "  TDA357_40 ")]> lecture_row)
    = Ok (Some event)
    /\ course_codes event = [lit "TDA357"].
Proof.
  destruct (parse_row configured
              (<[lit "Course code" := PyStr (lit "  TDA357_40 ")]> lecture_row))
    as [[event|]|e] eqn:Hrow; try (vm_compute in Hrow; discriminate).
  exists event. split; [reflexivity|].
  destruct (course_codes_of_a_row configured _ event Hrow) as (_ & _ & Hone).
  rewrite (Hone (lit "  TDA357_40 ")).
  - vm_compute. reflexivity.
  - vm_compute. reflexivity.
  - vm_compute. intros H. repeat (destruct H as [H|H]; [discriminate|]). exact H.
Defined.

Lemma parse_event_clean (cfg : Config) (row : Row) (event : Event) :
  parse_event cfg row = Ok event ->
  Forall (fun x => x <> [] /\ tidy x /\ ~ In comma x)
    (course_names event ++ activities event
     ++ class_codes event ++ class_names event)
  /\ tidy (title event) /\ tidy (room event).
Proof.
  intros Hev.
  destruct (parse_event_fields cfg row event Hev)
    as (cc & cn & ac & clc & cln & _ & _ & _ & Hti & Hro & _ & _
        & _ & -> & -> & -> & ->).
  assert (Hclean : forall raw,
            Forall (fun x => x <> [] /\ tidy x /\ ~ In comma x)
              (split_field raw)).
  { intros raw. eapply Forall_impl; [apply split_field_clean|].
    intros x (Hne & _ & Ht & Hc). tauto. }
  assert (Htidy : forall v s, py_strip v = Ok s -> tidy s).
  { intros [|s0] s Hs; [discriminate|]. cbn in Hs. injection Hs as <-.
    apply strip_tidy_result. }
  split; [|split; eapply Htidy; eassumption].
  repeat (apply Forall_app; split; [apply Hclean|]). apply Hclean.
Qed.

(** X3. The course names, activities, class codes and class names of a
    parsed event are non-empty, trimmed and free of commas, and its title
    and room are trimmed. *)
Theorem parsed_event_is_normalised (cfg : Config) (row : Row) (event : Event) :
  parse_row cfg row = Ok (Some event) ->
  let clean := fun x : str => x <> [] /\ tidy x /\ ~ In comma x in
  Forall clean (course_names event)
  /\ Forall clean (activities event)
  /\ Forall clean (class_codes event)
  /\ Forall clean (class_names event)
  /\ tidy (title event)
  /\ tidy (room event).
Proof.
  intros Hrow clean.
  assert (Hev : parse_event cfg row = Ok event).
  { unfold parse_row in Hrow. destruct (skipped row); [discriminate|].
    destruct (parse_event cfg row); cbn [bind] in Hrow; congruence. }
  destruct (parse_event_clean cfg row event Hev) as (Hall & Hti & Hro).
  rewrite !Forall_app in Hall. unfold clean. tauto.
Qed.

(** *** The row loop as a whole *)

Lemma parse_row_some_not_skipped (cfg : Config) (row : Row) (event : Event) :
  parse_row cfg row = Ok (Some event) -> skipped row = false.
Proof. unfold parse_row. destruct (skipped row); [discriminate | reflexivity]. Qed.

Lemma parse_row_none_skipped (cfg : Config) (row : Row) :
  parse_row cfg row = Ok None -> skipped row = true.
Proof.
  unfold parse_row. destruct (skipped row); [reflexivity|].
  destruct (parse_event cfg row); discriminate.
Qed.

Lemma parse_rows_acc (cfg : Config) (rows : list Row) :
  forall acc events,
    parse_rows cfg rows acc = Ok events ->
    exists new,
      events = acc ++ new
      /\ Forall2 (fun row event => parse_row cfg row = Ok (Some event))
           (List.filter (fun row => negb (skipped row)) rows) new.
Proof.
  induction rows as [|row rows IH]; intros acc events H.
  - cbn in H. injection H as <-. exists []. rewrite app_nil_r.
    split; [reflexivity | constructor].
  - cbn [parse_rows] in H. apply bind_ok in H.
    destruct H as (parsed & Hrow & H).
    destruct (IH _ _ H) as (new & -> & Hnew).
    cbn [List.filter]. destruct parsed as [event|].
    + rewrite (parse_row_some_not_skipped _ _ _ Hrow). cbn [negb].
      exists (event :: new). rewrite <- app_assoc.
      split; [reflexivity | constructor; assumption].
    + rewrite (parse_row_none_skipped _ _ Hrow). cbn [negb].
      exists new. split; [reflexivity | assumption].
Qed.

Lemma parse_rows_ok_iff (cfg : Config) (rows : list Row) : forall acc,
  is_ok (parse_rows cfg rows acc) = true
  <-> Forall (fun row => is_ok (parse_row cfg row) = true) rows.
Proof.
  induction rows as [|row rows IH]; intros acc; cbn [parse_rows].
  - split; [constructor | reflexivity].
  - destruct (parse_row cfg row) as [parsed|e] eqn:Hrow; cbn [bind].
    + rewrite IH. split.
      * intros H. constructor; [rewrite Hrow; reflexivity | exact H].
      * intros H. inversion H. assumption.
    + split; [discriminate|]. intros H. inversion H as [|? ? H1 _].
      rewrite Hrow in H1. discriminate.
Qed.

(** X4. Parsing a list of rows succeeds exactly when every row parses, and
    then the events are, in order, those of the rows that are not skipped,
    one event per such row. *)
Theorem events_follow_the_rows (cfg : Config) (rows : list Row) :
  (is_ok (parse_rows cfg rows []) = true
   <-> Forall (fun row => is_ok (parse_row cfg row) = true) rows)
  /\ forall events,
       parse_rows cfg rows [] = Ok events ->
       Forall2 (fun row event => parse_row cfg row = Ok (Some event))
         (List.filter (fun row => negb (skipped row)) rows) events
       /\ length events
          = length (List.filter (fun row => negb (skipped row)) rows).
Proof.
  split; [apply parse_rows_ok_iff|].
  intros events H.
  destruct (parse_rows_acc cfg rows [] events H) as (new & -> & Hnew).
  cbn [app]. split; [exact Hnew|].
  symmetry. eapply Forall2_length. exact Hnew.
Qed.

(** *** Subtracting hours *)

Lemma datetime_cmp_eq (a b : datetime) : datetime_cmp a b = Eq -> a = b.
Proof.
  unfold datetime_cmp.
  destruct a as [ya ma da ha na sa], b as [yb mb db hb nb sb];
    cbn [year month day hour minute second].
  destruct (Z.compare_spec ya yb); try discriminate.
  destruct (Z.compare_spec ma mb); try discriminate.
  destruct (Z.compare_spec da db); try discriminate.
  destruct (Z.compare_spec ha hb); try discriminate.
  destruct (Z.compare_spec na nb); try discriminate.
  destruct (Z.compare_spec sa sb); try discriminate.
  intros _. congruence.
Qed.

Lemma instant_injective (a b : datetime) :
  valid_datetime a = true -> valid_datetime b = true ->
  instant a = instant b -> a = b.
Proof.
  intros Ha Hb E. apply datetime_cmp_eq.
  rewrite (datetime_cmp_instant a b Ha Hb). apply Z.compare_eq_iff, E.
Qed.

Lemma instant_bounds (dt : datetime) :
  valid_datetime dt = true ->
  instant datetime_min <= instant dt <= instant datetime_max.
Proof.
  intros Hdt.
  assert (Hmin : valid_datetime datetime_min = true) by reflexivity.
  assert (Hmax : valid_datetime datetime_max = true) by reflexivity.
  pose proof (datetime_cmp_instant datetime_min dt Hmin Hdt) as C1.
  pose proof (datetime_cmp_instant dt datetime_max Hdt Hmax) as C2.
  apply valid_datetime_bounds in Hdt.
  destruct Hdt as (Hy & Dok & Hh & Hm & Hs).
  apply date_ok_bounds in Dok. destruct Dok as [Hmo Hd].
  assert (Hd31 : day dt <= 31).
  { unfold days_in_month in Hd.
    destruct ((month dt =? 2) && is_leap (year dt)); [lia|].
    remember (month dt) as m eqn:Em. clear Em.
    month_cases m; cbn in Hd; lia. }
  unfold MAXYEAR in Hy.
  split.
  - destruct (Z.compare_spec (instant datetime_min) (instant dt)) as [E|L|G];
      [lia | lia | exfalso].
    unfold datetime_cmp in C1. cbn [year month day hour minute second datetime_min] in C1.
    destruct (Z.compare_spec 1 (year dt)); try discriminate; try lia.
    destruct (Z.compare_spec 1 (month dt)); try discriminate; try lia.
    destruct (Z.compare_spec 1 (day dt)); try discriminate; try lia.
    destruct (Z.compare_spec 0 (hour dt)); try discriminate; try lia.
    destruct (Z.compare_spec 0 (minute dt)); try discriminate; try lia.
    destruct (Z.compare_spec 0 (second dt)); try discriminate; try lia.
  - destruct (Z.compare_spec (instant dt) (instant datetime_max)) as [E|L|G];
      [lia | lia | exfalso].
    unfold datetime_cmp in C2. cbn [year month day hour minute second datetime_max] in C2.
    destruct (Z.compare_spec (year dt) 9999); try discriminate; try lia.
    destruct (Z.compare_spec (month dt) 12); try discriminate; try lia.
    destruct (Z.compare_spec (day dt) 31); try discriminate; try lia.
    destruct (Z.compare_spec (hour dt) 23); try discriminate; try lia.
    destruct (Z.compare_spec (minute dt) 59); try discriminate; try lia.
    destruct (Z.compare_spec (second dt) 59); try discriminate; try lia.
Qed.

Lemma minus_hours_ok (dt : datetime) (h : Z) (dt' : datetime) :
  valid_datetime dt = true -> minus_hours dt h = Ok dt' ->
  valid_datetime dt' = true /\ instant dt' = instant dt - 3600 * h.
Proof.
  unfold minus_hours. intros Hdt H.
  apply bind_ok in H. destruct H as (td & Htd & H).
  exact (datetime_sub_hours dt h td dt' Hdt Htd H).
Qed.

Lemma minus_hours_error (dt : datetime) (h : Z) (e : exn) :
  minus_hours dt h = Raise e -> e = OverflowError.
Proof.
  unfold minus_hours, timedelta_hours, datetime_sub, timedelta_neg,
    datetime_add, timedelta_add, timedelta_new.
  repeat match goal with
         | |- context [if ?c then _ else _] => destruct c; cbn [bind]
         | |- context [let '(_, _) := ?p in _] => destruct p as [[? ?] ?]
         end; congruence.
Qed.

Lemma minus_hours_in_range (dt : datetime) (h : Z) :
  valid_datetime dt = true ->
  instant datetime_min <= instant dt - 3600 * h <= instant datetime_max ->
  is_ok (minus_hours dt h) = true.
Proof.
  intros Hdt Hrange.
  pose proof (instant_bounds dt Hdt) as Hb.
  change (instant datetime_min) with 86400 in *.
  change (instant datetime_max) with 315537983999 in *.
  apply valid_datetime_bounds in Hdt.
  destruct Hdt as (Hy & Dok & Hh & Hm & Hs).
  unfold instant in Hrange, Hb.
  unfold minus_hours, timedelta_hours, timedelta_new.
  destruct (Z.leb_spec (Z.abs ((0 * 86400 + h * 3600) / 86400)) 999999999)
    as [_|Hbad]; [|exfalso; Z.div_mod_to_equations; lia].
  cbn [bind]. unfold datetime_sub, timedelta_neg, timedelta_new.
  cbn [td_days td_seconds].
  match goal with
  | |- context [if ?c then _ else _] =>
      destruct c eqn:E1; [|exfalso; apply Z.leb_gt in E1;
                           Z.div_mod_to_equations; lia]
  end.
  cbn [bind]. unfold datetime_add, timedelta_new.
  match goal with
  | |- context [if ?c then _ else _] =>
      destruct c eqn:E2; [|exfalso; apply Z.leb_gt in E2;
                           Z.div_mod_to_equations; lia]
  end.
  cbn [bind]. unfold timedelta_add, timedelta_new. cbn [td_days td_seconds].
  match goal with
  | |- context [if ?c then _ else _] =>
      destruct c eqn:E3; [|exfalso; apply Z.leb_gt in E3;
                           Z.div_mod_to_equations; lia]
  end.
  cbn [bind td_days td_seconds].
  match goal with
  | |- context [if ?c then _ else _] =>
      destruct c eqn:E4
  end.
  - destruct (ord2ymd _) as [[y m] d]. reflexivity.
  - exfalso. apply andb_false_iff in E4. unfold MAXORDINAL in E4.
    destruct E4 as [E4|E4]; [apply Z.ltb_ge in E4 | apply Z.leb_gt in E4];
      Z.div_mod_to_equations; lia.
Qed.

(** X5. Subtracting the offset from a valid time succeeds exactly when the
    result lies between 0001-01-01 00:00:00 and 9999-12-31 23:59:59;
    otherwise it raises [OverflowError], and so does the parsing of a row
    whose begin time cannot be shifted. *)
Theorem offset_conversion_range (dt : datetime) (h : Z) :
  valid_datetime dt = true ->
  (is_ok (minus_hours dt h) = true
   <-> instant datetime_min <= instant dt - 3600 * h <= instant datetime_max)
  /\ (is_ok (minus_hours dt h) = false ->
      minus_hours dt h = Raise OverflowError)
  /\ (forall cfg row begin_text end_text local_end,
        TIMEZONE_OFFSET cfg = h ->
        skipped row = false ->
        timestamp_text row (lit "Begin date") (lit "Begin time")
        = Some begin_text ->
        timestamp_text row (lit "End date") (lit "End time") = Some end_text ->
        strptime begin_text = Ok dt ->
        strptime end_text = Ok local_end ->
        is_ok (minus_hours dt h) = false ->
        parse_row cfg row = Raise OverflowError).
Proof.
  intros Hdt. split; [|split].
  - split.
    + destruct (minus_hours dt h) as [dt'|e] eqn:E; [intros _ | discriminate].
      destruct (minus_hours_ok dt h dt' Hdt E) as [Hv Hi].
      rewrite <- Hi. apply instant_bounds, Hv.
    + apply minus_hours_in_range, Hdt.
  - destruct (minus_hours dt h) as [dt'|e] eqn:E; [discriminate | intros _].
    rewrite (minus_hours_error dt h e E). reflexivity.
  - intros cfg row bt et le Hoff Hskip Hbt Het Hls Hle Hfail.
    unfold parse_row. rewrite Hskip.
    unfold parse_event, row_getitem. unfold timestamp_text in Hbt, Het.
    destruct (row !! lit "Begin date") as [[|bd]|]; try discriminate.
    destruct (row !! lit "Begin time") as [[|btm]|]; try discriminate.
    destruct (row !! lit "End date") as [[|ed]|]; try discriminate.
    destruct (row !! lit "End time") as [[|etm]|]; try discriminate.
    cbn [bind py_strip].
    assert (E1 : strip bd ++ lit " " ++ strip btm = bt) by congruence.
    assert (E2 : strip ed ++ lit " " ++ strip etm = et) by congruence.
    rewrite E1, E2, Hls, Hle. cbn [bind]. rewrite Hoff.
    fold (minus_hours dt h).
    destruct (minus_hours dt h) as [dt'|e] eqn:E; [discriminate|].
    rewrite (minus_hours_error dt h e E). reflexivity.
Qed.

Lemma offset_conversion_range_witness :
  is_ok (minus_hours datetime_min 1) = false
  /\ minus_hours datetime_min 1 = Raise OverflowError
  /\ is_ok (minus_hours datetime_min (-1)) = true.
Proof.
  destruct (offset_conversion_range datetime_min 1 eq_refl) as (_ & Herr & _).
  destruct (offset_conversion_range datetime_min (-1) eq_refl) as (Hok & _ & _).
  split; [reflexivity|]. split; [apply Herr; reflexivity|].
  apply Hok. vm_compute. split; discriminate.
Defined.

Lemma minus_hours_zero (dt : datetime) :
  valid_datetime dt = true -> minus_hours dt 0 = Ok dt.
Proof.
  intros Hd.
  pose proof (minus_hours_in_range dt 0 Hd) as Hok.
  pose proof (instant_bounds dt Hd) as Hb.
  destruct (minus_hours dt 0) as [d'|e] eqn:E;
    [|specialize (Hok ltac:(lia)); discriminate].
  destruct (minus_hours_ok dt 0 d' Hd E) as [Hv' Hi'].
  f_equal. apply instant_injective; [assumption | assumption | lia].
Qed.

Lemma minus_hours_compose (dt : datetime) (h k : Z) (d1 : datetime) :
  valid_datetime dt = true -> minus_hours dt h = Ok d1 ->
  minus_hours d1 k = minus_hours dt (h + k).
Proof.
  intros Hdt H1.
  destruct (minus_hours_ok dt h d1 Hdt H1) as [Hv1 Hi1].
  destruct (minus_hours d1 k) as [a|ea] eqn:Ea,
           (minus_hours dt (h + k)) as [b|eb] eqn:Eb.
  - destruct (minus_hours_ok _ _ _ Hv1 Ea) as [Hva Hia].
    destruct (minus_hours_ok _ _ _ Hdt Eb) as [Hvb Hib].
    f_equal. apply instant_injective; [assumption | assumption | lia].
  - destruct (minus_hours_ok _ _ _ Hv1 Ea) as [Hva Hia].
    pose proof (instant_bounds a Hva) as Hb.
    pose proof (minus_hours_in_range dt (h + k) Hdt ltac:(lia)) as Hok.
    rewrite Eb in Hok. discriminate.
  - destruct (minus_hours_ok _ _ _ Hdt Eb) as [Hvb Hib].
    pose proof (instant_bounds b Hvb) as Hb.
    pose proof (minus_hours_in_range d1 k Hv1 ltac:(lia)) as Hok.
    rewrite Ea in Hok. discriminate.
  - rewrite (minus_hours_error _ _ _ Ea), (minus_hours_error _ _ _ Eb).
    reflexivity.
Qed.

Lemma parse_row_event (cfg : Config) (row : Row) (event : Event) :
  parse_row cfg row = Ok (Some event) -> parse_event cfg row = Ok event.
Proof.
  unfold parse_row. destruct (skipped row); [discriminate|].
  destruct (parse_event cfg row); cbn [bind]; congruence.
Qed.

Lemma parse_event_local_times (cfg : Config) (row : Row) (event : Event) :
  parse_event cfg row = Ok event ->
  exists begin_text end_text local_start local_end,
    timestamp_text row (lit "Begin date") (lit "Begin time") = Some begin_text
    /\ timestamp_text row (lit "End date") (lit "End time") = Some end_text
    /\ strptime begin_text = Ok local_start
    /\ strptime end_text = Ok local_end
    /\ valid_datetime local_start = true
    /\ valid_datetime local_end = true
    /\ minus_hours local_start (TIMEZONE_OFFSET cfg) = Ok (start event)
    /\ minus_hours local_end (TIMEZONE_OFFSET cfg) = Ok (end_ event).
Proof.
  intros Hev.
  destruct (parse_event_times cfg row event Hev)
    as (bt & et & ls & le & td & Hbt & Het & Hls & Hle & Htd & Hs & He).
  exists bt, et, ls, le.
  destruct (strptime_valid _ _ Hls) as [Vls _].
  destruct (strptime_valid _ _ Hle) as [Vle _].
  repeat (split; [assumption|]).
  unfold minus_hours. rewrite Htd. split; assumption.
Qed.

(** X6. For one row, a configuration whose offset is [k] hours larger
    gives an event whose start and end are [k] hours earlier, from which
    [-k] hours lead back, and whose other fields (course codes and names,
    activities, title, room, class codes and names) are the same; with the
    same offset the event is the same, and with offset 0 start and end are
    the local times as parsed. *)
Theorem offset_only_shifts_the_times (cfg1 cfg2 : Config) (row : Row)
    (event1 : Event) (k : Z) :
  parse_row cfg1 row = Ok (Some event1) ->
  TIMEZONE_OFFSET cfg2 = TIMEZONE_OFFSET cfg1 + k ->
  (k = 0 -> parse_row cfg2 row = Ok (Some event1))
  /\ (TIMEZONE_OFFSET cfg1 = 0 ->
      exists begin_text end_text,
        timestamp_text row (lit "Begin date") (lit "Begin time")
        = Some begin_text
        /\ timestamp_text row (lit "End date") (lit "End time") = Some end_text
        /\ strptime begin_text = Ok (start event1)
        /\ strptime end_text = Ok (end_ event1))
  /\ forall event2,
       parse_row cfg2 row = Ok (Some event2) ->
       minus_hours (start event1) k = Ok (start event2)
       /\ minus_hours (end_ event1) k = Ok (end_ event2)
       /\ minus_hours (start event2) (- k) = Ok (start event1)
       /\ minus_hours (end_ event2) (- k) = Ok (end_ event1)
       /\ course_codes event2 = course_codes event1
       /\ course_names event2 = course_names event1
       /\ activities event2 = activities event1
       /\ title event2 = title event1
       /\ room event2 = room event1
       /\ class_codes event2 = class_codes event1
       /\ class_names event2 = class_names event1.
Proof.
  intros Hrow1 Hoff.
  pose proof (parse_row_event _ _ _ Hrow1) as Hev1.
  destruct (parse_event_local_times cfg1 row event1 Hev1)
    as (bt & et & ls & le & Hbt & Het & Hls & Hle & Vls & Vle & Hs1 & He1).
  split; [|split].
  - intros ->. rewrite <- Hrow1. unfold parse_row, parse_event.
    rewrite Hoff, Z.add_0_r. reflexivity.
  - intros H0. rewrite H0 in Hs1, He1.
    rewrite (minus_hours_zero ls Vls) in Hs1.
    rewrite (minus_hours_zero le Vle) in He1.
    exists bt, et. repeat split; congruence.
  - intros event2 Hrow2.
    pose proof (parse_row_event _ _ _ Hrow2) as Hev2.
    destruct (parse_event_local_times cfg2 row event2 Hev2)
      as (bt' & et' & ls' & le' & Hbt' & Het' & Hls' & Hle' & _ & _
          & Hs2 & He2).
    assert (bt' = bt) by congruence. assert (et' = et) by congruence.
    subst bt' et'.
    assert (ls' = ls) by congruence. assert (le' = le) by congruence.
    subst ls' le'. rewrite Hoff in Hs2, He2.
    destruct (minus_hours_ok _ _ _ Vls Hs1) as [Vs1 _].
    split; [rewrite (minus_hours_compose ls _ k _ Vls Hs1); exact Hs2|].
    split; [rewrite (minus_hours_compose le _ k _ Vle He1); exact He2|].
    split.
    { destruct (minus_hours_ok _ _ _ Vls Hs2) as [Vs2 _].
      pose proof (minus_hours_compose ls _ k _ Vls Hs1) as C1.
      rewrite Hs2 in C1.
      rewrite (minus_hours_compose (start event1) k (- k) _ Vs1 C1).
      replace (k + - k) with 0 by lia. apply minus_hours_zero, Vs1. }
    split.
    { destruct (minus_hours_ok _ _ _ Vle He1) as [Ve1 _].
      pose proof (minus_hours_compose le _ k _ Vle He1) as C1.
      rewrite He2 in C1.
      rewrite (minus_hours_compose (end_ event1) k (- k) _ Ve1 C1).
      replace (k + - k) with 0 by lia. apply minus_hours_zero, Ve1. }
    destruct (parse_event_fields cfg1 row event1 Hev1)
      as (cc & cn & ac & clc & cln & Hcc & Hcn & Hac & Hti & Hro & Hclc & Hcln
          & E1 & E2 & E3 & E4 & E5).
    destruct (parse_event_fields cfg2 row event2 Hev2)
      as (cc' & cn' & ac' & clc' & cln' & Hcc' & Hcn' & Hac' & Hti' & Hro'
          & Hclc' & Hcln' & E1' & E2' & E3' & E4' & E5').
    repeat split; congruence.
Qed.

Lemma offset_only_shifts_the_times_witness :
  parse_row configured lecture_row = Ok (Some lecture_event)
  /\ parse_row summer_time lecture_row = Ok (Some summer_lecture_event)
  /\ minus_hours (start lecture_event) 1 = Ok (start summer_lecture_event)
  /\ minus_hours (start summer_lecture_event) (-1) = Ok (start lecture_event).
Proof.
  assert (H1 : parse_row configured lecture_row = Ok (Some lecture_event))
    by (vm_compute; reflexivity).
  assert (H2 : parse_row summer_time lecture_row
               = Ok (Some summer_lecture_event))
    by (vm_compute; reflexivity).
  destruct (proj2 (proj2 (offset_only_shifts_the_times configured summer_time
                            lecture_row lecture_event 1 H1 eq_refl))
              summer_lecture_event H2) as (Hs & _ & Hback & _).
  repeat split; assumption.
Defined.

Lemma minus_hours_minutes (dt : datetime) (h : Z) (dt' : datetime) :
  valid_datetime dt = true -> minus_hours dt h = Ok dt' ->
  minute dt' = minute dt /\ second dt' = second dt.
Proof.
  intros Hdt H.
  destruct (minus_hours_ok dt h dt' Hdt H) as [Hv Hi].
  apply valid_datetime_bounds in Hdt, Hv.
  destruct Hdt as (_ & _ & Hh & Hm & Hs), Hv as (_ & _ & Hh' & Hm' & Hs').
  unfold instant in Hi. lia.
Qed.

(** X7. A whole-hour offset keeps minutes and seconds: start and end of a
    parsed event have the minutes of the local times and 0 seconds, so the
    texts sent for them end with ":00Z". *)
Theorem minutes_survive_the_offset (cfg : Config) (row : Row) (event : Event) :
  parse_row cfg row = Ok (Some event) ->
  exists begin_text end_text local_start local_end,
    timestamp_text row (lit "Begin date") (lit "Begin time") = Some begin_text
    /\ timestamp_text row (lit "End date") (lit "End time") = Some end_text
    /\ strptime begin_text = Ok local_start
    /\ strptime end_text = Ok local_end
    /\ minute (start event) = minute local_start
    /\ minute (end_ event) = minute local_end
    /\ second (start event) = 0
    /\ second (end_ event) = 0
    /\ (exists s, strftime_iso (start event) = s ++ lit ":00Z")
    /\ (exists s, strftime_iso (end_ event) = s ++ lit ":00Z").
Proof.
  intros Hrow.
  assert (Hev : parse_event cfg row = Ok event).
  { unfold parse_row in Hrow. destruct (skipped row); [discriminate|].
    destruct (parse_event cfg row); cbn [bind] in Hrow; congruence. }
  destruct (parse_event_times cfg row event Hev)
    as (bt & et & ls & le & td & Hbt & Het & Hls & Hle & Htd & Hs & He).
  destruct (strptime_valid _ _ Hls) as [Vls S0].
  destruct (strptime_valid _ _ Hle) as [Vle E0].
  assert (Hs' : minus_hours ls (TIMEZONE_OFFSET cfg) = Ok (start event))
    by (unfold minus_hours; rewrite Htd; exact Hs).
  assert (He' : minus_hours le (TIMEZONE_OFFSET cfg) = Ok (end_ event))
    by (unfold minus_hours; rewrite Htd; exact He).
  destruct (minus_hours_minutes _ _ _ Vls Hs') as [M1 S1].
  destruct (minus_hours_minutes _ _ _ Vle He') as [M2 S2].
  assert (Htail : forall dt, second dt = 0 ->
            exists s, strftime_iso dt = s ++ lit ":00Z").
  { intros dt H0. unfold strftime_iso. rewrite H0.
    exists (year_text (year dt) ++ lit "-" ++ fixed_width 2 (month dt)
            ++ lit "-" ++ fixed_width 2 (day dt) ++ lit "T"
            ++ fixed_width 2 (hour dt) ++ lit ":" ++ fixed_width 2 (minute dt)).
    rewrite <- !app_assoc. reflexivity. }
  exists bt, et, ls, le.
  repeat (split; [assumption|]).
  split; [congruence|]. split; [congruence|].
  split; apply Htail; congruence.
Qed.

Lemma minutes_survive_the_offset_witness :
  exists event,
    parse_row configured lecture_row = Ok (Some event)
    /\ second (start event) = 0
    /\ exists s, strftime_iso (start event) = s ++ lit ":00Z".
Proof.
  assert (Hrow : parse_row configured lecture_row = Ok (Some lecture_event))
    by (vm_compute; reflexivity).
  destruct (minutes_survive_the_offset configured lecture_row lecture_event Hrow)
    as (bt & et & ls & le & _ & _ & _ & _ & _ & _ & S1 & _ & T1 & _).
  exists lecture_event. split; [exact Hrow|]. split; [exact S1 | exact T1].
Defined.

(** *** Translations *)

Lemma translations_en :
  TRANSLATIONS !! lit "en"
  = Some (list_to_map [
       (lit "course", lit "Course");
       (lit "courses", lit "Courses");
       (lit "activity", lit "Activity");
       (lit "title", lit "Title");
       (lit "location", lit "Location");
       (lit "room", lit "Room");
       (lit "campus", lit "Campus");
       (lit "classes", lit "Classes")]).
Proof. unfold TRANSLATIONS. cbn [list_to_map foldr fst snd]. apply lookup_insert_eq. Qed.

Lemma translations_sv :
  TRANSLATIONS !! lit "sv"
  = Some (list_to_map [
       (lit "course", lit "Kurs");
       (lit "courses", lit "Kurser");
       (lit "activity", lit "Aktivitet");
       (lit "title", lit "Titel");
       (lit "location", lit "Plats");
       (lit "room", lit "Rum");
       (lit "campus", lit "Campus");
       (lit "classes", lit "Klasser")]).
Proof.
  unfold TRANSLATIONS. cbn [list_to_map foldr fst snd].
  rewrite lookup_insert_ne by (vm_compute; discriminate).
  apply lookup_insert_eq.
Qed.

Lemma language_supported_iff (cfg : Config) :
  language_supported cfg
  <-> LANGUAGE cfg = lit "en" \/ LANGUAGE cfg = lit "sv".
Proof.
  split; [apply supported_languages|].
  intros [E|E]; unfold language_supported; rewrite E;
    [rewrite translations_en | rewrite translations_sv]; eexists; reflexivity.
Qed.

(** X8. [t] raises [KeyError] exactly when [LANGUAGE] is neither "en" nor
    "sv". With a supported language a key outside the tables is returned as
    it is, and a key of the tables gives a label that is not empty and is
    not the key. *)
Theorem translation_lookup (cfg : Config) (key : str) :
  (t cfg key = Raise KeyError
   <-> LANGUAGE cfg <> lit "en" /\ LANGUAGE cfg <> lit "sv")
  /\ (language_supported cfg ->
      (~ In key translated_keys -> t cfg key = Ok key)
      /\ (In key translated_keys ->
          exists label, t cfg key = Ok label /\ label <> [] /\ label <> key)).
Proof.
  split.
  - split.
    + intros H. split; intros E; unfold t in H; rewrite E in H;
        [rewrite translations_en in H | rewrite translations_sv in H];
        discriminate.
    + intros [H1 H2]. unfold t.
      destruct (TRANSLATIONS !! LANGUAGE cfg) as [table|] eqn:E; [|reflexivity].
      exfalso.
      assert (Hs : language_supported cfg) by (eexists; exact E).
      apply language_supported_iff in Hs. tauto.
  - intros Hlang. apply language_supported_iff in Hlang. split.
    + intros Hkey. unfold t.
      assert (Hne : forall k, In k translated_keys -> k <> key)
        by (intros k Hk ->; contradiction).
      unfold translated_keys in Hne. cbn [In] in Hne.
      destruct Hlang as [E|E]; rewrite E;
        [rewrite translations_en | rewrite translations_sv];
        cbn [list_to_map foldr fst snd];
        rewrite !lookup_insert_ne by (apply Hne; tauto);
        rewrite lookup_empty; reflexivity.
    + intros Hkey. unfold translated_keys in Hkey. cbn [In] in Hkey. unfold t.
      destruct Hlang as [E|E]; rewrite E;
        [rewrite translations_en | rewrite translations_sv];
        repeat (destruct Hkey as [<-|Hkey]); try destruct Hkey;
        vm_compute; eexists; (split; [reflexivity|]); split; discriminate.
Qed.

Lemma translation_lookup_witness :
  t configured (lit "campus") = Ok (lit "Campus")
  /\ t configured (lit "teacher") = Ok (lit "teacher").
Proof.
  assert (Hlang : language_supported configured)
    by (eexists; vm_compute; reflexivity).
  destruct (proj2 (translation_lookup configured (lit "campus")) Hlang)
    as [_ Hknown].
  destruct (proj2 (translation_lookup configured (lit "teacher")) Hlang)
    as [Hunknown _].
  split.
  - destruct Hknown as (label & Hl & _); [vm_compute; tauto|].
    rewrite Hl. vm_compute in Hl. injection Hl as <-. reflexivity.
  - apply Hunknown. vm_compute. intros H.
    repeat (destruct H as [H|H]; [discriminate|]). exact H.
Defined.

(** *** The course block and the description as a whole *)

Lemma course_lines_lookup (codes names : list str) : forall k i code,
  codes !! i = Some code ->
  course_lines codes names k !! i = Some (course_line code (names !! (k + i)%nat)).
Proof.
  induction codes as [|c codes IH]; intros k i code H; [discriminate|].
  destruct i as [|i]; cbn [course_lines].
  - injection H as ->.
    match goal with |- (?x :: _) !! 0%nat = _ => change (Some x = Some (course_line code (names !! (k + 0)%nat))) end.
    rewrite Nat.add_0_r. unfold course_line.
    destruct (names !! k) as [[|ch nm]|]; reflexivity.
  - change (codes !! i = Some code) in H.
    match goal with |- (_ :: ?l) !! S _ = ?r => change (l !! i = r) end.
    rewrite (IH (S k) i code H). do 3 f_equal. lia.
Qed.

Lemma length_course_lines (codes names : list str) (k : nat) :
  length (course_lines codes names k) = length codes.
Proof.
  revert k. induction codes as [|c codes IH]; intros k; cbn; [reflexivity|].
  rewrite IH. reflexivity.
Qed.

(** X9. The course block has one line per course code; the line at index
    [i] joins the code with the course name at index [i] when there is a
    non-empty one, and is the code alone otherwise; names beyond the last
    code are not shown. *)
Theorem course_lines_pair_codes_with_names (codes names : list str) :
  length (course_lines codes names 0) = length codes
  /\ (forall i code,
        codes !! i = Some code ->
        course_lines codes names 0 !! i
        = Some (course_line code (names !! i)))
  /\ course_lines codes names 0
     = course_lines codes (firstn (length codes) names) 0.
Proof.
  split; [apply length_course_lines|]. split.
  - intros i code H. exact (course_lines_lookup codes names 0 i code H).
  - apply list_eq. intros i.
    destruct (codes !! i) as [code|] eqn:E.
    + rewrite (course_lines_lookup codes names 0 i code E).
      rewrite (course_lines_lookup codes _ 0 i code E).
      cbn [Nat.add]. rewrite lookup_take_lt; [reflexivity|].
      apply lookup_lt_Some in E. exact E.
    + apply lookup_ge_None in E.
      rewrite !lookup_ge_None_2; [reflexivity | |];
        rewrite length_course_lines; exact E.
Qed.

Lemma course_lines_end (codes names : list str) (k : nat) :
  codes <> [] ->
  exists s, concat (course_lines codes names k) = s ++ lit "<br>".
Proof.
  revert k. induction codes as [|c codes IH]; intros k H; [contradiction|].
  cbn [course_lines concat].
  destruct codes as [|c' codes].
  - cbn [course_lines concat]. rewrite app_nil_r.
    destruct (nonempty (default [] (names !! k))).
    + exists (lit "   " ++ c ++ lit " - " ++ default [] (names !! k)).
      rewrite <- !app_assoc. reflexivity.
    + exists (lit "   " ++ c). rewrite <- !app_assoc. reflexivity.
  - destruct (IH (S k) ltac:(discriminate)) as [s Hs]. rewrite Hs.
    eexists. rewrite app_assoc. reflexivity.
Qed.

Lemma course_block_shape (cfg : Config) (event : Event) :
  language_supported cfg ->
  exists parts,
    course_block cfg event = Ok parts
    /\ (course_codes event = [] -> parts = [])
    /\ (course_codes event <> [] ->
        exists s, concat parts = s ++ lit "<br><br>").
Proof.
  intros Hlang. unfold course_block.
  destruct (course_codes event) as [|c codes] eqn:Ec; cbn [nonempty].
  - exists []. split; [reflexivity|]. split; [reflexivity | contradiction].
  - assert (Hlabel : exists label,
              (if (1 <? length (c :: codes))%nat
               then t cfg (lit "courses") else t cfg (lit "course"))
              = Ok label).
    { destruct (1 <? length (c :: codes))%nat; apply t_supported, Hlang. }
    destruct Hlabel as (label & ->). cbn [bind].
    eexists. split; [reflexivity|]. split; [discriminate | intros _].
    destruct (course_lines_end (c :: codes) (course_names event) 0
                ltac:(discriminate)) as [s Hs].
    rewrite !concat_app, Hs. cbn [concat]. rewrite !app_nil_r.
    exists ((label ++ lit ":<br>") ++ s). rewrite <- !app_assoc. reflexivity.
Qed.

Lemma closed_by_breaks_app (a b : str) :
  closed_by_breaks a -> closed_by_breaks b -> closed_by_breaks (a ++ b).
Proof.
  intros Ha [->|[p ->]].
  - rewrite app_nil_r. exact Ha.
  - right. exists (a ++ p). rewrite app_assoc. reflexivity.
Qed.

Lemma activity_block_shape (cfg : Config) (event : Event) :
  language_supported cfg ->
  exists parts,
    activity_block cfg event = Ok parts
    /\ (activities event = [] -> parts = [])
    /\ (activities event <> [] -> concat parts <> [])
    /\ closed_by_breaks (concat parts).
Proof.
  intros Hlang. unfold activity_block.
  destruct (t_supported cfg (lit "activity") Hlang) as [label ->].
  destruct (activities event) as [|a acts]; cbn [nonempty bind].
  - exists []. split; [reflexivity|]. split; [reflexivity|].
    split; [contradiction | left; reflexivity].
  - eexists. split; [reflexivity|]. split; [discriminate|].
    split; [discriminate|]. right. cbn [concat]. rewrite app_nil_r.
    exists (CLIPBOARD :: lit " " ++ label ++ lit ": "
            ++ join (lit ", ") (a :: acts)).
    cbn [app]. rewrite <- !app_assoc. reflexivity.
Qed.

Lemma title_block_shape (cfg : Config) (event : Event) :
  language_supported cfg ->
  exists parts,
    title_block cfg event = Ok parts
    /\ (title event = [] -> parts = [])
    /\ (title event <> [] -> activities event = [] -> concat parts <> [])
    /\ closed_by_breaks (concat parts).
Proof.
  intros Hlang. unfold title_block.
  destruct (t_supported cfg (lit "title") Hlang) as [label ->].
  destruct (nonempty (title event)
            && negb (bool_decide (title event ∈ activities event))) eqn:G;
    cbn [bind].
  - eexists. split; [reflexivity|]. split.
    + intros E. rewrite E in G. discriminate.
    + split; [discriminate|]. right. cbn [concat]. rewrite app_nil_r.
      unfold title_line.
      exists (PUSHPIN :: lit " " ++ label ++ lit ": " ++ title event).
      cbn [app]. rewrite <- !app_assoc. reflexivity.
  - exists []. split; [reflexivity|]. split; [reflexivity|].
    split; [|left; reflexivity].
    intros Hne Hact. exfalso. rewrite Hact in G.
    apply nonempty_true in Hne. rewrite Hne in G.
    rewrite bool_decide_eq_false_2 in G by (intros H; inversion H).
    discriminate.
Qed.

Lemma location_block_shape (cfg : Config) (event : Event) :
  language_supported cfg ->
  exists parts,
    location_block cfg event = Ok parts
    /\ (room event = [] -> parts = [])
    /\ (room event <> [] -> concat parts <> [])
    /\ closed_by_breaks (concat parts).
Proof.
  intros Hlang. unfold location_block.
  destruct (t_supported cfg (lit "location") Hlang) as [label ->].
  destruct (nonempty (room event)) eqn:G; cbn [bind].
  - eexists. split; [reflexivity|]. split.
    + intros E. rewrite E in G. discriminate.
    + split; [discriminate|]. right. cbn [concat]. rewrite app_nil_r.
      exists (ROUND_PUSHPIN :: lit " " ++ label ++ lit ": " ++ room event).
      cbn [app]. rewrite <- !app_assoc. reflexivity.
  - exists []. split; [reflexivity|]. split; [reflexivity|].
    split; [|left; reflexivity].
    intros Hne. apply nonempty_true in Hne. congruence.
Qed.

(** X10. With a supported language every event has a description; it
    neither begins nor ends with whitespace, it is empty or ends with
    "<br><br>", and it is empty exactly when the event has no course code,
    no activity, no title and no room. *)
Theorem description_of_an_event (cfg : Config) (event : Event) :
  language_supported cfg ->
  exists d,
    format_event_description cfg event = Ok d
    /\ tidy d
    /\ closed_by_breaks d
    /\ (d = [] <-> nothing_to_describe event).
Proof.
  intros Hlang.
  destruct (course_block_facts cfg event Hlang) as (pc & Ec & Tc & _).
  destruct (activity_block_facts cfg event Hlang) as (pa & Ea & Ta & _).
  destruct (t_supported cfg (lit "title") Hlang) as [label Hlabel].
  destruct (title_block_facts cfg event label Hlabel) as (pt & Et & Tt & _).
  destruct (location_block_facts cfg event Hlang) as (pl & El & Tl & _).
  destruct (course_block_shape cfg event Hlang) as (pc' & Ec' & Hc0 & Hc1).
  destruct (activity_block_shape cfg event Hlang)
    as (pa' & Ea' & Ha0 & Ha1 & Ha2).
  destruct (title_block_shape cfg event Hlang) as (pt' & Et' & Ht0 & Ht1 & Ht2).
  destruct (location_block_shape cfg event Hlang)
    as (pl' & El' & Hl0 & Hl1 & Hl2).
  assert (pc' = pc) by congruence. assert (pa' = pa) by congruence.
  assert (pt' = pt) by congruence. assert (pl' = pl) by congruence.
  subst pc' pa' pt' pl'.
  assert (Hd : format_event_description cfg event
               = Ok (concat pc ++ concat pa ++ concat pt ++ concat pl)).
  { unfold format_event_description, description_parts.
    rewrite Ec, Ea, Et, El. cbn [bind]. f_equal.
    rewrite !concat_app. apply strip_tidy.
    repeat apply tidy_app; assumption. }
  eexists. split; [exact Hd|]. split; [repeat apply tidy_app; assumption|].
  assert (Hcb : closed_by_breaks (concat pc)).
  { destruct (course_codes event) as [|c cs] eqn:E.
    - rewrite (Hc0 eq_refl). left. reflexivity.
    - right. apply Hc1. discriminate. }
  split; [repeat apply closed_by_breaks_app; assumption|].
  unfold nothing_to_describe. split.
  - intros E.
    apply app_eq_nil in E. destruct E as [E1 E].
    apply app_eq_nil in E. destruct E as [E2 E].
    apply app_eq_nil in E. destruct E as [E3 E4].
    assert (Hcodes : course_codes event = []).
    { destruct (course_codes event) as [|c cs] eqn:E; [reflexivity|].
      destruct (Hc1 ltac:(discriminate)) as [s Hs].
      rewrite Hs in E1. destruct s; discriminate. }
    assert (Hacts : activities event = []).
    { destruct (activities event) as [|a acts] eqn:E; [reflexivity|].
      exfalso. apply Ha1; [discriminate | exact E2]. }
    assert (Hroom : room event = []).
    { destruct (room event) as [|c r] eqn:E; [reflexivity|].
      exfalso. apply Hl1; [discriminate | exact E4]. }
    assert (Htitle : title event = []).
    { destruct (title event) as [|c r] eqn:E; [reflexivity|].
      exfalso. apply Ht1; [discriminate | exact Hacts | exact E3]. }
    tauto.
  - intros (H1 & H2 & H3 & H4).
    rewrite (Hc0 H1), (Ha0 H2), (Ht0 H3), (Hl0 H4). reflexivity.
Qed.

Lemma description_of_an_event_witness :
  (exists d, format_event_description configured no_event = Ok d /\ d = [])
  /\ exists d before,
       format_event_description configured lecture_event = Ok d
       /\ d = before ++ lit "<br><br>".
Proof.
  assert (Hlang : language_supported configured)
    by (eexists; vm_compute; reflexivity).
  split.
  - destruct (description_of_an_event configured no_event Hlang)
      as (d & Hd & _ & _ & Hempty).
    exists d. split; [exact Hd|]. apply Hempty. repeat split.
  - destruct (description_of_an_event configured lecture_event Hlang)
      as (d & Hd & _ & [E|[before Hb]] & Hempty).
    + exfalso. apply Hempty in E. destruct E as [E _]. discriminate.
    + exists d, before. split; assumption.
Defined.

(** *** An unsupported language *)

(** X11. With a language that has no table, an event with nothing to
    describe has the empty description, and any other event makes
    [format_event_description] raise [KeyError]: [create_canvas_event] raises
    before any request is sent and the loop stops at that event. *)
Theorem unsupported_language_raises (cfg : Config) (w : World) (event : Event)
    (log : list effect) :
  ~ language_supported cfg ->
  (nothing_to_describe event -> format_event_description cfg event = Ok [])
  /\ (~ nothing_to_describe event ->
      format_event_description cfg event = Raise KeyError
      /\ create_canvas_event cfg w event log = (log, inr (Exception KeyError))
      /\ forall rest counters,
           create_events cfg w (event :: rest) counters log
           = (log, inr (Exception KeyError))).
Proof.
  intros Hlang.
  assert (Ht : forall key, t cfg key = Raise KeyError).
  { intros key. unfold t.
    destruct (TRANSLATIONS !! LANGUAGE cfg) as [table|] eqn:E; [|reflexivity].
    exfalso. apply Hlang. eexists. exact E. }
  unfold nothing_to_describe. split.
  - intros (H1 & H2 & H3 & H4).
    unfold format_event_description, description_parts, course_block,
      activity_block, title_block, location_block.
    rewrite H1, H2, H3, H4. reflexivity.
  - intros Hsome.
    assert (Hd : format_event_description cfg event = Raise KeyError).
    { unfold format_event_description, description_parts, course_block,
        activity_block, title_block, location_block.
      rewrite !Ht.
      destruct (course_codes event) as [|c cs];
        [|cbn [nonempty]; destruct (1 <? length (c :: cs))%nat; reflexivity].
      destruct (activities event) as [|a acts]; [|reflexivity].
      destruct (title event) as [|ch ti];
        [|cbn [nonempty andb];
          rewrite bool_decide_eq_false_2 by (intros H; inversion H);
          reflexivity].
      destruct (room event) as [|ch r]; [|reflexivity].
      exfalso. apply Hsome. tauto. }
    assert (Hc : create_canvas_event cfg w event log
                 = (log, inr (Exception KeyError))).
    { unfold create_canvas_event, io_bind, build_request. rewrite Hd.
      reflexivity. }
    split; [exact Hd|]. split; [exact Hc|].
    intros rest counters. cbn [create_events]. unfold io_bind.
    rewrite Hc. reflexivity.
Qed.

(** *** Runs of [main] *)

Lemma script_log (cfg : Config) (w : World) :
  fst (script cfg w) = fst (main cfg w []).
Proof.
  unfold script. destruct (main cfg w []) as [log [[]|[ex| |code]]];
    reflexivity.
Qed.

(** What [main] does once the file is parsed. *)
Lemma run_after_parsing (cfg : Config) (w : World) (lines : list str)
    (events : list Event) :
  API_TOKEN cfg <> lit "YOUR_API_TOKEN_HERE" ->
  files w (CSV_FILE cfg) = Some lines -> (3 <= length lines)%nat ->
  parse_rows cfg (DictReader w (skipn 3 lines)) [] = Ok events ->
  main cfg w []
  = match stdin w with
    | Answer confirm =>
        if bool_decide (lower confirm ∈ [lit "yes"; lit "y"])
        then match create_events cfg w events (0, 0)
                     [Opened (CSV_FILE cfg); Asked] with
             | (log, inl (s, e)) => (log ++ [Summary s e], inl tt)
             | (log, inr ab) => (log, inr ab)
             end
        else ([Opened (CSV_FILE cfg); Asked], inl tt)
    | EndOfInput => ([Opened (CSV_FILE cfg); Asked], inr (Exception EOFError))
    | InterruptAtPrompt =>
        ([Opened (CSV_FILE cfg); Asked], inr KeyboardInterrupt)
    end.
Proof.
  intros Htok Hfile Hlen Hparse. rewrite (main_eq cfg w Htok), Hfile, Hparse.
  destruct (Nat.ltb_spec (length lines) 3); [lia | reflexivity].
Qed.

(** X12. Unless the answer at the prompt is "yes" or "y" (in any letter
    case) a run sends no request at all; when the file was parsed, the run
    ends after the question, with exit status 0 for an answer and for an
    interrupt at the prompt, and with exit status 1 when the input has
    ended. *)
Theorem nothing_is_sent_unless_confirmed (cfg : Config) (w : World) :
  ~ confirmed w ->
  requests_of (fst (script cfg w)) = []
  /\ (forall lines events,
        API_TOKEN cfg <> lit "YOUR_API_TOKEN_HERE" ->
        files w (CSV_FILE cfg) = Some lines -> (3 <= length lines)%nat ->
        parse_rows cfg (DictReader w (skipn 3 lines)) [] = Ok events ->
        script cfg w
        = ([Opened (CSV_FILE cfg); Asked],
           match stdin w with EndOfInput => 1 | _ => 0 end)).
Proof.
  intros Hno. unfold confirmed in Hno. split.
  - rewrite script_log.
    destruct (decide (API_TOKEN cfg = lit "YOUR_API_TOKEN_HERE")) as [E|Hne].
    + unfold main, str_eqb. rewrite (bool_decide_eq_true_2 _ E). reflexivity.
    + rewrite (main_eq cfg w Hne).
      destruct (files w (CSV_FILE cfg)) as [lines|]; [|reflexivity].
      destruct (length lines <? 3)%nat; [reflexivity|].
      destruct (parse_rows cfg (DictReader w (skipn 3 lines)) []);
        [|reflexivity].
      destruct (stdin w) as [confirm| |]; [|reflexivity..].
      rewrite (bool_decide_eq_false_2 _ Hno). reflexivity.
  - intros lines events Htok Hfile Hlen Hparse. unfold script.
    rewrite (run_after_parsing cfg w lines events Htok Hfile Hlen Hparse).
    destruct (stdin w) as [confirm| |]; [|reflexivity..].
    rewrite (bool_decide_eq_false_2 _ Hno). reflexivity.
Qed.

Lemma nothing_is_sent_unless_confirmed_witness :
  script configured
    (answering (lit "no") (world_of [lecture_row] created_then_rejected))
  = ([Opened (CSV_FILE configured); Asked], 0).
Proof.
  refine (proj2 (nothing_is_sent_unless_confirmed configured
                   (answering (lit "no")
                      (world_of [lecture_row] created_then_rejected)) _)
            [lit "TimeEdit"; lit "Schedule"; lit ""; lit "rows"]
            [lecture_event] _ eq_refl _ _).
  - unfold confirmed. vm_compute. intros H.
    repeat (apply elem_of_cons in H; destruct H as [H|H]; [discriminate|]).
    inversion H.
  - vm_compute. discriminate.
  - vm_compute. lia.
  - vm_compute. reflexivity.
Defined.

(** X13. When the CSV file does not exist, or has fewer than the three
    header lines the parser skips, the run stops with exit status 1 after
    the attempt to open the file, without asking and without sending; the
    parser raises [FileNotFoundError] in the first case and [StopIteration]
    in the second. *)
Theorem unreadable_source_stops_the_run (cfg : Config) (w : World) :
  API_TOKEN cfg <> lit "YOUR_API_TOKEN_HERE" ->
  files w (CSV_FILE cfg) = None
  \/ (exists lines,
        files w (CSV_FILE cfg) = Some lines /\ (length lines < 3)%nat) ->
  script cfg w = ([Opened (CSV_FILE cfg)], 1)
  /\ (files w (CSV_FILE cfg) = None ->
      parse_csv_file cfg w (CSV_FILE cfg) []
      = ([Opened (CSV_FILE cfg)], inr (Exception FileNotFoundError)))
  /\ (files w (CSV_FILE cfg) <> None ->
      parse_csv_file cfg w (CSV_FILE cfg) []
      = ([Opened (CSV_FILE cfg)], inr (Exception StopIteration))).
Proof.
  intros Htok Hsrc. unfold script. rewrite (main_eq cfg w Htok).
  unfold parse_csv_file, io_bind, io_emit. cbn [app].
  destruct Hsrc as [E|(lines & E & Hlen)]; rewrite E.
  - split; [reflexivity|]. split; [reflexivity | contradiction].
  - apply Nat.ltb_lt in Hlen. rewrite Hlen.
    split; [reflexivity|]. split; [discriminate | reflexivity].
Qed.

Lemma unreadable_source_stops_the_run_witness :
  script configured
    (holding [] (world_of [lecture_row] created_then_rejected))
  = ([Opened (CSV_FILE configured)], 1).
Proof.
  refine (proj1 (unreadable_source_stops_the_run configured
                   (holding [] (world_of [lecture_row] created_then_rejected))
                   _ _)).
  - vm_compute. discriminate.
  - right. exists []. split; [reflexivity | cbn; lia].
Defined.

Lemma requests_of_app (log1 log2 : list effect) :
  requests_of (log1 ++ log2) = requests_of log1 ++ requests_of log2.
Proof.
  induction log1 as [|ef log1 IH]; [reflexivity|].
  destruct ef; cbn [app requests_of]; rewrite IH; reflexivity.
Qed.

Lemma requests_of_sent (reqs : list Request) :
  requests_of (List.map Sent reqs) = reqs.
Proof. induction reqs as [|r reqs IH]; cbn; [|rewrite IH]; reflexivity. Qed.

Lemma no_summary_among_requests (path : str) (reqs : list Request) (s e : Z) :
  ~ In (Summary s e) ([Opened path; Asked] ++ List.map Sent reqs).
Proof.
  intros [H|[H|H]]; [discriminate..|].
  apply in_map_iff in H. destruct H as (r & H & _). discriminate.
Qed.

Lemma sent_count_requests (log : list effect) :
  sent_count log = length (requests_of log).
Proof.
  unfold sent_count. induction log as [|ef log IH]; [reflexivity|].
  destruct ef; cbn; rewrite ?IH; reflexivity.
Qed.

Lemma build_request_addressed (cfg : Config) (event : Event) (req : Request) :
  build_request cfg event = Ok req -> addressed_as_configured cfg req.
Proof.
  unfold build_request. intros H. apply bind_ok in H.
  destruct H as (d & _ & H). injection H as <-. repeat split.
Qed.

(** The loop sends the requests of the events in order, until it is over or
    an event has no status. *)
Lemma create_events_run (cfg : Config) (w : World) (events : list Event) :
  forall s e log,
  exists reqs,
    fst (create_events cfg w events (s, e) log) = log ++ List.map Sent reqs
    /\ Forall2 (fun event req => build_request cfg event = Ok req)
         (firstn (length reqs) events) reqs
    /\ (Forall (fun status => status <> None)
          (statuses cfg w events (sent_count log)) ->
        length reqs = length events
        /\ snd (create_events cfg w events (s, e) log)
           = inl (s + Z.of_nat (length (List.filter created
                     (statuses cfg w events (sent_count log)))),
                  e + Z.of_nat (length (List.filter (fun st => negb (created st))
                     (statuses cfg w events (sent_count log))))))
    /\ (~ Forall (fun status => status <> None)
            (statuses cfg w events (sent_count log)) ->
        exists ab, snd (create_events cfg w events (s, e) log) = inr ab
                   /\ forall code, ab <> SystemExit code).
Proof.
  induction events as [|event rest IH]; intros s e log.
  - exists []. cbn. rewrite app_nil_r, !Z.add_0_r.
    split; [reflexivity|]. split; [constructor|].
    split; [intros _; split; reflexivity|].
    intros H. exfalso. apply H. constructor.
  - cbn [create_events statuses]. unfold io_bind.
    unfold create_canvas_event, io_bind, io_lift.
    destruct (build_request cfg event) as [req|ex] eqn:Hreq.
    + unfold io_ret.
      destruct (urlopen w (sent_count log) req) as [st body|st body| |]
        eqn:Hout; cbn [status_of].
      1,2: destruct (IH (fst (count (s, e) st)) (snd (count (s, e) st))
                        (log ++ [Sent req]))
             as (reqs & Hlog & Hreqs & Hok & Hbad);
           rewrite <- surjective_pairing in Hlog, Hok, Hbad;
           rewrite sent_count_app in Hok, Hbad;
           change (sent_count [Sent req]) with 1%nat in Hok, Hbad;
           rewrite Nat.add_1_r in Hok, Hbad;
           exists (req :: reqs);
           (split; [rewrite Hlog, <- app_assoc; reflexivity|]);
           (split; [cbn; constructor; assumption|]);
           (split;
            [intros Hall; inversion Hall as [|? ? _ Hall']; subst;
             destruct (Hok Hall') as [Hlen Hres]; split; [cbn; lia|];
             rewrite Hres; cbn [List.filter created];
             unfold count; destruct (st =? 201);
             cbn [fst snd negb length]; apply f_equal, injective_projections;
             cbn [fst snd]; lia
            |intros Hnot; apply Hbad; intros Hall'; apply Hnot;
             constructor; [discriminate | exact Hall']]).
      all: exists [req]; (split; [reflexivity|]);
        (split; [cbn; constructor; [exact Hreq | constructor]|]);
        (split; [intros Hall; inversion Hall as [|? ? Hhd _]; contradiction|]);
        intros _; eexists; (split; [reflexivity | discriminate]).
    + exists []. unfold io_abort. cbn [fst snd List.map length firstn].
      rewrite app_nil_r. split; [reflexivity|]. split; [constructor|].
      split.
      * intros Hall. inversion Hall as [|? ? Hhd _]. contradiction.
      * intros _. eexists. split; [reflexivity | discriminate].
Qed.

(** The loop ends at the first event that gets no status, with the
    exception that event meets. *)
Lemma create_events_stops (cfg : Config) (w : World) (events : list Event) :
  forall i event s e log,
    events !! i = Some event ->
    Forall (fun status => status <> None)
      (statuses cfg w (firstn i events) (sent_count log)) ->
    statuses cfg w [event] (sent_count log + i) = [None] ->
    exists reqs,
      create_events cfg w events (s, e) log
      = (log ++ List.map Sent reqs,
         inr match build_request cfg event with
             | Raise ex => Exception ex
             | Ok req =>
                 match urlopen w (sent_count log + i) req with
                 | Interrupted => KeyboardInterrupt
                 | _ => Exception URLError
                 end
             end)
      /\ length reqs
         = if is_ok (build_request cfg event) then S i else i.
Proof.
  induction events as [|first rest IH]; intros i event s e log Hi Hall Hnone;
    [discriminate|].
  destruct i as [|i].
  - injection Hi as ->. rewrite Nat.add_0_r in *.
    cbn [statuses] in Hnone. cbn [create_events]. unfold io_bind.
    unfold create_canvas_event, io_bind, io_lift.
    destruct (build_request cfg event) as [req|ex] eqn:Hreq; cbn [is_ok].
    + unfold io_ret.
      destruct (urlopen w (sent_count log) req) as [st body|st body| |];
        cbn [status_of] in Hnone; [discriminate..| |];
        exists [req]; split; reflexivity.
    + exists []. unfold io_abort. cbn [List.map]. rewrite app_nil_r.
      split; reflexivity.
  - change ((first :: rest) !! S i) with (rest !! i) in Hi.
    cbn [firstn statuses] in Hall. inversion Hall as [|? ? Hhd Htl]; subst.
    cbn [create_events]. unfold io_bind.
    destruct (build_request cfg first) as [req0|ex] eqn:Hreq0;
      [|contradiction].
    rewrite (create_canvas_event_eq _ _ _ _ _ Hreq0).
    assert (Hcount : sent_count (log ++ [Sent req0]) = S (sent_count log))
      by (rewrite sent_count_app; cbn; lia).
    rewrite <- Hcount in Htl.
    replace (sent_count log + S i)%nat
      with (sent_count (log ++ [Sent req0]) + i)%nat in * by lia.
    destruct (urlopen w (sent_count log) req0) as [st body|st body| |];
      cbn [status_of] in Hhd; [| |contradiction..].
    all: destruct (IH i event (fst (count (s, e) st)) (snd (count (s, e) st))
                      (log ++ [Sent req0]) Hi Htl Hnone)
           as (reqs & Hrun & Hlen);
      rewrite <- surjective_pairing in Hrun;
      exists (req0 :: reqs); rewrite Hrun, <- app_assoc;
      (split; [reflexivity|]); cbn [length]; rewrite Hlen;
      destruct (is_ok (build_request cfg event)); reflexivity.
Qed.

(** X14. The requests of a run are those of the parsed events, in the
    order of the events and without gaps, each to the calendar endpoint of
    the configured domain with the configured token and course; there are
    never more requests than events, and exactly as many in a run that
    prints the summary. *)
Theorem requests_follow_the_events (cfg : Config) (w : World)
    (lines : list str) (events : list Event) :
  API_TOKEN cfg <> lit "YOUR_API_TOKEN_HERE" ->
  files w (CSV_FILE cfg) = Some lines -> (3 <= length lines)%nat ->
  parse_rows cfg (DictReader w (skipn 3 lines)) [] = Ok events ->
  exists reqs,
    requests_of (fst (script cfg w)) = reqs
    /\ (length reqs <= length events)%nat
    /\ Forall2 (fun event req => build_request cfg event = Ok req)
         (firstn (length reqs) events) reqs
    /\ Forall (addressed_as_configured cfg) reqs
    /\ (forall s e, In (Summary s e) (fst (script cfg w)) ->
        length reqs = length events).
Proof.
  intros Htok Hfile Hlen Hparse. rewrite script_log.
  rewrite (run_after_parsing cfg w lines events Htok Hfile Hlen Hparse).
  assert (Hnone : exists reqs : list Request,
            requests_of [Opened (CSV_FILE cfg); Asked] = reqs
            /\ (length reqs <= length events)%nat
            /\ Forall2 (fun event req => build_request cfg event = Ok req)
                 (firstn (length reqs) events) reqs
            /\ Forall (addressed_as_configured cfg) reqs
            /\ (forall s e, In (Summary s e) [Opened (CSV_FILE cfg); Asked] ->
                length reqs = length events)).
  { exists []. cbn [requests_of length firstn]. split; [reflexivity|].
    split; [lia|]. split; [constructor|]. split; [constructor|].
    intros s e [H|[H|[]]]; discriminate. }
  destruct (stdin w) as [confirm| |]; [|exact Hnone..].
  destruct (bool_decide (lower confirm ∈ [lit "yes"; lit "y"]));
    [|exact Hnone].
  clear Hnone.
  destruct (create_events_run cfg w events 0 0
              [Opened (CSV_FILE cfg); Asked])
    as (reqs & Hlog & Hreqs & Hok & Hbad).
  assert (Haddr : Forall (addressed_as_configured cfg) reqs).
  { clear Hlog Hok Hbad. revert Hreqs.
    generalize (firstn (length reqs) events). intros evs H.
    induction H as [|ev r evs rs Hr _ IH]; constructor;
      [exact (build_request_addressed cfg ev r Hr) | exact IH]. }
  assert (Hle : (length reqs <= length events)%nat).
  { apply Forall2_length in Hreqs. rewrite length_firstn in Hreqs. lia. }
  exists reqs.
  destruct (create_events cfg w events (0, 0)
              [Opened (CSV_FILE cfg); Asked]) as [log [[s e]|ab]] eqn:Hrun;
    cbn [fst snd] in Hlog, Hok, Hbad; subst log; cbn [fst];
    rewrite !requests_of_app, requests_of_sent; cbn [requests_of app];
    rewrite ?app_nil_r.
  - split; [reflexivity|]. split; [exact Hle|]. split; [exact Hreqs|].
    split; [exact Haddr|]. intros _ _ _.
    destruct (decide (Forall (fun status => status <> None)
                        (statuses cfg w events
                           (sent_count [Opened (CSV_FILE cfg); Asked]))))
      as [Hall|Hnot]; [apply Hok, Hall|].
    destruct (Hbad Hnot) as (ab & Hab & _). discriminate.
  - split; [reflexivity|]. split; [exact Hle|]. split; [exact Hreqs|].
    split; [exact Haddr|]. intros s e Hin. exfalso.
    exact (no_summary_among_requests _ reqs s e Hin).
Qed.

(** X15. In a confirmed run in which every submission returns a status,
    every event is sent and the summary reports as successes the number of
    statuses equal to 201 and as errors the number of the others; the exit
    status is 0 whatever the statuses are. *)
Theorem summary_counts_the_created (cfg : Config) (w : World)
    (lines : list str) (events : list Event) :
  API_TOKEN cfg <> lit "YOUR_API_TOKEN_HERE" ->
  files w (CSV_FILE cfg) = Some lines -> (3 <= length lines)%nat ->
  parse_rows cfg (DictReader w (skipn 3 lines)) [] = Ok events ->
  confirmed w ->
  Forall (fun status => status <> None) (statuses cfg w events 0) ->
  exists reqs,
    Forall2 (fun event req => build_request cfg event = Ok req) events reqs
    /\ script cfg w
       = ([Opened (CSV_FILE cfg); Asked] ++ List.map Sent reqs
          ++ [Summary
                (Z.of_nat (length (List.filter created
                                     (statuses cfg w events 0))))
                (Z.of_nat (length (List.filter (fun st => negb (created st))
                                     (statuses cfg w events 0))))], 0).
Proof.
  intros Htok Hfile Hlen Hparse Hyes Hall. unfold script.
  rewrite (run_after_parsing cfg w lines events Htok Hfile Hlen Hparse).
  unfold confirmed in Hyes.
  destruct (stdin w) as [confirm| |]; [|contradiction..].
  rewrite (bool_decide_eq_true_2 _ Hyes).
  destruct (create_events_run cfg w events 0 0 [Opened (CSV_FILE cfg); Asked])
    as (reqs & Hlog & Hreqs & Hok & _).
  change (sent_count [Opened (CSV_FILE cfg); Asked]) with 0%nat in Hok.
  destruct (Hok Hall) as [Hn Hres].
  destruct (create_events cfg w events (0, 0) [Opened (CSV_FILE cfg); Asked])
    as [log res]. cbn [fst snd] in Hlog, Hres. subst log res.
  exists reqs. split.
  - rewrite Hn, firstn_all in Hreqs. exact Hreqs.
  - cbn [Z.add]. rewrite <- app_assoc. reflexivity.
Qed.

(** X16. Once the file is parsed the exit status is 0 or 1. It is 1 when
    the input has ended at the prompt. Otherwise it is 0 when the run is not
    confirmed or every event gets a status, whatever the statuses. In a
    confirmed run the first event that gets no status decides: the status
    is 1 when its request cannot be built or fails below HTTP, and it is 0,
    with the later events unsent and no summary, when the request is
    interrupted from the keyboard. *)
Theorem exit_status_of_a_run (cfg : Config) (w : World)
    (lines : list str) (events : list Event) :
  API_TOKEN cfg <> lit "YOUR_API_TOKEN_HERE" ->
  files w (CSV_FILE cfg) = Some lines -> (3 <= length lines)%nat ->
  parse_rows cfg (DictReader w (skipn 3 lines)) [] = Ok events ->
  (snd (script cfg w) = 0 \/ snd (script cfg w) = 1)
  /\ (stdin w = EndOfInput -> snd (script cfg w) = 1)
  /\ (stdin w <> EndOfInput ->
      (confirmed w ->
       Forall (fun status => status <> None) (statuses cfg w events 0)) ->
      snd (script cfg w) = 0)
  /\ (confirmed w ->
      forall i event,
        events !! i = Some event ->
        Forall (fun status => status <> None)
          (statuses cfg w (firstn i events) 0) ->
        (forall ex, build_request cfg event = Raise ex ->
                    snd (script cfg w) = 1)
        /\ (forall req,
              build_request cfg event = Ok req ->
              (urlopen w i req = TransportFailure -> snd (script cfg w) = 1)
              /\ (urlopen w i req = Interrupted ->
                  snd (script cfg w) = 0
                  /\ length (requests_of (fst (script cfg w))) = S i
                  /\ forall s e, ~ In (Summary s e) (fst (script cfg w))))).
Proof.
  intros Htok Hfile Hlen Hparse.
  pose proof (run_after_parsing cfg w lines events Htok Hfile Hlen Hparse)
    as Hmain.
  split; [|split; [|split]].
  - unfold script. rewrite Hmain.
    destruct (stdin w) as [confirm| |]; [|right; reflexivity|left; reflexivity].
    destruct (bool_decide (lower confirm ∈ [lit "yes"; lit "y"]));
      [|left; reflexivity].
    destruct (create_events_run cfg w events 0 0
                [Opened (CSV_FILE cfg); Asked]) as (reqs & _ & _ & Hok & Hbad).
    destruct (decide (Forall (fun status => status <> None)
                        (statuses cfg w events
                           (sent_count [Opened (CSV_FILE cfg); Asked]))))
      as [Hall|Hnot].
    + destruct (Hok Hall) as [_ Hres].
      destruct (create_events cfg w events (0, 0)
                  [Opened (CSV_FILE cfg); Asked]) as [log res].
      cbn [snd] in Hres. subst res. left. reflexivity.
    + destruct (Hbad Hnot) as (ab & Hres & Hab).
      destruct (create_events cfg w events (0, 0)
                  [Opened (CSV_FILE cfg); Asked]) as [log res].
      cbn [snd] in Hres. subst res.
      destruct ab as [ex| |code];
        [right; reflexivity | left; reflexivity|].
      exfalso. exact (Hab code eq_refl).
  - intros Hin. unfold script. rewrite Hmain, Hin. reflexivity.
  - intros Hin Hall. unfold script. rewrite Hmain.
    unfold confirmed in Hall.
    destruct (stdin w) as [confirm| |]; [|contradiction|reflexivity].
    destruct (bool_decide (lower confirm ∈ [lit "yes"; lit "y"])) eqn:Hc;
      [|reflexivity].
    apply bool_decide_eq_true in Hc. specialize (Hall Hc).
    destruct (create_events_run cfg w events 0 0
                [Opened (CSV_FILE cfg); Asked]) as (reqs & _ & _ & Hok & _).
    destruct (Hok Hall) as [_ Hres].
    destruct (create_events cfg w events (0, 0)
                [Opened (CSV_FILE cfg); Asked]) as [log res].
    cbn [snd] in Hres. subst res. reflexivity.
  - intros Hyes i event Hi Hall. unfold confirmed in Hyes.
    rewrite script_log. unfold script. rewrite Hmain.
    destruct (stdin w) as [confirm| |]; [|contradiction..].
    rewrite (bool_decide_eq_true_2 _ Hyes).
    assert (Hstop : statuses cfg w [event] i = [None] ->
              exists reqs,
                create_events cfg w events (0, 0)
                  [Opened (CSV_FILE cfg); Asked]
                = ([Opened (CSV_FILE cfg); Asked] ++ List.map Sent reqs,
                   inr match build_request cfg event with
                       | Raise ex => Exception ex
                       | Ok req =>
                           match urlopen w i req with
                           | Interrupted => KeyboardInterrupt
                           | _ => Exception URLError
                           end
                       end)
                /\ length reqs
                   = if is_ok (build_request cfg event) then S i else i).
    { intros Hnone.
      exact (create_events_stops cfg w events i event 0 0
               [Opened (CSV_FILE cfg); Asked] Hi Hall Hnone). }
    cbn [statuses] in Hstop. split.
    + intros ex Hex. rewrite Hex in Hstop.
      destruct (Hstop eq_refl) as (reqs & -> & _). reflexivity.
    + intros req Hreq. rewrite Hreq in Hstop. split; intros Hout;
        rewrite Hout in Hstop; destruct (Hstop eq_refl) as (reqs & -> & Hn);
        [reflexivity|].
      cbn [fst snd is_ok] in *. split; [reflexivity|]. split.
      * rewrite requests_of_app, requests_of_sent. cbn [requests_of app].
        exact Hn.
      * intros s e. apply no_summary_among_requests.
Qed.

(** *** The title of a parsed event *)

Lemma no_leading_space_app_l (a b : str) :
  a <> [] -> no_leading_space a -> no_leading_space (a ++ b).
Proof. destruct a; [contradiction | intros _ H; exact H]. Qed.

Lemma join_nonempty (sep : str) (xs : list str) :
  xs <> [] -> Forall (fun x => x <> []) xs -> join sep xs <> [].
Proof.
  intros Hne Hall. destruct xs as [|x xs]; [contradiction|].
  inversion Hall as [|? ? Hx _]; subst.
  destruct xs as [|y xs]; cbn [join]; [exact Hx|].
  destruct x; [contradiction | discriminate].
Qed.

Lemma join_tidy (sep : str) (xs : list str) :
  Forall (fun x => x <> [] /\ tidy x) xs -> tidy (join sep xs).
Proof.
  induction xs as [|x xs IH]; intros Hall; [apply tidy_nil|].
  inversion Hall as [|? ? [Hx Tx] Hall']; subst.
  destruct xs as [|y xs]; [exact Tx|].
  change (join sep (x :: y :: xs)) with (x ++ sep ++ join sep (y :: xs)).
  specialize (IH Hall'). destruct Tx as [Tx1 Tx2], IH as [_ IH2].
  assert (Hj : join sep (y :: xs) <> []).
  { apply join_nonempty; [discriminate|].
    eapply Forall_impl; [exact Hall'|]. intros ? [? _]. assumption. }
  split.
  - apply no_leading_space_app_l; assumption.
  - rewrite !rev_app_distr, <- app_assoc.
    apply no_leading_space_app_l; [|exact IH2].
    intros E. apply Hj. rewrite <- (rev_involutive (join sep (y :: xs))), E.
    reflexivity.
Qed.

Lemma split_app_separator (sep : char) (x s : str) :
  ~ In sep x -> split sep (x ++ sep :: s) = x :: split sep s.
Proof.
  induction x as [|c x IH]; intros H; cbn [app split].
  - rewrite N.eqb_refl. reflexivity.
  - destruct (N.eqb_spec c sep) as [->|Hne];
      [exfalso; apply H; left; reflexivity|].
    rewrite IH; [reflexivity|]. intros Hx. apply H. right. exact Hx.
Qed.

Lemma split_field_space (s : str) : split_field (32%N :: s) = split_field s.
Proof.
  unfold split_field. cbn [split].
  change (32 =? comma)%N with false. cbn iota.
  destruct (split comma s) as [|seg segs] eqn:E.
  - exfalso. destruct s; cbn in E; [discriminate|].
    destruct (n =? comma)%N; [discriminate|].
    destruct (split comma s); discriminate.
  - cbn [List.filter].
    change (strip (32%N :: seg)) with (strip seg).
    destruct (nonempty (strip seg)); cbn [List.map]; [|reflexivity].
    change (strip (32%N :: seg)) with (strip seg). reflexivity.
Qed.

Lemma split_field_join (xs : list str) :
  Forall (fun x => x <> [] /\ tidy x /\ ~ In comma x) xs ->
  xs <> [] ->
  split_field (join (lit ", ") xs) = xs.
Proof.
  induction xs as [|x xs IH]; intros Hall Hne; [contradiction|].
  inversion Hall as [|? ? (Hx & Tx & Cx) Hall']; subst.
  assert (Hone : forall s,
            split_field (x ++ comma :: s) = x :: split_field s).
  { intros s. unfold split_field. rewrite (split_app_separator comma x s Cx).
    cbn [List.filter]. rewrite (strip_tidy x Tx).
    rewrite (proj2 (nonempty_true x) Hx). cbn [List.map].
    rewrite (strip_tidy x Tx). reflexivity. }
  destruct xs as [|y xs].
  - cbn [join]. unfold split_field.
    rewrite (split_without_separator comma x Cx). cbn [List.filter].
    rewrite (strip_tidy x Tx), (proj2 (nonempty_true x) Hx). cbn [List.map].
    rewrite (strip_tidy x Tx). reflexivity.
  - change (join (lit ", ") (x :: y :: xs))
      with (x ++ comma :: 32%N :: join (lit ", ") (y :: xs)).
    rewrite Hone, split_field_space, IH; [reflexivity | exact Hall' | discriminate].
Qed.

(** X17. The title sent for a parsed event is never empty and neither
    begins nor ends with whitespace; when it is made from the activities,
    splitting it again as a comma-separated field gives the activities
    back. *)
Theorem title_of_a_parsed_event (cfg : Config) (row : Row) (event : Event) :
  parse_row cfg row = Ok (Some event) ->
  format_event_title event <> []
  /\ tidy (format_event_title event)
  /\ (activities event <> [] ->
      split_field (format_event_title event) = activities event).
Proof.
  intros Hrow. apply parse_row_event in Hrow.
  destruct (parse_event_clean cfg row event Hrow) as (Hall & Ttitle & _).
  rewrite !Forall_app in Hall. destruct Hall as (Hnames & Hacts & _).
  unfold format_event_title.
  destruct (activities event) as [|a acts] eqn:Ea; cbn [nonempty].
  - destruct (title event) as [|c ti] eqn:Et; cbn [nonempty].
    + destruct (course_names event) as [|course others] eqn:Ec.
      * split; [discriminate|]. split; [split; reflexivity | contradiction].
      * inversion Hnames as [|? ? (Hc & Tc & _) _]; subst.
        destruct (40 <? length course)%nat eqn:Hlen.
        -- apply Nat.ltb_lt in Hlen. unfold slice_to.
           destruct course as [|ch course]; [contradiction|].
           split; [discriminate|]. split; [|contradiction].
           split; [exact (proj1 Tc)|].
           rewrite rev_app_distr. reflexivity.
        -- split; [exact Hc|]. split; [exact Tc | contradiction].
    + split; [discriminate|]. split; [exact Ttitle | contradiction].
  - split; [|split].
    + apply join_nonempty; [discriminate|].
      eapply Forall_impl; [exact Hacts|]. intros ? [? _]. assumption.
    + apply join_tidy.
      eapply Forall_impl; [exact Hacts|]. intros ? (? & ? & _). tauto.
    + intros _. apply split_field_join; [exact Hacts | discriminate].
Qed.

Lemma title_of_a_parsed_event_witness :
  exists event,
    parse_row configured
      (<[lit "Activity" := PyStr (lit " Lecture ,, Exercise")]> lecture_row)
    = Ok (Some event)
    /\ format_event_title event = lit "Lecture, Exercise"
    /\ split_field (format_event_title event)
       = [lit "Lecture"; lit "Exercise"].
Proof.
  destruct (parse_row configured
              (<[lit "Activity" := PyStr (lit " Lecture ,, Exercise")]>
                 lecture_row)) as [[event|]|e] eqn:Hrow;
    try (vm_compute in Hrow; discriminate).
  exists event. split; [reflexivity|].
  destruct (title_of_a_parsed_event configured _ event Hrow) as (_ & _ & Hback).
  assert (Ha : activities event = [lit "Lecture"; lit "Exercise"]).
  { vm_compute in Hrow. injection Hrow as <-. reflexivity. }
  split.
  - vm_compute in Hrow. injection Hrow as <-. reflexivity.
  - rewrite Hback; [exact Ha | rewrite Ha; discriminate].
Defined.

(** *** Worked instances *)

Lemma parsed_event_is_normalised_witness :
  tidy (title lecture_event)
  /\ tidy (room lecture_event)
  /\ Forall (fun x => x <> [] /\ tidy x /\ ~ In comma x)
       (activities lecture_event).
Proof.
  assert (Hrow : parse_row configured lecture_row = Ok (Some lecture_event))
    by (vm_compute; reflexivity).
  pose proof (parsed_event_is_normalised configured lecture_row lecture_event
                Hrow) as H.
  cbv zeta in H. destruct H as (_ & Ha & _ & _ & Ht & Hr).
  split; [exact Ht|]. split; [exact Hr | exact Ha].
Defined.

Lemma events_follow_the_rows_witness :
  Forall2 (fun row event => parse_row configured row = Ok (Some event))
    (List.filter (fun row => negb (skipped row))
       [lecture_row; blank_row; lecture_row])
    [lecture_event; lecture_event]
  /\ length [lecture_event; lecture_event]
     = length (List.filter (fun row => negb (skipped row))
                 [lecture_row; blank_row; lecture_row]).
Proof.
  apply (proj2 (events_follow_the_rows configured
                  [lecture_row; blank_row; lecture_row])).
  vm_compute. reflexivity.
Defined.

Lemma course_lines_pair_codes_with_names_witness :
  course_lines [lit "TDA357"; lit "DIT621"] [lit "Databases"] 0 !! 1%nat
  = Some (lit "   DIT621<br>")
  /\ course_lines [lit "TDA357"] [lit "Databases"; lit "Algorithms"] 0
     = course_lines [lit "TDA357"] [lit "Databases"] 0.
Proof.
  split.
  - exact (proj1 (proj2 (course_lines_pair_codes_with_names
                           [lit "TDA357"; lit "DIT621"] [lit "Databases"]))
             1%nat (lit "DIT621") eq_refl).
  - exact (proj2 (proj2 (course_lines_pair_codes_with_names
                           [lit "TDA357"] [lit "Databases"; lit "Algorithms"]))).
Defined.

Lemma unsupported_language_raises_witness :
  format_event_description german no_event = Ok []
  /\ format_event_description german lecture_event = Raise KeyError
  /\ create_canvas_event german
       (world_of [lecture_row] created_then_rejected) lecture_event []
     = ([], inr (Exception KeyError)).
Proof.
  assert (Hlang : ~ language_supported german).
  { intros [table H]. vm_compute in H. discriminate. }
  destruct (unsupported_language_raises german
              (world_of [lecture_row] created_then_rejected) no_event []
              Hlang) as [Hblank _].
  destruct (unsupported_language_raises german
              (world_of [lecture_row] created_then_rejected) lecture_event []
              Hlang) as [_ Hfull].
  split; [apply Hblank; repeat split|].
  destruct Hfull as (Hd & Hc & _).
  - intros (H & _). discriminate.
  - split; assumption.
Defined.

Lemma requests_follow_the_events_witness :
  exists reqs,
    requests_of
      (fst (script configured
              (world_of [lecture_row; blank_row; lecture_row]
                 created_then_rejected))) = reqs
    /\ (length reqs <= 2)%nat
    /\ Forall (addressed_as_configured configured) reqs.
Proof.
  destruct (requests_follow_the_events configured
              (world_of [lecture_row; blank_row; lecture_row]
                 created_then_rejected)
              [lit "TimeEdit"; lit "Schedule"; lit ""; lit "rows"]
              [lecture_event; lecture_event])
    as (reqs & Hreqs & Hlen & _ & Haddr & _).
  - vm_compute. discriminate.
  - reflexivity.
  - vm_compute. lia.
  - vm_compute. reflexivity.
  - exists reqs. split; [exact Hreqs|]. split; [exact Hlen | exact Haddr].
Defined.

Lemma summary_counts_the_created_witness :
  exists reqs,
    script configured
      (world_of [lecture_row; blank_row; lecture_row] created_then_rejected)
    = ([Opened (CSV_FILE configured); Asked] ++ List.map Sent reqs
       ++ [Summary 1 1], 0).
Proof.
  destruct (summary_counts_the_created configured
              (world_of [lecture_row; blank_row; lecture_row]
                 created_then_rejected)
              [lit "TimeEdit"; lit "Schedule"; lit ""; lit "rows"]
              [lecture_event; lecture_event])
    as (reqs & _ & Hrun).
  - vm_compute. discriminate.
  - reflexivity.
  - vm_compute. lia.
  - vm_compute. reflexivity.
  - unfold confirmed. vm_compute. apply list_elem_of_here.
  - vm_compute. repeat constructor; discriminate.
  - exists reqs. rewrite Hrun. reflexivity.
Defined.

Lemma exit_status_of_a_run_witness :
  snd (script configured
         (world_of [lecture_row; lecture_row] unreachable_then_created)) = 1
  /\ snd (script configured
            (world_of [lecture_row; lecture_row] created_then_interrupted))
     = 0.
Proof.
  assert (Hreq : exists req, build_request configured lecture_event = Ok req)
    by (eexists; vm_compute; reflexivity).
  destruct Hreq as [req Hreq].
  assert (Hyes : forall outcomes,
            confirmed (world_of [lecture_row; lecture_row] outcomes)).
  { intros outcomes. unfold confirmed. vm_compute. apply list_elem_of_here. }
  split.
  - destruct (exit_status_of_a_run configured
                (world_of [lecture_row; lecture_row] unreachable_then_created)
                [lit "TimeEdit"; lit "Schedule"; lit ""; lit "rows"]
                [lecture_event; lecture_event]) as (_ & _ & _ & Hfirst).
    + vm_compute. discriminate.
    + reflexivity.
    + vm_compute. lia.
    + vm_compute. reflexivity.
    + refine (proj1 (proj2 (Hfirst (Hyes _) 0%nat lecture_event eq_refl _)
                       req Hreq) eq_refl).
      constructor.
  - destruct (exit_status_of_a_run configured
                (world_of [lecture_row; lecture_row] created_then_interrupted)
                [lit "TimeEdit"; lit "Schedule"; lit ""; lit "rows"]
                [lecture_event; lecture_event]) as (_ & _ & _ & Hfirst).
    + vm_compute. discriminate.
    + reflexivity.
    + vm_compute. lia.
    + vm_compute. reflexivity.
    + refine (proj1 (proj2 (proj2 (Hfirst (Hyes _) 1%nat lecture_event
                                     eq_refl _) req Hreq) eq_refl)).
      vm_compute. constructor; [discriminate | constructor].
Defined.
